(** * SmartQueue reminder service: the reminder delivery pipeline

    A shallow embedding of [django_reminder_service/reminders]:
    [models.py] (the [ReminderLog] and [EmailTemplate] tables),
    [mongodb_client.py] (the appointment source) and [tasks.py] (the Celery
    tasks), followed by the properties of the delivery pipeline.

    Conventions.
    - A [datetime] is an instant, a [Z] counted in microseconds (the
      resolution of Python's [datetime]); a [timedelta] is a [Z] as well.
    - A MongoDB document and a Python [dict] are [gmap string value].
    - A Django table is the list of its rows in insertion order together with
      the next value of its primary-key sequence; the constraints of
      [models.py] ([unique], [unique_together]) are checked where the
      database checks them, at insert and update time.
    - Code that can raise runs in the monad [M]: a state transformer over the
      [world] whose result is a value or a raised exception.  Effects made
      before an exception stay: the tasks open no transaction.
    - Python builtins that are not code of the repository ([strftime],
      [str], [repr], [format], [getattr]), the outcome of the SMTP
      gateway, of the broker and of the MongoDB server are parameters,
      gathered in the record [Env].
    - [datetime.now()], [datetime.utcnow()] and [timezone.now()] read the
      clock of the world.  Time does not pass inside one call; between the
      steps of concurrent workers the scheduler lets it pass. *)

From Stdlib Require Import ZArith String Ascii List Bool Lia.
From stdpp Require Import gmap strings list fin_maps.
Import ListNotations.

#[local] Set Warnings "-register-all".
#[local] Open Scope string_scope.
#[local] Open Scope Z_scope.
#[local] Open Scope list_scope.

(** ** Values and exceptions *)

Inductive value : Type :=
  | VNone
  | VBool (b : bool)
  | VInt (n : Z)
  | VStr (s : string)
  | VDate (t : Z)
  | VDict (d : gmap string value).

Abbreviation document := (gmap string value).

Inductive exn_kind : Type :=
  | KeyError | TypeError | ValueError | IndexError | AttributeError
  | DoesNotExist | MultipleObjectsReturned | IntegrityError
  | SMTPException | PyMongoError | OperationalError.

Record exn : Type := Exn { kind : exn_kind; exn_message : string }.

Inductive res (A : Type) : Type :=
  | Ok (a : A)
  | Raise (e : exn).
Arguments Ok {A} a.
Arguments Raise {A} e.

Definition res_bind {A B} (r : res A) (k : A -> res B) : res B :=
  match r with
  | Ok a => k a
  | Raise e => Raise e
  end.

Definition raised {A} (r : res A) : Prop := exists e, r = Raise e.

(** [d.get(key, default)] and [d[key]]. *)
Definition dict_get (d : document) (key : string) (default : value) : value :=
  match d !! key with
  | Some v => v
  | None => default
  end.

Definition dict_getitem (d : document) (key : string) : res value :=
  match d !! key with
  | Some v => Ok v
  | None => Raise (Exn KeyError key)
  end.

Definition timedelta_minutes (m : Z) : Z := m * 60 * 1000000.
Definition timedelta_days (d : Z) : Z := d * 24 * 60 * 60 * 1000000.

(** ** Builtins of the Python runtime *)

Record Builtins : Type := {
  strftime : Z -> string -> string;
  py_str : value -> string;
  py_repr : value -> string;
  py_ascii : value -> string;
  py_format : value -> string -> res string;
  py_getattr : value -> string -> res value
}.

(** ** [str.format]

    The templates are rendered with [str.format], the context given as
    keyword arguments.
    [markup] follows CPython's [MarkupIterator_next] and [parse_field]: it
    cuts a format string into literal text and replacement fields, one
    character at a time; [{{] and [}}] are escapes, a [}] alone or a field
    that does not end is an error, which is raised when rendering reaches
    it. *)

Module Format.

Inductive piece : Type :=
  | Lit (s : string)
  | Field (name : string) (conv : option ascii) (spec : string)
  | Malformed (msg : string).

Inductive mode : Type :=
  | Text (lit : string)
  | AfterOpen (lit : string)
  | AfterClose (lit : string)
  | FieldName (name : string) (in_bracket : bool)
  | Conv1 (name : string)
  | Conv2 (name : string) (c : ascii)
  | Spec (name : string) (conv : option ascii) (spec : string) (depth : nat).

Definition snoc (s : string) (c : ascii) : string := s ++ String c EmptyString.

Definition is_char (c d : ascii) : bool := Ascii.eqb c d.

Definition step_field (name : string) (in_bracket : bool) (c : ascii)
  : list piece * option mode :=
  if in_bracket then
    ([], Some (FieldName (snoc name c) (negb (is_char c "]"))))
  else if is_char c "{" then
    ([Malformed "unexpected '{' in field name"], None)
  else if is_char c "[" then ([], Some (FieldName (snoc name c) true))
  else if is_char c "}" then ([Field name None EmptyString], Some (Text EmptyString))
  else if is_char c ":" then ([], Some (Spec name None EmptyString 1))
  else if is_char c "!" then ([], Some (Conv1 name))
  else ([], Some (FieldName (snoc name c) false)).

Definition step (m : mode) (c : ascii) : list piece * option mode :=
  match m with
  | Text lit =>
      if is_char c "{" then ([], Some (AfterOpen lit))
      else if is_char c "}" then ([], Some (AfterClose lit))
      else ([], Some (Text (snoc lit c)))
  | AfterOpen lit =>
      if is_char c "{" then ([], Some (Text (snoc lit c)))
      else let '(out, m') := step_field EmptyString false c in (Lit lit :: out, m')
  | AfterClose lit =>
      if is_char c "}" then ([], Some (Text (snoc lit c)))
      else ([Malformed "Single '}' encountered in format string"], None)
  | FieldName name b => step_field name b c
  | Conv1 name => ([], Some (Conv2 name c))
  | Conv2 name cv =>
      if is_char c "}" then ([Field name (Some cv) EmptyString], Some (Text EmptyString))
      else if is_char c ":" then ([], Some (Spec name (Some cv) EmptyString 1))
      else ([Malformed "expected ':' after conversion specifier"], None)
  | Spec name cv sp depth =>
      if is_char c "{" then ([], Some (Spec name cv (snoc sp c) (S depth)))
      else if is_char c "}" then
        match depth with
        | 0%nat | 1%nat => ([Field name cv sp], Some (Text EmptyString))
        | S d => ([], Some (Spec name cv (snoc sp c) d))
        end
      else ([], Some (Spec name cv (snoc sp c) depth))
  end.

Definition at_end (m : mode) : list piece :=
  match m with
  | Text lit => [Lit lit]
  | AfterOpen _ => [Malformed "Single '{' encountered in format string"]
  | AfterClose _ => [Malformed "Single '}' encountered in format string"]
  | FieldName _ _ => [Malformed "expected '}' before end of string"]
  | Conv1 _ => [Malformed "end of string while looking for conversion specifier"]
  | Conv2 _ _ | Spec _ _ _ _ => [Malformed "unmatched '{' in format spec"]
  end.

Fixpoint markup (m : mode) (s : string) : list piece :=
  match s with
  | EmptyString => at_end m
  | String c rest =>
      let '(out, m') := step m c in
      out ++ match m' with
             | Some m' => markup m' rest
             | None => []
             end
  end.

Definition parse (s : string) : list piece := markup (Text EmptyString) s.

(** The field name: [first] up to the first [.] or [[], then accessors
    ([field_name_split] and [FieldNameIterator_next]). *)

Inductive accessor : Type :=
  | Attr (name : string)
  | Item (key : string)
  | BadAccessor (msg : string).

Inductive amode : Type :=
  | AFirst (acc : string)
  | AStart
  | AAttr (acc : string)
  | AItem (acc : string).

Definition nonempty (mk : string -> accessor) (s : string) : accessor :=
  match s with
  | EmptyString => BadAccessor "Empty attribute in format string"
  | _ => mk s
  end.

Fixpoint split_name (m : amode) (s : string) : string * list accessor :=
  match s with
  | EmptyString =>
      match m with
      | AFirst acc => (acc, [])
      | AStart => (EmptyString, [])
      | AAttr acc => (EmptyString, [nonempty Attr acc])
      | AItem _ => (EmptyString, [BadAccessor "Missing ']' in format string"])
      end
  | String c rest =>
      match m with
      | AFirst acc =>
          if is_char c "." then (acc, snd (split_name (AAttr EmptyString) rest))
          else if is_char c "[" then (acc, snd (split_name (AItem EmptyString) rest))
          else split_name (AFirst (snoc acc c)) rest
      | AStart =>
          if is_char c "." then split_name (AAttr EmptyString) rest
          else if is_char c "[" then split_name (AItem EmptyString) rest
          else (EmptyString,
                [BadAccessor "Only '.' or '[' may follow ']' in format field specifier"])
      | AAttr acc =>
          if is_char c "." then
            (EmptyString, nonempty Attr acc :: snd (split_name (AAttr EmptyString) rest))
          else if is_char c "[" then
            (EmptyString, nonempty Attr acc :: snd (split_name (AItem EmptyString) rest))
          else split_name (AAttr (snoc acc c)) rest
      | AItem acc =>
          if is_char c "]" then
            (EmptyString, nonempty Item acc :: snd (split_name AStart rest))
          else split_name (AItem (snoc acc c)) rest
      end
  end.

Definition field_name_split (name : string) : string * list accessor :=
  split_name (AFirst EmptyString) name.

Definition is_digit (c : ascii) : bool :=
  let n := nat_of_ascii c in (48 <=? n)%nat && (n <=? 57)%nat.

Fixpoint all_digits (s : string) : bool :=
  match s with
  | EmptyString => true
  | String c rest => is_digit c && all_digits rest
  end.

(** [get_integer]: the index a string of digits denotes, if it is one. *)
Fixpoint digits_value (acc : nat) (s : string) : nat :=
  match s with
  | EmptyString => acc
  | String c rest => digits_value (10 * acc + (nat_of_ascii c - 48)) rest
  end.

Definition get_integer (s : string) : option nat :=
  match s with
  | EmptyString => None
  | _ => if all_digits s then Some (digits_value 0 s) else None
  end.

Section Render.
Context (B : Builtins).

Definition getitem (obj : value) (key : string) : res value :=
  match get_integer key with
  | None =>
      match obj with
      | VDict d => dict_getitem d key
      | VStr _ => Raise (Exn TypeError "string indices must be integers")
      | _ => Raise (Exn TypeError "object is not subscriptable")
      end
  | Some i =>
      match obj with
      | VDict d => Raise (Exn KeyError key)
      | VStr s =>
          match String.get i s with
          | Some c => Ok (VStr (String c EmptyString))
          | None => Raise (Exn IndexError "string index out of range")
          end
      | _ => Raise (Exn TypeError "object is not subscriptable")
      end
  end.

Definition access (obj : value) (a : accessor) : res value :=
  match a with
  | Attr name => py_getattr B obj name
  | Item key => getitem obj key
  | BadAccessor msg => Raise (Exn ValueError msg)
  end.

Fixpoint access_all (obj : value) (accs : list accessor) : res value :=
  match accs with
  | [] => Ok obj
  | a :: accs' => res_bind (access obj a) (fun obj' => access_all obj' accs')
  end.

(** [get_field_object] for a call with keyword arguments only: an empty
    or numeric first name asks for a positional argument, and there is
    none. *)
Definition get_field_object (kwargs : document) (name : string) : res value :=
  let '(first, accs) := field_name_split name in
  match first, get_integer first with
  | EmptyString, _ | _, Some _ =>
      Raise (Exn IndexError "Replacement index out of range for positional args tuple")
  | _, None => res_bind (dict_getitem kwargs first) (fun obj => access_all obj accs)
  end.

Definition do_conversion (obj : value) (conv : option ascii) : res value :=
  match conv with
  | None => Ok obj
  | Some c =>
      if is_char c "r" then Ok (VStr (py_repr B obj))
      else if is_char c "s" then Ok (VStr (py_str B obj))
      else if is_char c "a" then Ok (VStr (py_ascii B obj))
      else Raise (Exn ValueError "Unknown conversion specifier")
  end.

Fixpoint has_brace (s : string) : bool :=
  match s with
  | EmptyString => false
  | String c rest => is_char c "{" || has_brace rest
  end.

(** The pieces are rendered from left to right; [expand] renders a format
    spec that holds fields of its own. *)
Fixpoint render_pieces (kwargs : document) (expand : string -> res string)
    (ps : list piece) : res string :=
  match ps with
  | [] => Ok EmptyString
  | Lit l :: ps' => res_bind (render_pieces kwargs expand ps') (fun out => Ok (l ++ out)%string)
  | Malformed msg :: _ => Raise (Exn ValueError msg)
  | Field name conv spec :: ps' =>
      res_bind (get_field_object kwargs name) (fun obj =>
      res_bind (do_conversion obj conv) (fun obj =>
      res_bind (if has_brace spec then expand spec else Ok spec) (fun spec' =>
      res_bind (py_format B obj spec') (fun text =>
      res_bind (render_pieces kwargs expand ps') (fun out => Ok (text ++ out)%string)))))
  end.

(** [build_string]: [format] starts it with [recursion_depth = 2]; a
    format spec that holds a field is itself rendered, one level down. *)
Fixpoint build_string (recursion_depth : nat) (s : string) (kwargs : document)
  : res string :=
  match recursion_depth with
  | O => Raise (Exn ValueError "Max string recursion exceeded")
  | S depth =>
      render_pieces kwargs (fun spec => build_string depth spec kwargs) (parse s)
  end.

Definition format (s : string) (kwargs : document) : res string :=
  build_string 2 s kwargs.

End Render.

End Format.

(** ** [models.py] *)

(** [ReminderLog]: one row per appointment ([appointment_id] is [unique]);
    [reminder_sent = False] is the state Claimed, [True] the state Sent. *)
Module ReminderLog.

Record t : Type := mk {
  id : nat;
  appointment_id : string;
  user_email : string;
  appointment_date : Z;
  reminder_sent : bool;
  reminder_sent_at : option Z;
  reminder_type : string;
  created_at : Z;
  updated_at : Z
}.

Record table : Type := Table { rows : list t; next_id : nat }.

Definition has_appointment (a : string) (r : t) : bool :=
  String.eqb (appointment_id r) a.

Definition has_id (i : nat) (r : t) : bool := Nat.eqb (id r) i.

(** [objects.get(appointment_id=a)]. *)
Definition get (a : string) (tb : table) : res t :=
  match List.filter (has_appointment a) (rows tb) with
  | [] => Raise (Exn DoesNotExist "ReminderLog matching query does not exist.")
  | [r] => Ok r
  | _ => Raise (Exn MultipleObjectsReturned "get() returned more than one ReminderLog")
  end.

(** INSERT: the primary key and [appointment_id] are unique. *)
Definition insert (r : t) (tb : table) : res table :=
  if existsb (has_id (id r)) (rows tb) then
    Raise (Exn IntegrityError "UNIQUE constraint failed: reminder_logs.id")
  else if existsb (has_appointment (appointment_id r)) (rows tb) then
    Raise (Exn IntegrityError "UNIQUE constraint failed: reminder_logs.appointment_id")
  else Ok (Table (rows tb ++ [r]) (next_id tb)).

(** [objects.create(...)]: [reminder_sent] and [reminder_sent_at] take
    their defaults, [created_at] ([auto_now_add]) and [updated_at]
    ([auto_now]) the current time, the key comes from the sequence. *)
Definition create (a email : string) (date : Z) (rtype : string) (now : Z)
    (tb : table) : res (t * table) :=
  let r := mk (next_id tb) a email date false None rtype now now in
  res_bind (insert r (Table (rows tb) (S (next_id tb)))) (fun tb' => Ok (r, tb')).

(** [objects.get_or_create(appointment_id=a, defaults={...})]: [get]; on
    [DoesNotExist], [create]; on an [IntegrityError] of that insert, [get]
    again and raise the [IntegrityError] if there is still no row. *)
Definition get_or_create (a email : string) (date : Z) (rtype : string) (now : Z)
    (tb : table) : res (t * bool) * table :=
  match get a tb with
  | Ok r => (Ok (r, false), tb)
  | Raise (Exn DoesNotExist _) =>
      match create a email date rtype now tb with
      | Ok (r, tb') => (Ok (r, true), tb')
      | Raise e =>
          match kind e, get a tb with
          | IntegrityError, Ok r => (Ok (r, false), tb)
          | _, _ => (Raise e, tb)
          end
      end
  | Raise e => (Raise e, tb)
  end.

(** [auto_now]: saving sets [updated_at]. *)
Definition touch (obj : t) (now : Z) : t :=
  mk (id obj) (appointment_id obj) (user_email obj) (appointment_date obj)
     (reminder_sent obj) (reminder_sent_at obj) (reminder_type obj)
     (created_at obj) now.

(** [obj.save()] of an instance read from the table: UPDATE ... WHERE id = pk
    writes every column; when no row has that key the instance is
    inserted. *)
Definition save (obj : t) (now : Z) (tb : table) : res (t * table) :=
  let obj' := touch obj now in
  if existsb (has_id (id obj)) (rows tb) then
    if existsb (fun r => has_appointment (appointment_id obj) r && negb (has_id (id obj) r))
               (rows tb)
    then Raise (Exn IntegrityError "UNIQUE constraint failed: reminder_logs.appointment_id")
    else Ok (obj', Table (map (fun r => if has_id (id obj) r then obj' else r) (rows tb))
                         (next_id tb))
  else res_bind (insert obj' tb) (fun tb' => Ok (obj', tb')).

(** [objects.filter(created_at__lt=cutoff).delete()]: the number of rows
    deleted and the table without them. *)
Definition older_than (cutoff : Z) (r : t) : bool := created_at r <? cutoff.

Definition filter_delete (cutoff : Z) (tb : table) : nat * table :=
  (length (List.filter (older_than cutoff) (rows tb)),
   Table (List.filter (fun r => negb (older_than cutoff r)) (rows tb)) (next_id tb)).

End ReminderLog.

(** [EmailTemplate]: [unique_together = ['reminder_type', 'is_active']]. *)
Module EmailTemplate.

Record t : Type := mk {
  id : nat;
  name : string;
  subject : string;
  body_html : string;
  body_text : string;
  reminder_type : string;
  is_active : bool;
  created_at : Z;
  updated_at : Z
}.

Record table : Type := Table { rows : list t; next_id : nat }.

Definition matches (rtype : string) (active : bool) (r : t) : bool :=
  String.eqb (reminder_type r) rtype && Bool.eqb (is_active r) active.

Definition has_id (i : nat) (r : t) : bool := Nat.eqb (id r) i.

(** [.first()] of an unordered queryset orders by primary key. *)
Fixpoint lowest (l : list t) : option t :=
  match l with
  | [] => None
  | r :: l' =>
      match lowest l' with
      | Some r' => if (id r' <? id r)%nat then Some r' else Some r
      | None => Some r
      end
  end.

(** [objects.filter(reminder_type=rtype, is_active=active).first()]. *)
Definition filter_first (rtype : string) (active : bool) (tb : table) : option t :=
  lowest (List.filter (matches rtype active) (rows tb)).

(** [objects.filter(reminder_type=rtype, is_active=active).exists()]. *)
Definition filter_exists (rtype : string) (active : bool) (tb : table) : bool :=
  existsb (matches rtype active) (rows tb).

(** [objects.create(...)]: refused when a row has the same
    [(reminder_type, is_active)]. *)
Definition create (nm subj html text rtype : string) (active : bool) (now : Z)
    (tb : table) : res (t * table) :=
  let r := mk (next_id tb) nm subj html text rtype active now now in
  if existsb (has_id (id r)) (rows tb) then
    Raise (Exn IntegrityError "UNIQUE constraint failed: email_templates.id")
  else if existsb (matches rtype active) (rows tb) then
    Raise (Exn IntegrityError
      "UNIQUE constraint failed: email_templates.reminder_type, email_templates.is_active")
  else Ok (r, Table (rows tb ++ [r]) (S (next_id tb))).

End EmailTemplate.

(** [SystemSettings]: [key] is [unique]. *)
Module SystemSettings.

Record t : Type := mk {
  id : nat;
  key : string;
  value : string;
  description : string;
  created_at : Z;
  updated_at : Z
}.

Record table : Type := Table { rows : list t; next_id : nat }.

Definition has_key (k : string) (r : t) : bool := String.eqb (key r) k.

Definition has_id (i : nat) (r : t) : bool := Nat.eqb (id r) i.

(** [objects.get(key=k)]. *)
Definition get (k : string) (tb : table) : res t :=
  match List.filter (has_key k) (rows tb) with
  | [] => Raise (Exn DoesNotExist "SystemSettings matching query does not exist.")
  | [r] => Ok r
  | _ => Raise (Exn MultipleObjectsReturned "get() returned more than one SystemSettings")
  end.

(** [objects.create(...)]: the primary key and [key] are unique. *)
Definition create (k v d : string) (now : Z) (tb : table) : res (t * table) :=
  let r := mk (next_id tb) k v d now now in
  if existsb (has_id (id r)) (rows tb) then
    Raise (Exn IntegrityError "UNIQUE constraint failed: system_settings.id")
  else if existsb (has_key k) (rows tb) then
    Raise (Exn IntegrityError "UNIQUE constraint failed: system_settings.key")
  else Ok (r, Table (rows tb ++ [r]) (S (next_id tb))).

(** [objects.get_or_create(key=k, defaults={'value': v, 'description': d})]. *)
Definition get_or_create (k v d : string) (now : Z) (tb : table)
  : res (t * bool) * table :=
  match get k tb with
  | Ok r => (Ok (r, false), tb)
  | Raise (Exn DoesNotExist _) =>
      match create k v d now tb with
      | Ok (r, tb') => (Ok (r, true), tb')
      | Raise e =>
          match kind e, get k tb with
          | IntegrityError, Ok r => (Ok (r, false), tb)
          | _, _ => (Raise e, tb)
          end
      end
  | Raise e => (Raise e, tb)
  end.

End SystemSettings.

(** ** The world the tasks run in *)

(** [django.core.mail.send_mail] with one recipient list and an HTML
    alternative. *)
Record email : Type := Email {
  subject : string;
  message : string;
  from_email : string;
  recipient_list : list string;
  html_message : string
}.

(** The keyword arguments of [send_reminder_email.delay(...)]. *)
Record task : Type := Task {
  task_appointment_id : string;
  task_user_email : string;
  task_appointment_date : Z;
  task_appointment_data : document
}.

(** The store behind [MongoDBClient]: [self.collection] (the appointments)
    and [self.db['users']], [self.db['departments']], [self.db['services']]. *)
Record MongoDB : Type := Mongo {
  collection : list document;
  users : list document;
  departments : list document;
  services : list document
}.

Inductive mongo_op : Type :=
  | OpFind
  | OpFindOne (coll : string) (oid : value)
  | OpUpdateOne (oid : string).

(** The calls and writes the properties speak of, in the order they are
    made: a message accepted by the gateway, a [save] of a ledger row, an
    [update_one] on the appointment ([None]: the server call raised). *)
Inductive event : Type :=
  | EvSendMail (m : email)
  | EvLedgerSave (r : ReminderLog.t)
  | EvMongoUpdate (oid : string) (modified : option bool).

Record world : Type := World {
  reminder_logs : ReminderLog.table;
  email_templates : EmailTemplate.table;
  mongodb : MongoDB;
  queue : list task;
  trace : list event;
  clock : Z
}.

Definition set_reminder_logs (tb : ReminderLog.table) (w : world) : world :=
  World tb (email_templates w) (mongodb w) (queue w) (trace w) (clock w).
Definition set_email_templates (tb : EmailTemplate.table) (w : world) : world :=
  World (reminder_logs w) tb (mongodb w) (queue w) (trace w) (clock w).
Definition set_mongodb (db : MongoDB) (w : world) : world :=
  World (reminder_logs w) (email_templates w) db (queue w) (trace w) (clock w).
Definition set_queue (q : list task) (w : world) : world :=
  World (reminder_logs w) (email_templates w) (mongodb w) q (trace w) (clock w).
Definition log_event (ev : event) (w : world) : world :=
  World (reminder_logs w) (email_templates w) (mongodb w) (queue w) (trace w ++ [ev]) (clock w).
Definition set_clock (t : Z) (w : world) : world :=
  World (reminder_logs w) (email_templates w) (mongodb w) (queue w) (trace w) t.

(** The emails handed to the gateway so far. *)
Definition outbox (w : world) : list email :=
  omap (fun ev => match ev with EvSendMail m => Some m | _ => None end) (trace w).

(** What is outside the repository. *)
Record Env : Type := {
  builtins : Builtins;
  DEFAULT_FROM_EMAIL : string;
  smtp_fails : email -> bool;
  mongo_fails : mongo_op -> bool;
  broker_fails : task -> bool
}.

(** ** The monad of the tasks *)

Definition M (A : Type) : Type := world -> res A * world.

Definition ret {A} (a : A) : M A := fun w => (Ok a, w).

Definition raise {A} (e : exn) : M A := fun w => (Raise e, w).

Definition bind {A B} (m : M A) (k : A -> M B) : M B :=
  fun w =>
    match m w with
    | (Ok a, w') => k a w'
    | (Raise e, w') => (Raise e, w')
    end.

(** [try: body except Exception as e: handler]. *)
Definition try_except {A} (body : M A) (handler : exn -> M A) : M A :=
  fun w =>
    match body w with
    | (Ok a, w') => (Ok a, w')
    | (Raise e, w') => handler e w'
    end.

Definition lift {A} (r : res A) : M A := fun w => (r, w).

Definition gets {A} (f : world -> A) : M A := fun w => (Ok (f w), w).

Definition modify (f : world -> world) : M unit := fun w => (Ok tt, f w).

Notation "'let!' x ':=' c 'in' k" := (bind c (fun x => k))
  (at level 10, x name, c at level 100, k at level 200).
Notation "'let!' ' p ':=' c 'in' k" := (bind c (fun x => match x with p => k end))
  (at level 10, p pattern, c at level 100, k at level 200).

(** ** [mongodb_client.py] *)

Section Service.
Context (E : Env).

Let B : Builtins := builtins E.

(** The query of [get_appointments_for_reminder]:
    [{'appointmentDate': {'$gte': start, '$lte': end},
      'status': {'$in': [...]}, 'reminderSent': {'$ne': True}}]. *)
Definition date_between (key : string) (t_start t_end : Z) (d : document) : bool :=
  match d !! key with
  | Some (VDate t) => (t_start <=? t) && (t <=? t_end)
  | _ => false
  end.

Definition string_in (key : string) (allowed : list string) (d : document) : bool :=
  match d !! key with
  | Some (VStr s) => existsb (String.eqb s) allowed
  | _ => false
  end.

Definition not_true (key : string) (d : document) : bool :=
  match d !! key with
  | Some (VBool true) => false
  | _ => true
  end.

Definition reminder_query (t_start t_end : Z) (d : document) : bool :=
  date_between "appointmentDate" t_start t_end d
  && string_in "status" ["waiting"; "confirmed"; "scheduled"] d
  && not_true "reminderSent" d.

(** [{'_id': oid}]: equality on the identifier, a scalar; a query for
    [None] also matches a document without the field. *)
Definition id_is (oid : value) (d : document) : bool :=
  match oid, d !! "_id" with
  | VStr a, Some (VStr b) => String.eqb a b
  | VInt a, Some (VInt b) => a =? b
  | VDate a, Some (VDate b) => a =? b
  | VBool a, Some (VBool b) => Bool.eqb a b
  | VNone, Some VNone | VNone, None => true
  | _, _ => false
  end.

Definition mongo_error : exn := Exn PyMongoError "server not available".

Definition collection_find (query : document -> bool) : M (list document) :=
  fun w =>
    if mongo_fails E OpFind then (Raise mongo_error, w)
    else (Ok (List.filter query (collection (mongodb w))), w).

Definition find_one (coll : string) (sel : MongoDB -> list document) (oid : value)
  : M (option document) :=
  fun w =>
    if mongo_fails E (OpFindOne coll oid) then (Raise mongo_error, w)
    else (Ok (List.find (id_is oid) (sel (mongodb w))), w).

(** [update_one]: the first document the filter matches is updated;
    the result tells whether one was modified. *)
Fixpoint update_first (p : document -> bool) (f : document -> document)
    (changes : document -> bool) (l : list document) : list document * bool :=
  match l with
  | [] => ([], false)
  | d :: l' =>
      if p d then (f d :: l', changes d)
      else let '(l'', modified) := update_first p f changes l' in (d :: l'', modified)
  end.

Definition set_reminder_sent (now : Z) (d : document) : document :=
  <["reminderSentAt" := VDate now]> (<["reminderSent" := VBool true]> d).

Definition set_reminder_sent_changes (now : Z) (d : document) : bool :=
  negb (negb (not_true "reminderSent" d) && date_between "reminderSentAt" now now d).

Definition collection_update_one (appointment_id : string) : M bool :=
  fun w =>
    if mongo_fails E (OpUpdateOne appointment_id) then
      (Raise mongo_error, log_event (EvMongoUpdate appointment_id None) w)
    else
      let db := mongodb w in
      let '(docs, modified) :=
        update_first (id_is (VStr appointment_id)) (set_reminder_sent (clock w))
                     (set_reminder_sent_changes (clock w)) (collection db) in
      (Ok modified,
       log_event (EvMongoUpdate appointment_id (Some modified))
         (set_mongodb (Mongo docs (users db) (departments db) (services db)) w)).

Definition get_appointments_for_reminder (minutes_before : Z) : M (list document) :=
  try_except
    (let! now := gets clock in
     let reminder_time_start := now + timedelta_minutes (minutes_before - 1) in
     let reminder_time_end := now + timedelta_minutes (minutes_before + 1) in
     let! appointments :=
       collection_find (reminder_query reminder_time_start reminder_time_end) in
     ret appointments)
    (fun _ => ret []).

Definition get_appointment_by_id (appointment_id : string) : M (option document) :=
  try_except (find_one "appointments" collection (VStr appointment_id))
             (fun _ => ret None).

Definition mark_reminder_sent (appointment_id : string) : M bool :=
  try_except (collection_update_one appointment_id) (fun _ => ret false).

Definition get_user_by_id (user_id : value) : M (option document) :=
  try_except (find_one "users" users user_id) (fun _ => ret None).

Definition get_department_by_id (department_id : value) : M (option document) :=
  try_except (find_one "departments" departments department_id) (fun _ => ret None).

Definition get_service_by_id (service_id : value) : M (option document) :=
  try_except (find_one "services" services service_id) (fun _ => ret None).

(** ** [tasks.py] *)

Definition dq : string := String "034" EmptyString.

Definition default_subject : string :=
"Reminder: Your appointment is in 15 minutes - {token_number}".

Definition default_body_text : string :=
"
Dear {user[firstName]} {user[lastName]},

This is a reminder that you have an appointment scheduled for {appointment_date_formatted} at {appointment_time}.

Appointment Details:
- Token Number: {token_number}
- Department: {department[name]}
- Service: {service[name]}
- Queue Position: {queue_position}

Please arrive at least 5 minutes before your scheduled time.

Thank you for using SmartQueue!

Best regards,
SmartQueue Team
        ".

Definition default_body_html : string :=
"
<!DOCTYPE html>
<html>
<head>
    <meta charset=" ++ dq ++ "utf-8" ++ dq ++ ">
    <title>Appointment Reminder</title>
    <style>
        body { font-family: Arial, sans-serif; line-height: 1.6; color: #333; }
        .container { max-width: 600px; margin: 0 auto; padding: 20px; }
        .header { background-color: #2563eb; color: white; padding: 20px; text-align: center; }
        .content { padding: 20px; background-color: #f8fafc; }
        .appointment-details { background-color: white; padding: 15px; border-radius: 5px; margin: 15px 0; }
        .footer { text-align: center; padding: 20px; color: #666; }
        .highlight { color: #2563eb; font-weight: bold; }
    </style>
</head>
<body>
    <div class=" ++ dq ++ "container" ++ dq ++ ">
        <div class=" ++ dq ++ "header" ++ dq ++ ">
            <h1>Appointment Reminder</h1>
        </div>
        <div class=" ++ dq ++ "content" ++ dq ++ ">
            <p>Dear {user[firstName]} {user[lastName]},</p>
            <p>This is a reminder that you have an appointment scheduled for <span class=" ++ dq ++ "highlight" ++ dq ++ ">{appointment_date_formatted} at {appointment_time}</span>.</p>
            
            <div class=" ++ dq ++ "appointment-details" ++ dq ++ ">
                <h3>Appointment Details:</h3>
                <ul>
                    <li><strong>Token Number:</strong> {token_number}</li>
                    <li><strong>Department:</strong> {department[name]}</li>
                    <li><strong>Service:</strong> {service[name]}</li>
                    <li><strong>Queue Position:</strong> {queue_position}</li>
                </ul>
            </div>
            
            <p><strong>Please arrive at least 5 minutes before your scheduled time.</strong></p>
            <p>Thank you for using SmartQueue!</p>
        </div>
        <div class=" ++ dq ++ "footer" ++ dq ++ ">
            <p>Best regards,<br>SmartQueue Team</p>
        </div>
    </div>
</body>
</html>
        ".

Definition create_default_email_template : M EmailTemplate.t :=
  fun w =>
    match EmailTemplate.create "Default 15-Minute Reminder" default_subject
            default_body_html default_body_text "15min" true (clock w)
            (email_templates w) with
    | Ok (template, tb) => (Ok template, set_email_templates tb w)
    | Raise e => (Raise e, w)
    end.

Definition send_mail (m : email) : M unit :=
  fun w =>
    if smtp_fails E m then (Raise (Exn SMTPException "the message was not accepted"), w)
    else (Ok tt, log_event (EvSendMail m) w).

Definition ReminderLog_get_or_create (appointment_id user_email : string)
    (appointment_date : Z) (rtype : string) : M (ReminderLog.t * bool) :=
  fun w =>
    let '(r, tb) := ReminderLog.get_or_create appointment_id user_email appointment_date
                      rtype (clock w) (reminder_logs w) in
    (r, set_reminder_logs tb w).

Definition ReminderLog_save (obj : ReminderLog.t) : M unit :=
  fun w =>
    match ReminderLog.save obj (clock w) (reminder_logs w) with
    | Ok (obj', tb) => (Ok tt, log_event (EvLedgerSave obj') (set_reminder_logs tb w))
    | Raise e => (Raise e, w)
    end.

Definition EmailTemplate_filter_first (rtype : string) (active : bool)
  : M (option EmailTemplate.t) :=
  gets (fun w => EmailTemplate.filter_first rtype active (email_templates w)).

Definition optional (o : option document) : value :=
  match o with
  | Some d => VDict d
  | None => VNone
  end.

Definition email_context (user department service : option document)
    (appointment_data : document) (appointment_date : Z) : document :=
  <["user" := optional user]> (
  <["appointment" := VDict appointment_data]> (
  <["department" := optional department]> (
  <["service" := optional service]> (
  <["appointment_date" := VDate appointment_date]> (
  <["appointment_time" := VStr (strftime B appointment_date "%I:%M %p")]> (
  <["appointment_date_formatted" := VStr (strftime B appointment_date "%B %d, %Y")]> (
  <["token_number" := dict_get appointment_data "tokenNumber" (VStr "N/A")]> (
  <["queue_position" := dict_get appointment_data "queuePosition" (VStr "N/A")]> ∅)))))))).

Definition mark_sent (reminder_log : ReminderLog.t) (now : Z) : ReminderLog.t :=
  ReminderLog.mk (ReminderLog.id reminder_log) (ReminderLog.appointment_id reminder_log)
    (ReminderLog.user_email reminder_log) (ReminderLog.appointment_date reminder_log)
    true (Some now) (ReminderLog.reminder_type reminder_log)
    (ReminderLog.created_at reminder_log) (ReminderLog.updated_at reminder_log).

Definition send_reminder_email (appointment_id user_email : string)
    (appointment_date : Z) (appointment_data : document) : M bool :=
  try_except
    (let! '(reminder_log, created) :=
       ReminderLog_get_or_create appointment_id user_email appointment_date "15min" in
     if negb created && ReminderLog.reminder_sent reminder_log then ret true
     else
       let! user := get_user_by_id (dict_get appointment_data "citizenId" VNone) in
       let! department :=
         get_department_by_id (dict_get appointment_data "departmentId" VNone) in
       let! service := get_service_by_id (dict_get appointment_data "serviceId" VNone) in
       let context :=
         email_context user department service appointment_data appointment_date in
       let! template := EmailTemplate_filter_first "15min" true in
       let! template :=
         match template with
         | Some template => ret template
         | None => create_default_email_template
         end in
       let! subject := lift (Format.format B (EmailTemplate.subject template) context) in
       let! message := lift (Format.format B (EmailTemplate.body_text template) context) in
       let! html_message :=
         lift (Format.format B (EmailTemplate.body_html template) context) in
       let! _ := send_mail (Email subject message (DEFAULT_FROM_EMAIL E) [user_email]
                                  html_message) in
       let! now := gets clock in
       let! _ := ReminderLog_save (mark_sent reminder_log now) in
       let! _ := mark_reminder_sent appointment_id in
       ret true)
    (fun _ => ret false).

(** The keyword arguments are typed by the task's signature
    ([appointment_id: str], [user_email: str], [appointment_date: datetime]):
    a document field of another type is refused where the call is made. *)
Definition as_str (v : value) : res string :=
  match v with
  | VStr s => Ok s
  | _ => Raise (Exn TypeError "expected str")
  end.

Definition as_datetime (v : value) : res Z :=
  match v with
  | VDate t => Ok t
  | _ => Raise (Exn TypeError "expected datetime")
  end.

Definition task_for (appointment_id : value) (appointment : document) : res task :=
  res_bind (as_str appointment_id) (fun appointment_id =>
  res_bind (as_str (dict_get appointment "notificationEmail" (VStr EmptyString)))
    (fun user_email =>
  res_bind (dict_getitem appointment "appointmentDate") (fun appointment_date =>
  res_bind (as_datetime appointment_date) (fun appointment_date =>
  Ok (Task appointment_id user_email appointment_date appointment))))).

(** [send_reminder_email.delay(...)]: the call is put on the queue of the
    broker; the [AsyncResult] it returns stands for the queued call. *)
Definition delay (tk : task) : M task :=
  fun w =>
    if broker_fails E tk then (Raise (Exn OperationalError "broker not available"), w)
    else (Ok tk, set_queue (queue w ++ [tk]) w).

(** [str(e)]. *)
Definition str_exn (e : exn) : string :=
  match kind e with
  | KeyError => "'" ++ exn_message e ++ "'"
  | _ => exn_message e
  end.

Definition result_dict (status key : string) (v : value) : document :=
  <["status" := VStr status]> (<[key := v]> ∅).

(** The body of the [for] loop of [check_and_send_reminders]: an
    [AsyncResult] is truthy, so [if success] always holds; the handler
    formats [appointment['_id']] into its log message. *)
Definition queue_reminder (appointment : document) (reminders_sent : Z) : M Z :=
  try_except
    (let! appointment_id := lift (dict_getitem appointment "_id") in
     let! tk := lift (task_for appointment_id appointment) in
     let! success := delay tk in
     ret (reminders_sent + 1))
    (fun e =>
       let! _ := lift (dict_getitem appointment "_id") in
       ret reminders_sent).

Fixpoint for_each_appointment (appointments : list document) (reminders_sent : Z)
  : M Z :=
  match appointments with
  | [] => ret reminders_sent
  | appointment :: rest =>
      let! reminders_sent := queue_reminder appointment reminders_sent in
      for_each_appointment rest reminders_sent
  end.

Definition check_and_send_reminders : M document :=
  try_except
    (let! appointments := get_appointments_for_reminder 15 in
     match appointments with
     | [] => ret (result_dict "success" "reminders_sent" (VInt 0))
     | _ =>
         let! reminders_sent := for_each_appointment appointments 0 in
         ret (result_dict "success" "reminders_sent" (VInt reminders_sent))
     end)
    (fun e => ret (result_dict "error" "message" (VStr (str_exn e)))).

(** [send_custom_reminder] returns [False] ([None] here) or the
    [AsyncResult] of the queued call. *)
Definition send_custom_reminder (appointment_id : string) (reminder_type : string)
  : M (option task) :=
  try_except
    (let! appointment := get_appointment_by_id appointment_id in
     match appointment with
     | None => ret None
     | Some appointment =>
         if (size appointment =? 0)%nat then ret None
         else
           let! tk := lift (task_for (VStr appointment_id) appointment) in
           let! queued := delay tk in
           ret (Some queued)
     end)
    (fun _ => ret None).

Definition ReminderLog_filter_delete (cutoff : Z) : M nat :=
  fun w =>
    let '(n, tb) := ReminderLog.filter_delete cutoff (reminder_logs w) in
    (Ok n, set_reminder_logs tb w).

Definition cleanup_old_reminders : M document :=
  try_except
    (let! now := gets clock in
     let cutoff_date := now - timedelta_days 30 in
     let! deleted_count := ReminderLog_filter_delete cutoff_date in
     ret (result_dict "success" "deleted_count" (VInt (Z.of_nat deleted_count))))
    (fun e => ret (result_dict "error" "message" (VStr (str_exn e)))).

(** A Celery worker takes a queued call and runs the task. *)
Definition run_task (tk : task) : M bool :=
  send_reminder_email (task_appointment_id tk) (task_user_email tk)
    (task_appointment_date tk) (task_appointment_data tk).

Fixpoint run_tasks (tks : list task) : M (list bool) :=
  match tks with
  | [] => ret []
  | tk :: rest =>
      let! b := run_task tk in
      let! bs := run_tasks rest in
      ret (b :: bs)
  end.

Definition drain_queue : M (list bool) :=
  fun w => run_tasks (queue w) (set_queue [] w).

(** ** Concurrent workers

    Several workers run [send_reminder_email] at once.  Each database or
    gateway call is one atomic step; a worker keeps what it has read in
    local variables ([reminder_log], [context], [template]) between its
    steps, while other workers take theirs.  The program counter names the
    statement of [send_reminder_email] the worker is about to run:
    [get_or_create] and the test on [reminder_sent] ([AtClaim], lines 76 to
    87), the lookups of the requester, department, service and template
    ([AtLookup], lines 90 to 111), [create_default_email_template]
    ([AtDefault], line 115), the three renderings and [send_mail] ([AtSend],
    lines 118 to 129), [save] ([AtSave], lines 132 to 134) and
    [mark_reminder_sent] ([AtMark], line 137).  An exception ends the call
    with [False], as the [except] clause of the function does. *)

Inductive pc : Type :=
  | AtClaim
  | AtLookup (reminder_log : ReminderLog.t)
  | AtDefault (reminder_log : ReminderLog.t) (context : document)
  | AtSend (reminder_log : ReminderLog.t) (context : document)
           (template : EmailTemplate.t)
  | AtSave (reminder_log : ReminderLog.t)
  | AtMark
  | Returned (result : bool).

Record worker : Type := Worker { worker_task : task; worker_pc : pc }.

Definition lookup_step (tk : task) : M (document * option EmailTemplate.t) :=
  let appointment_data := task_appointment_data tk in
  let! user := get_user_by_id (dict_get appointment_data "citizenId" VNone) in
  let! department :=
    get_department_by_id (dict_get appointment_data "departmentId" VNone) in
  let! service := get_service_by_id (dict_get appointment_data "serviceId" VNone) in
  let! template := EmailTemplate_filter_first "15min" true in
  ret (email_context user department service appointment_data (task_appointment_date tk),
       template).

Definition send_step (tk : task) (context : document) (template : EmailTemplate.t)
  : M unit :=
  let! subject := lift (Format.format B (EmailTemplate.subject template) context) in
  let! message := lift (Format.format B (EmailTemplate.body_text template) context) in
  let! html_message := lift (Format.format B (EmailTemplate.body_html template) context) in
  send_mail (Email subject message (DEFAULT_FROM_EMAIL E) [task_user_email tk]
                   html_message).

Definition save_step (reminder_log : ReminderLog.t) : M unit :=
  let! now := gets clock in
  ReminderLog_save (mark_sent reminder_log now).

(** One step of a worker: the statement at its program counter. *)
Definition advance (tk : task) (p : pc) (w : world) : pc * world :=
  match p with
  | AtClaim =>
      match ReminderLog_get_or_create (task_appointment_id tk) (task_user_email tk)
              (task_appointment_date tk) "15min" w with
      | (Ok (reminder_log, created), w') =>
          (if negb created && ReminderLog.reminder_sent reminder_log
           then Returned true else AtLookup reminder_log, w')
      | (Raise _, w') => (Returned false, w')
      end
  | AtLookup reminder_log =>
      match lookup_step tk w with
      | (Ok (context, Some template), w') => (AtSend reminder_log context template, w')
      | (Ok (context, None), w') => (AtDefault reminder_log context, w')
      | (Raise _, w') => (Returned false, w')
      end
  | AtDefault reminder_log context =>
      match create_default_email_template w with
      | (Ok template, w') => (AtSend reminder_log context template, w')
      | (Raise _, w') => (Returned false, w')
      end
  | AtSend reminder_log context template =>
      match send_step tk context template w with
      | (Ok _, w') => (AtSave reminder_log, w')
      | (Raise _, w') => (Returned false, w')
      end
  | AtSave reminder_log =>
      match save_step reminder_log w with
      | (Ok _, w') => (AtMark, w')
      | (Raise _, w') => (Returned false, w')
      end
  | AtMark =>
      match mark_reminder_sent (task_appointment_id tk) w with
      | (Ok _, w') => (Returned true, w')
      | (Raise _, w') => (Returned false, w')
      end
  | Returned result => (Returned result, w)
  end.

(** The scheduler picks a worker to take its next step, or lets time pass. *)
Inductive action : Type :=
  | Run (i : nat)
  | Tick (dt : Z).

Definition exec (a : action) (c : world * list worker) : world * list worker :=
  let '(w, workers) := c in
  match a with
  | Run i =>
      match workers !! i with
      | Some wk =>
          let '(p', w') := advance (worker_task wk) (worker_pc wk) w in
          (w', <[i := Worker (worker_task wk) p']> workers)
      | None => c
      end
  | Tick dt => (set_clock (clock w + dt) w, workers)
  end.

Fixpoint run (schedule : list action) (c : world * list worker) : world * list worker :=
  match schedule with
  | [] => c
  | a :: rest => run rest (exec a c)
  end.

(** A worker left alone: it returns within six steps. *)
Fixpoint advance_n (n : nat) (tk : task) (p : pc) (w : world) : pc * world :=
  match n with
  | O => (p, w)
  | S n' => let '(p', w') := advance tk p w in advance_n n' tk p' w'
  end.

End Service.

(** ** [management/commands/setup_reminder_service.py] *)

(** A line written to [self.stdout]; [self.style.SUCCESS] marks it. *)
Inductive line : Type :=
  | Plain (text : string)
  | Success (text : string).

(** What the command works on: the world of the tasks, the
    [system_settings] table and the standard output. *)
Record site : Type := Site {
  site_world : world;
  system_settings : SystemSettings.table;
  stdout : list line
}.

Definition stdout_write (l : line) (s : site) : site :=
  Site (site_world s) (system_settings s) (stdout s ++ [l]).

Definition set_site_world (w : world) (s : site) : site :=
  Site w (system_settings s) (stdout s).

Definition set_system_settings (tb : SystemSettings.table) (s : site) : site :=
  Site (site_world s) tb (stdout s).

Definition default_settings : list (string * string * string) :=
  [("REMINDER_ENABLED", "true", "Enable/disable reminder system");
   ("REMINDER_MINUTES_BEFORE", "15", "Minutes before appointment to send reminder");
   ("EMAIL_FROM_NAME", "SmartQueue", "Name to use in email from field");
   ("MAX_RETRY_ATTEMPTS", "3", "Maximum retry attempts for failed emails")].

(** The body of the [for] loop of [handle]. *)
Definition create_setting (entry : string * string * string) (s : site)
  : res unit * site :=
  let '(key, value, description) := entry in
  match SystemSettings.get_or_create key value description (clock (site_world s))
          (system_settings s) with
  | (Ok (setting, created), tb) =>
      (Ok tt,
       stdout_write
         (Plain (if created then "Created setting: " ++ key ++ " = " ++ value
                 else "Setting already exists: " ++ key ++ " = "
                      ++ SystemSettings.value setting))
         (set_system_settings tb s))
  | (Raise e, tb) => (Raise e, set_system_settings tb s)
  end.

Fixpoint create_settings (entries : list (string * string * string)) (s : site)
  : res unit * site :=
  match entries with
  | [] => (Ok tt, s)
  | entry :: rest =>
      match create_setting entry s with
      | (Ok _, s') => create_settings rest s'
      | (Raise e, s') => (Raise e, s')
      end
  end.

(** The default template is created when no active template of type
    [15min] exists. *)
Definition setup_template (s : site) : res unit * site :=
  if negb (EmailTemplate.filter_exists "15min" true (email_templates (site_world s))) then
    let s := stdout_write (Plain "Creating default email template...") s in
    match create_default_email_template (site_world s) with
    | (Ok _, w) =>
        (Ok tt, stdout_write (Success "Default email template created") (set_site_world w s))
    | (Raise e, w) => (Raise e, set_site_world w s)
    end
  else (Ok tt, stdout_write (Plain "Default email template already exists") s).

(** [Command.handle]: an exception leaves the command where it is
    raised. *)
Definition handle (s : site) : res unit * site :=
  let s := stdout_write (Plain "Setting up reminder service...") s in
  match setup_template s with
  | (Ok _, s) =>
      match create_settings default_settings s with
      | (Ok _, s) =>
          (Ok tt, stdout_write (Success "Reminder service setup completed successfully!") s)
      | (Raise e, s) => (Raise e, s)
      end
  | (Raise e, s) => (Raise e, s)
  end.

(** ** [views.py] *)

(** A [Response] or [JsonResponse]: the status and the body. *)
Record response : Type := Response { status_code : Z; data : document }.

Section Views.
Context (E : Env).

(** [datetime.now().isoformat()] and [send_custom_reminder.delay], which
    returns the identifier of the queued task or raises. *)
Context (isoformat : Z -> string).
Context (send_custom_reminder_delay : string -> M string).

(** [SendReminderView.post]. *)
Definition SendReminderView_post (appointment_id : string) : M response :=
  try_except
    (let! appointment := get_appointment_by_id E appointment_id in
     match appointment with
     | None => ret (Response 404 (<["error" := VStr "Appointment not found"]> ∅))
     | Some appointment =>
         if (size appointment =? 0)%nat then
           ret (Response 404 (<["error" := VStr "Appointment not found"]> ∅))
         else
           let! task_id := send_custom_reminder_delay appointment_id in
           ret (Response 200
                  (<["message" := VStr "Reminder queued successfully"]> (
                   <["task_id" := VStr task_id]> (
                   <["appointment_id" := VStr appointment_id]> ∅))))
     end)
    (fun e => ret (Response 500 (<["error" := VStr (str_exn e)]> ∅))).

(** [health_check]. *)
Definition health_check : M response :=
  try_except
    (let! appointments := get_appointments_for_reminder E 15 in
     let! now := gets clock in
     ret (Response 200
            (<["status" := VStr "healthy"]> (
             <["mongodb_connected" := VBool true]> (
             <["upcoming_appointments" := VInt (Z.of_nat (length appointments))]> (
             <["timestamp" := VStr (isoformat now)]> ∅))))))
    (fun e =>
       let! now := gets clock in
       ret (Response 500
              (<["status" := VStr "unhealthy"]> (
               <["error" := VStr (str_exn e)]> (
               <["timestamp" := VStr (isoformat now)]> ∅))))).

End Views.

(** ** Invariants and observations *)

(** The constraints of the [reminder_logs] table: the primary key and
    [appointment_id] are unique. *)
Definition ledger_unique (tb : ReminderLog.table) : Prop :=
  List.NoDup (map ReminderLog.id (ReminderLog.rows tb))
  /\ List.NoDup (map ReminderLog.appointment_id (ReminderLog.rows tb)).

(** What UPDATE ... WHERE id = pk does to a row. *)
Definition replace_row (obj obj' : ReminderLog.t) (r : ReminderLog.t) : ReminderLog.t :=
  if ReminderLog.has_id (ReminderLog.id obj) r then obj' else r.

(** The ledger holds a row for appointment [a] in state Sent. *)
Definition is_sent (a : string) (w : world) : bool :=
  existsb (fun r => ReminderLog.has_appointment a r && ReminderLog.reminder_sent r)
          (ReminderLog.rows (reminder_logs w)).

(** From [tb] to [tb'] every row keeps its key and its appointment, and a
    row in state Sent stays in state Sent. *)
Definition ledger_grows (tb tb' : ReminderLog.table) : Prop :=
  forall r, In r (ReminderLog.rows tb) ->
    exists r', In r' (ReminderLog.rows tb')
      /\ ReminderLog.id r' = ReminderLog.id r
      /\ ReminderLog.appointment_id r' = ReminderLog.appointment_id r
      /\ (ReminderLog.reminder_sent r = true -> ReminderLog.reminder_sent r' = true).

(** No row is put back from Sent to Claimed: a row of [tb'] with the key of
    a Sent row of [tb] is Sent. *)
Definition never_reset (tb tb' : ReminderLog.table) : Prop :=
  forall r r', In r (ReminderLog.rows tb) -> ReminderLog.reminder_sent r = true ->
    In r' (ReminderLog.rows tb') -> ReminderLog.id r' = ReminderLog.id r ->
    ReminderLog.reminder_sent r' = true.

(** The [reminder_log] a worker holds in a local variable. *)
Definition local_log (p : pc) : option ReminderLog.t :=
  match p with
  | AtLookup l | AtDefault l _ | AtSend l _ _ | AtSave l => Some l
  | AtClaim | AtMark | Returned _ => None
  end.

(** A local [reminder_log] was read from the table: a row has its key and
    its appointment. *)
Definition backed (tb : ReminderLog.table) (l : ReminderLog.t) : Prop :=
  exists r, In r (ReminderLog.rows tb)
    /\ ReminderLog.id r = ReminderLog.id l
    /\ ReminderLog.appointment_id r = ReminderLog.appointment_id l.

Definition locals_backed (tb : ReminderLog.table) (workers : list worker) : Prop :=
  forall wk l, In wk workers -> local_log (worker_pc wk) = Some l -> backed tb l.

Definition consistent (c : world * list worker) : Prop :=
  ledger_unique (reminder_logs (fst c)) /\ locals_backed (reminder_logs (fst c)) (snd c).

(** The workers of [N] calls that have not started. *)
Definition spawn (tasks : list task) : list worker :=
  map (fun tk => Worker tk AtClaim) tasks.

(** The constraints of the [email_templates] table. *)
Definition templates_unique (tb : EmailTemplate.table) : Prop :=
  List.NoDup (map EmailTemplate.id (EmailTemplate.rows tb))
  /\ List.NoDup (map (fun r => (EmailTemplate.reminder_type r, EmailTemplate.is_active r))
                     (EmailTemplate.rows tb))
  /\ forall r, In r (EmailTemplate.rows tb) -> (EmailTemplate.id r < EmailTemplate.next_id tb)%nat.

Definition active_templates (rtype : string) (tb : EmailTemplate.table)
  : list EmailTemplate.t :=
  List.filter (EmailTemplate.matches rtype true) (EmailTemplate.rows tb).

(** The flag on an appointment is set only when the row of the
    appointment is in state Sent. *)
Definition flag_implies_sent (w : world) : Prop :=
  forall (d : document) (a : string),
    In d (collection (mongodb w)) ->
    d !! "_id" = Some (VStr a) -> d !! "reminderSent" = Some (VBool true) ->
    is_sent a w = true.

(** What a worker holds is the row of its appointment, and a worker that
    is about to set the flag has saved the row as Sent. *)
Definition worker_ok (w : world) (wk : worker) : Prop :=
  (forall l, local_log (worker_pc wk) = Some l ->
     ReminderLog.appointment_id l = task_appointment_id (worker_task wk))
  /\ (worker_pc wk = AtMark -> is_sent (task_appointment_id (worker_task wk)) w = true).

Definition flags_consistent (c : world * list worker) : Prop :=
  consistent c /\ flag_implies_sent (fst c) /\ Forall (worker_ok (fst c)) (snd c).

(** A row is in state Sent exactly when it has the time it was sent at. *)
Definition stamped (r : ReminderLog.t) : Prop :=
  ReminderLog.reminder_sent r = true <-> ReminderLog.reminder_sent_at r <> None.

Definition ledger_stamped (tb : ReminderLog.table) : Prop :=
  forall r, In r (ReminderLog.rows tb) -> stamped r.

(** The appointments of the calls [tasks] whose row is not in state Sent,
    each one once. *)
Definition unsent_appointments (w : world) (tasks : list task) : list string :=
  List.filter (fun a => negb (is_sent a w))
              (List.nodup String.string_dec (map task_appointment_id tasks)).

(** The constraints of the [system_settings] table. *)
Definition settings_unique (tb : SystemSettings.table) : Prop :=
  List.NoDup (map SystemSettings.id (SystemSettings.rows tb))
  /\ List.NoDup (map SystemSettings.key (SystemSettings.rows tb))
  /\ forall r, In r (SystemSettings.rows tb) ->
       (SystemSettings.id r < SystemSettings.next_id tb)%nat.

(** The fallback called [n] times in a row, whatever it returns. *)
Fixpoint call_default (n : nat) (w : world) : world :=
  match n with
  | O => w
  | S n' => call_default n' (snd (create_default_email_template w))
  end.

Section Observations.
Context (E : Env).

(** How often the row of appointment [a] goes from Claimed (or absent) to
    Sent along a schedule. *)
Fixpoint transitions_to_sent (a : string) (schedule : list action)
    (c : world * list worker) : nat :=
  match schedule with
  | [] => 0%nat
  | act :: rest =>
      let c' := exec E act c in
      ((if negb (is_sent a (fst c)) && is_sent a (fst c') then 1 else 0)
       + transitions_to_sent a rest c')%nat
  end.

(** The three renderings, as one result. *)
Definition render_email (tk : task) (context : document) (template : EmailTemplate.t)
  : res email :=
  res_bind (Format.format (builtins E) (EmailTemplate.subject template) context) (fun subject =>
  res_bind (Format.format (builtins E) (EmailTemplate.body_text template) context) (fun message =>
  res_bind (Format.format (builtins E) (EmailTemplate.body_html template) context) (fun html =>
  Ok (Email subject message (DEFAULT_FROM_EMAIL E) [task_user_email tk] html)))).

(** The template an attempt renders: the active one, or the default it
    creates. *)
Definition resolve_template (ot : option EmailTemplate.t) : M EmailTemplate.t :=
  match ot with
  | Some template => ret template
  | None => create_default_email_template
  end.

(** A format string references the keyword [key]: one of its replacement
    fields starts with that name. *)
Definition references (s key : string) : Prop :=
  exists name conv spec,
    In (Format.Field name conv spec) (Format.parse s)
    /\ fst (Format.field_name_split name) = key.

(** A format string subscripts the keyword [key]: one of its replacement
    fields is [key[...]]. *)
Definition subscripts (s key : string) : Prop :=
  exists name conv spec item accessors,
    In (Format.Field name conv spec) (Format.parse s)
    /\ Format.field_name_split name = (key, Format.Item item :: accessors).

(** A placeholder of the template is absent from the context. *)
Definition missing_placeholder (template : EmailTemplate.t) (context : document) : Prop :=
  exists s key,
    (s = EmailTemplate.subject template \/ s = EmailTemplate.body_text template
     \/ s = EmailTemplate.body_html template)
    /\ references s key /\ context !! key = None.


(** The snapshots a scan at [clock w] finds. *)
Definition candidates (w : world) : list document :=
  match get_appointments_for_reminder E 15 w with
  | (Ok appointments, _) => appointments
  | (Raise _, _) => []
  end.

End Observations.

(** ** Concrete worlds *)

Module Demo.

(** The builtins at the values the examples use: strings formatted with an
    empty format spec, and [strftime] at the appointment time of the
    examples, 1 January 2026, 10:00. *)
Definition simple_str (v : value) : string :=
  match v with
  | VStr s => s
  | VNone => "None"
  | VBool true => "True"
  | VBool false => "False"
  | _ => "<object>"
  end.

Definition builtins_2026 : Builtins := {|
  strftime := fun t fmt => if String.eqb fmt "%I:%M %p" then "10:00 AM" else "January 01, 2026";
  py_str := simple_str;
  py_repr := simple_str;
  py_ascii := simple_str;
  py_format := fun v spec =>
    match v, spec with
    | VStr s, EmptyString => Ok s
    | _, _ => Raise (Exn TypeError "unsupported format string")
    end;
  py_getattr := fun _ name => Raise (Exn AttributeError name)
|}.

Definition all_up : Env := {|
  builtins := builtins_2026;
  DEFAULT_FROM_EMAIL := "noreply@smartqueue.example";
  smtp_fails := fun _ => false;
  mongo_fails := fun _ => false;
  broker_fails := fun _ => false
|}.

Definition at_0945 : Z := 1767260700000000.
Definition at_1000 : Z := 1767261600000000.

Definition a1 : document :=
  <["_id" := VStr "a1"]> (
  <["appointmentDate" := VDate at_1000]> (
  <["status" := VStr "waiting"]> (
  <["notificationEmail" := VStr "u@x.com"]> (
  <["citizenId" := VStr "c1"]> (
  <["departmentId" := VStr "d1"]> (
  <["serviceId" := VStr "s1"]> (
  <["tokenNumber" := VStr "T-7"]> ∅))))))).

Definition store : MongoDB := {|
  collection := [a1];
  users := [<["_id" := VStr "c1"]> (<["firstName" := VStr "Ada"]> (<["lastName" := VStr "Byron"]> ∅))];
  departments := [<["_id" := VStr "d1"]> (<["name" := VStr "Licensing"]> ∅)];
  services := [<["_id" := VStr "s1"]> (<["name" := VStr "Renewal"]> ∅)]
|}.

(** A template an administrator wrote. *)
Definition plain_template : EmailTemplate.t :=
  EmailTemplate.mk 1 "Plain reminder" "Reminder - {token_number}"
    "<p>Dear {user[firstName]}, see you at {appointment_time}.</p>"
    "Dear {user[firstName]}, see you at {appointment_time}."
    "15min" true 0 0.

Definition claimed_row : ReminderLog.t :=
  ReminderLog.mk 1 "a1" "u@x.com" at_1000 false None "15min" at_0945 at_0945.

Definition sent_row : ReminderLog.t :=
  ReminderLog.mk 1 "a1" "u@x.com" at_1000 true (Some at_0945) "15min" at_0945 at_0945.

(** The default template, as [create_default_email_template] makes it at
    09:45 in a table whose sequence is at 1. *)
Definition default_template : EmailTemplate.t :=
  EmailTemplate.mk 1 "Default 15-Minute Reminder" default_subject default_body_html
    default_body_text "15min" true at_0945 at_0945.

Definition world_of (ledger : ReminderLog.table) (templates : EmailTemplate.table) : world :=
  {| reminder_logs := ledger;
     email_templates := templates;
     mongodb := store;
     queue := [];
     trace := [];
     clock := at_0945 |}.

Definition no_rows : ReminderLog.table := ReminderLog.Table [] 1.
Definition one_claimed : ReminderLog.table := ReminderLog.Table [claimed_row] 2.
Definition one_sent : ReminderLog.table := ReminderLog.Table [sent_row] 2.
Definition plain_templates : EmailTemplate.table := EmailTemplate.Table [plain_template] 2.
Definition no_templates : EmailTemplate.table := EmailTemplate.Table [] 1.
Definition default_templates : EmailTemplate.table := EmailTemplate.Table [default_template] 2.

(** No row yet, a row in state Claimed, a row in state Sent; no template. *)
Definition fresh_world : world := world_of no_rows plain_templates.
Definition claimed_world : world := world_of one_claimed plain_templates.
Definition sent_world : world := world_of one_sent plain_templates.
Definition bare_world : world := world_of no_rows no_templates.


Definition task_a1 : task := Task "a1" "u@x.com" at_1000 a1.

(** The context [send_reminder_email] builds for [a1], and the message the
    plain template renders to. *)
Definition context_a1 : document :=
  email_context all_up (List.head (users store)) (List.head (departments store))
    (List.head (services store)) a1 at_1000.

Definition mail_a1 : email :=
  Email "Reminder - T-7" "Dear Ada, see you at 10:00 AM." "noreply@smartqueue.example"
        ["u@x.com"] "<p>Dear Ada, see you at 10:00 AM.</p>".

(** Two workers for [a1] take their steps in turn; five seconds pass before
    the second one saves. *)
Definition in_turn : list action :=
  [Run 0%nat; Run 1%nat; Run 0%nat; Run 1%nat; Run 0%nat; Run 1%nat;
   Run 0%nat; Tick 5000000; Run 1%nat; Run 0%nat; Run 1%nat].

(** The gateway is down. *)
Definition smtp_down : Env := {|
  builtins := builtins_2026;
  DEFAULT_FROM_EMAIL := "noreply@smartqueue.example";
  smtp_fails := fun _ => true;
  mongo_fails := fun _ => false;
  broker_fails := fun _ => false
|}.

(** The appointment source is down. *)
Definition mongo_down : Env := {|
  builtins := builtins_2026;
  DEFAULT_FROM_EMAIL := "noreply@smartqueue.example";
  smtp_fails := fun _ => false;
  mongo_fails := fun _ => true;
  broker_fails := fun _ => false
|}.

(** The appointment source answers queries and refuses updates. *)
Definition updates_down : Env := {|
  builtins := builtins_2026;
  DEFAULT_FROM_EMAIL := "noreply@smartqueue.example";
  smtp_fails := fun _ => false;
  mongo_fails := fun op => match op with OpUpdateOne _ => true | _ => false end;
  broker_fails := fun _ => false
|}.


(** A site before the setup command has run, on which an operator has set
    the lead time to 30 minutes. *)
Definition changed_setting : SystemSettings.t :=
  SystemSettings.mk 1 "REMINDER_MINUTES_BEFORE" "30" "Minutes before appointment to send reminder"
    0 0.

Definition site_0945 : site :=
  {| site_world := bare_world;
     system_settings := SystemSettings.Table [changed_setting] 2;
     stdout := [] |}.

End Demo.

(** Closed equations are settled by evaluation. *)
Ltac computed :=
  lazymatch goal with
  | |- ?lhs = ?rhs => vm_cast_no_check (@eq_refl _ rhs)
  end.
(** ** Facts on the [reminder_logs] table *)

Section LedgerFacts.
Import ReminderLog.

Lemma has_appointment_true a r : has_appointment a r = true <-> appointment_id r = a.
Proof. unfold has_appointment. apply String.eqb_eq. Qed.

Lemma has_id_true i r : has_id i r = true <-> id r = i.
Proof. unfold has_id. apply Nat.eqb_eq. Qed.

Lemma filter_key_none {A} (p : A -> bool) (l : list A) :
  (forall x, In x l -> p x = false) -> List.filter p l = [].
Proof.
  induction l as [|y l IH]; intros H; simpl; [reflexivity|].
  rewrite (H y (or_introl eq_refl)). apply IH. intros x Hx. apply H. now right.
Qed.

Lemma filter_appointment_unique rs r :
  List.NoDup (map appointment_id rs) -> In r rs ->
  List.filter (has_appointment (appointment_id r)) rs = [r].
Proof.
  induction rs as [|y rs IH]; intros Hnd Hin; [destruct Hin|].
  simpl in Hnd. inversion Hnd as [|? ? Hy Hnd']; subst.
  simpl. destruct Hin as [->|Hin].
  - rewrite (proj2 (has_appointment_true _ _) eq_refl). f_equal.
    apply filter_key_none. intros x Hx.
    destruct (has_appointment (appointment_id r) x) eqn:Hx'; [|reflexivity].
    apply has_appointment_true in Hx'. exfalso. apply Hy. rewrite <- Hx'.
    now apply in_map.
  - destruct (has_appointment (appointment_id r) y) eqn:Hy'.
    + apply has_appointment_true in Hy'. exfalso. apply Hy. rewrite Hy'.
      now apply in_map.
    + now apply IH.
Qed.

Lemma get_found tb r :
  ledger_unique tb -> In r (rows tb) -> get (appointment_id r) tb = Ok r.
Proof.
  intros [_ Hnd] Hin. unfold get. now rewrite (filter_appointment_unique _ _ Hnd Hin).
Qed.

Lemma get_Ok a tb r : get a tb = Ok r -> In r (rows tb) /\ appointment_id r = a.
Proof.
  unfold get. intros H.
  destruct (List.filter (has_appointment a) (rows tb)) as [|x [|y l]] eqn:Hf; try discriminate.
  injection H as ->.
  assert (Hin : In r (List.filter (has_appointment a) (rows tb))) by (rewrite Hf; now left).
  apply List.filter_In in Hin. destruct Hin as [Hin Ha]. split; [assumption|].
  now apply has_appointment_true.
Qed.

Lemma get_DoesNotExist a tb msg :
  get a tb = Raise (Exn DoesNotExist msg) ->
  existsb (has_appointment a) (rows tb) = false.
Proof.
  unfold get. intros H.
  destruct (List.filter (has_appointment a) (rows tb)) as [|x [|y l]] eqn:Hf; try discriminate.
  destruct (existsb (has_appointment a) (rows tb)) eqn:Hex; [|reflexivity].
  apply existsb_exists in Hex. destruct Hex as [x [Hx Hax]].
  assert (Hin : In x (List.filter (has_appointment a) (rows tb)))
    by (apply List.filter_In; now split).
  rewrite Hf in Hin. destruct Hin.
Qed.

(** The three outcomes of [get_or_create]. *)
Lemma get_or_create_cases a email date rtype now tb :
  (exists r, get_or_create a email date rtype now tb = (Ok (r, false), tb)
             /\ In r (rows tb) /\ appointment_id r = a)
  \/ (get_or_create a email date rtype now tb
        = (Ok (mk (next_id tb) a email date false None rtype now now, true),
           Table (rows tb ++ [mk (next_id tb) a email date false None rtype now now])
                 (S (next_id tb)))
      /\ existsb (has_appointment a) (rows tb) = false
      /\ existsb (has_id (next_id tb)) (rows tb) = false)
  \/ (exists e, get_or_create a email date rtype now tb = (Raise e, tb)).
Proof.
  unfold get_or_create.
  destruct (get a tb) as [r|[k msg]] eqn:Hget.
  - left. exists r. apply get_Ok in Hget. tauto.
  - destruct k; try (right; right; eexists; reflexivity).
    apply get_DoesNotExist in Hget.
    unfold create, insert. simpl.
    destruct (existsb (has_id (next_id tb)) (rows tb)) eqn:Hid; simpl.
    + right; right. eexists. reflexivity.
    + rewrite Hget. simpl. right; left. auto.
Qed.

End LedgerFacts.

Section LedgerInvariants.
Import ReminderLog.

Lemma NoDup_map_snoc {A K} (f : A -> K) (l : list A) (x : A) :
  List.NoDup (map f l) -> (forall y, In y l -> f y <> f x) ->
  List.NoDup (map f (l ++ [x])).
Proof.
  induction l as [|y l IH]; simpl; intros Hnd Hne.
  - constructor; [intros []|constructor].
  - inversion Hnd as [|? ? Hy Hnd']; subst. constructor.
    + rewrite map_app, in_app_iff. intros [Hin|[Heq|[]]].
      * now apply Hy.
      * apply (Hne y); [now left|]. now symmetry.
    + apply IH; [assumption|]. intros z Hz. apply Hne. now right.
Qed.

Lemma NoDup_map_filter {A K} (f : A -> K) (p : A -> bool) (l : list A) :
  List.NoDup (map f l) -> List.NoDup (map f (List.filter p l)).
Proof.
  induction l as [|y l IH]; simpl; intros Hnd; [constructor|].
  inversion Hnd as [|? ? Hy Hnd']; subst.
  destruct (p y); simpl; [|now apply IH].
  constructor; [|now apply IH].
  intros Hin. apply Hy. apply in_map_iff in Hin. destruct Hin as [z [Hz Hin]].
  apply List.filter_In in Hin. rewrite <- Hz. apply in_map. tauto.
Qed.

Lemma NoDup_map_same {A K} (f : A -> K) (l : list A) (x y : A) :
  List.NoDup (map f l) -> In x l -> In y l -> f x = f y -> x = y.
Proof.
  induction l as [|z l IH]; simpl; intros Hnd Hx Hy Hf; [destruct Hx|].
  inversion Hnd as [|? ? Hz Hnd']; subst.
  destruct Hx as [->|Hx], Hy as [->|Hy]; try reflexivity.
  - exfalso. apply Hz. rewrite Hf. now apply in_map.
  - exfalso. apply Hz. rewrite <- Hf. now apply in_map.
  - now apply IH.
Qed.

Lemma existsb_false {A} (p : A -> bool) (l : list A) :
  existsb p l = false <-> forall x, In x l -> p x = false.
Proof.
  split.
  - intros H x Hx. destruct (p x) eqn:Hp; [|reflexivity].
    rewrite <- H. symmetry. apply existsb_exists. eauto.
  - intros H. destruct (existsb p l) eqn:Hex; [|reflexivity].
    apply existsb_exists in Hex. destruct Hex as [x [Hx Hp]].
    rewrite (H x Hx) in Hp. discriminate.
Qed.

(** The three outcomes of [save]. *)
Lemma save_cases obj now tb :
  (save obj now tb
     = Ok (touch obj now, Table (map (replace_row obj (touch obj now)) (rows tb)) (next_id tb))
   /\ existsb (has_id (id obj)) (rows tb) = true
   /\ existsb (fun r => has_appointment (appointment_id obj) r && negb (has_id (id obj) r))
              (rows tb) = false)
  \/ (save obj now tb = Ok (touch obj now, Table (rows tb ++ [touch obj now]) (next_id tb))
      /\ existsb (has_id (id obj)) (rows tb) = false
      /\ existsb (has_appointment (appointment_id obj)) (rows tb) = false)
  \/ (exists e, save obj now tb = Raise e).
Proof.
  unfold save, insert. simpl.
  destruct (existsb (has_id (id obj)) (rows tb)) eqn:Hid.
  - destruct (existsb (fun r => _ && _) (rows tb)) eqn:Hc.
    + right; right. eexists. reflexivity.
    + left. auto.
  - destruct (existsb (has_appointment (appointment_id obj)) (rows tb)) eqn:Ha; simpl.
    + right; right. eexists. reflexivity.
    + right; left. auto.
Qed.

Lemma map_id_replace obj obj' rs :
  id obj' = id obj -> map id (map (replace_row obj obj') rs) = map id rs.
Proof.
  intros Hid. induction rs as [|r rs IH]; simpl; [reflexivity|].
  rewrite IH. f_equal. unfold replace_row.
  destruct (has_id (id obj) r) eqn:Hr; [|reflexivity].
  apply has_id_true in Hr. congruence.
Qed.

Lemma in_replace obj obj' rs x :
  In x (map (replace_row obj obj') rs) ->
  (x = obj' /\ exists r, In r rs /\ id r = id obj) \/ (In x rs /\ id x <> id obj).
Proof.
  intros Hin. apply in_map_iff in Hin. destruct Hin as [r [Hr Hin]].
  unfold replace_row in Hr. destruct (has_id (id obj) r) eqn:Hid.
  - left. apply has_id_true in Hid. split; [now symmetry|eauto].
  - right. subst x. split; [assumption|]. intros Heq.
    apply has_id_true in Heq. congruence.
Qed.

Lemma NoDup_appointment_replace obj obj' rs :
  appointment_id obj' = appointment_id obj ->
  List.NoDup (map id rs) -> List.NoDup (map appointment_id rs) ->
  existsb (fun r => has_appointment (appointment_id obj) r && negb (has_id (id obj) r)) rs
    = false ->
  List.NoDup (map appointment_id (map (replace_row obj obj') rs)).
Proof.
  intros Ha. induction rs as [|r rs IH]; simpl; intros Hid Hap Hc; [constructor|].
  inversion Hid as [|? ? Hr Hid']; subst. inversion Hap as [|? ? Hr' Hap']; subst.
  apply orb_false_iff in Hc. destruct Hc as [Hcr Hc].
  constructor; [|now apply IH].
  intros Hin. apply in_map_iff in Hin. destruct Hin as [x [Hx Hin]].
  apply in_replace in Hin.
  assert (Hother : forall y, In y rs -> id y <> id obj -> appointment_id y <> appointment_id obj).
  { intros y Hy Hne Heq. rewrite existsb_false in Hc. specialize (Hc y Hy).
    apply andb_false_iff in Hc. destruct Hc as [Hc|Hc].
    - apply Bool.not_true_iff_false in Hc. apply Hc. now apply has_appointment_true.
    - apply negb_false_iff in Hc. apply has_id_true in Hc. contradiction. }
  unfold replace_row in Hx.
  destruct (has_id (id obj) r) eqn:Hrid.
  - apply has_id_true in Hrid. destruct Hin as [[-> [y [Hy Hyid]]]|[Hin Hne]].
    + apply Hr. rewrite Hrid, <- Hyid. now apply in_map.
    + apply (Hother x Hin Hne). congruence.
  - destruct Hin as [[-> [y [Hy Hyid]]]|[Hin Hne]].
    + apply andb_false_iff in Hcr. destruct Hcr as [Hcr|Hcr].
      * apply Bool.not_true_iff_false in Hcr. apply Hcr. apply has_appointment_true.
        congruence.
      * discriminate.
    + apply Hr'. rewrite <- Hx. now apply in_map.
Qed.

Lemma save_unique obj now tb obj' tb' :
  ledger_unique tb -> save obj now tb = Ok (obj', tb') -> ledger_unique tb'.
Proof.
  intros [Hid Hap] Hsave.
  destruct (save_cases obj now tb) as [[Heq [Hex Hc]]|[[Heq [Hex Hc]]|[e Heq]]];
    rewrite Heq in Hsave; try discriminate; injection Hsave as <- <-; split; simpl.
  - now rewrite map_id_replace.
  - now apply NoDup_appointment_replace.
  - apply NoDup_map_snoc; [assumption|]. intros y Hy Heq'.
    rewrite existsb_false in Hex. specialize (Hex y Hy).
    apply Bool.not_true_iff_false in Hex. apply Hex. now apply has_id_true.
  - apply NoDup_map_snoc; [assumption|]. intros y Hy Heq'.
    rewrite existsb_false in Hc. specialize (Hc y Hy).
    apply Bool.not_true_iff_false in Hc. apply Hc. now apply has_appointment_true.
Qed.

Lemma get_or_create_unique a email date rtype now tb r tb' :
  ledger_unique tb -> get_or_create a email date rtype now tb = (r, tb') ->
  ledger_unique tb'.
Proof.
  intros [Hid Hap] Hg.
  destruct (get_or_create_cases a email date rtype now tb)
    as [[r0 [Heq _]]|[[Heq [Ha Hi]]|[e Heq]]];
    rewrite Heq in Hg; injection Hg as <- <-; try (split; assumption).
  split; simpl.
  - apply NoDup_map_snoc; [assumption|]. intros y Hy Heq'. simpl in Heq'.
    rewrite existsb_false in Hi. specialize (Hi y Hy).
    apply Bool.not_true_iff_false in Hi. apply Hi. now apply has_id_true.
  - apply NoDup_map_snoc; [assumption|]. intros y Hy Heq'. simpl in Heq'.
    rewrite existsb_false in Ha. specialize (Ha y Hy).
    apply Bool.not_true_iff_false in Ha. apply Ha. now apply has_appointment_true.
Qed.

Lemma filter_delete_unique cutoff tb :
  ledger_unique tb -> ledger_unique (snd (filter_delete cutoff tb)).
Proof.
  intros [Hid Hap]. split; simpl; now apply NoDup_map_filter.
Qed.

Lemma ledger_grows_refl tb : ledger_grows tb tb.
Proof. intros r Hr. exists r. auto. Qed.

Lemma ledger_grows_snoc tb r n :
  ledger_grows tb (Table (rows tb ++ [r]) n).
Proof. intros x Hx. exists x. simpl. rewrite in_app_iff. auto. Qed.

Lemma get_or_create_grows a email date rtype now tb r tb' :
  get_or_create a email date rtype now tb = (r, tb') -> ledger_grows tb tb'.
Proof.
  intros Hg.
  destruct (get_or_create_cases a email date rtype now tb)
    as [[r0 [Heq _]]|[[Heq _]|[e Heq]]];
    rewrite Heq in Hg; injection Hg as <- <-;
    auto using ledger_grows_refl, ledger_grows_snoc.
Qed.

(** Saving a [reminder_log] that was read from the table and marked as sent
    keeps every key with its appointment and no row leaves the state Sent. *)
Lemma save_grows obj now tb obj' tb' :
  ledger_unique tb -> backed tb obj -> reminder_sent obj = true ->
  save obj now tb = Ok (obj', tb') -> ledger_grows tb tb'.
Proof.
  intros [Hid Hap] [r0 [Hr0 [Hr0id Hr0a]]] Hsent Hsave.
  destruct (save_cases obj now tb) as [[Heq [Hex Hc]]|[[Heq [Hex Hc]]|[e Heq]]];
    rewrite Heq in Hsave; try discriminate; injection Hsave as <- <-.
  - intros r Hr. exists (replace_row obj (touch obj now) r). split.
    + simpl. now apply in_map.
    + unfold replace_row. destruct (has_id (id obj) r) eqn:Hrid; [|auto].
      apply has_id_true in Hrid. simpl.
      assert (r = r0) by (apply (NoDup_map_same id (rows tb)); congruence).
      subst r0. auto.
  - apply ledger_grows_snoc.
Qed.

Lemma backed_grows tb tb' l : ledger_grows tb tb' -> backed tb l -> backed tb' l.
Proof.
  intros Hg [r [Hr [Hid Ha]]]. destruct (Hg r Hr) as [r' [Hr' [Hid' [Ha' _]]]].
  exists r'. repeat split; congruence.
Qed.

Lemma never_reset_grows tb tb' :
  List.NoDup (map id (rows tb')) -> ledger_grows tb tb' -> never_reset tb tb'.
Proof.
  intros Hnd Hg r r' Hr Hsent Hr' Hid.
  destruct (Hg r Hr) as [r'' [Hr'' [Hid'' [_ Hs]]]].
  assert (r' = r'') by (apply (NoDup_map_same id (rows tb')); congruence).
  subst. auto.
Qed.

End LedgerInvariants.

(** ** What each step reads and writes *)

Section Steps.
Context (E : Env).

Ltac run_M :=
  unfold bind, try_except, ret, raise, lift, gets, modify in *.

Lemma find_one_total coll sel oid w :
  exists o, try_except (find_one E coll sel oid) (fun _ => ret None) w = (Ok o, w).
Proof.
  unfold find_one. run_M. destruct (mongo_fails E _); eexists; reflexivity.
Qed.

Lemma get_user_by_id_total v w : exists o, get_user_by_id E v w = (Ok o, w).
Proof. apply find_one_total. Qed.

Lemma get_department_by_id_total v w : exists o, get_department_by_id E v w = (Ok o, w).
Proof. apply find_one_total. Qed.

Lemma get_service_by_id_total v w : exists o, get_service_by_id E v w = (Ok o, w).
Proof. apply find_one_total. Qed.

Lemma get_appointment_by_id_total a w : exists o, get_appointment_by_id E a w = (Ok o, w).
Proof. apply find_one_total. Qed.

(** The lookups read the appointment source and the templates; they
    neither fail nor write. *)
Lemma lookup_step_total tk w :
  exists context,
    lookup_step E tk w
    = (Ok (context, EmailTemplate.filter_first "15min" true (email_templates w)), w).
Proof.
  unfold lookup_step, EmailTemplate_filter_first.
  destruct (get_user_by_id_total (dict_get (task_appointment_data tk) "citizenId" VNone) w)
    as [u Hu].
  destruct (get_department_by_id_total
              (dict_get (task_appointment_data tk) "departmentId" VNone) w) as [d Hd].
  destruct (get_service_by_id_total (dict_get (task_appointment_data tk) "serviceId" VNone) w)
    as [s Hs].
  unfold bind at 1. rewrite Hu. unfold bind at 1. rewrite Hd.
  unfold bind at 1. rewrite Hs. run_M. eexists. reflexivity.
Qed.

Lemma create_default_cases w :
  (exists template tb,
      create_default_email_template w = (Ok template, set_email_templates tb w)
      /\ EmailTemplate.create "Default 15-Minute Reminder" default_subject
           default_body_html default_body_text "15min" true (clock w) (email_templates w)
         = Ok (template, tb))
  \/ (exists e, create_default_email_template w = (Raise e, w)).
Proof.
  unfold create_default_email_template.
  destruct (EmailTemplate.create _ _ _ _ _ _ _ _) as [[template tb]|e].
  - left. eauto.
  - right. eauto.
Qed.

Lemma send_step_eq tk context template w :
  send_step E tk context template w
  = match render_email E tk context template with
    | Ok m => if smtp_fails E m then
                (Raise (Exn SMTPException "the message was not accepted"), w)
              else (Ok tt, log_event (EvSendMail m) w)
    | Raise e => (Raise e, w)
    end.
Proof.
  unfold send_step, render_email, send_mail. run_M.
  destruct (Format.format _ (EmailTemplate.subject template) context); simpl; [|reflexivity].
  destruct (Format.format _ (EmailTemplate.body_text template) context); simpl; [|reflexivity].
  destruct (Format.format _ (EmailTemplate.body_html template) context); simpl; reflexivity.
Qed.

Lemma save_step_eq l w :
  save_step l w
  = match ReminderLog.save (mark_sent l (clock w)) (clock w) (reminder_logs w) with
    | Ok (obj', tb) => (Ok tt, log_event (EvLedgerSave obj') (set_reminder_logs tb w))
    | Raise e => (Raise e, w)
    end.
Proof. reflexivity. Qed.

Lemma mark_reminder_sent_cases a w :
  exists b o db,
    mark_reminder_sent E a w
    = (Ok b, log_event (EvMongoUpdate a o) (set_mongodb db w))
    /\ (mongo_fails E (OpUpdateOne a) = true -> b = false /\ o = None /\ db = mongodb w)
    /\ (mongo_fails E (OpUpdateOne a) = false -> o = Some b).
Proof.
  unfold mark_reminder_sent, collection_update_one. run_M.
  destruct (mongo_fails E (OpUpdateOne a)).
  - exists false, None, (mongodb w). destruct w as [? ? [] ? ? ?]. simpl.
    repeat split; discriminate.
  - destruct (update_first _ _ _ _) as [docs modified].
    eexists modified, (Some modified), _. repeat split; discriminate.
Qed.

(** A step changes the ledger only by claiming or by saving; the ledger
    keeps its constraints, rows keep their key and appointment, and what a
    worker holds after the step was read from the table. *)
Lemma advance_ledger tk p w p' w' :
  advance E tk p w = (p', w') ->
  ledger_unique (reminder_logs w) ->
  (forall l, local_log p = Some l -> backed (reminder_logs w) l) ->
  ledger_unique (reminder_logs w')
  /\ ledger_grows (reminder_logs w) (reminder_logs w')
  /\ (forall l, local_log p' = Some l -> backed (reminder_logs w') l).
Proof.
  intros Hadv Huniq Hback.
  assert (Hsame : forall q, reminder_logs w' = reminder_logs w ->
            (forall l, local_log q = Some l -> local_log p = Some l) ->
            ledger_unique (reminder_logs w')
            /\ ledger_grows (reminder_logs w) (reminder_logs w')
            /\ (forall l, local_log q = Some l -> backed (reminder_logs w') l)).
  { intros q -> Hq. split; [assumption|]. split; [apply ledger_grows_refl|]. auto. }
  destruct p as [|l|l ctx|l ctx tp|l| |b]; simpl in Hadv.
  - (* claim *)
    unfold ReminderLog_get_or_create in Hadv.
    destruct (ReminderLog.get_or_create _ _ _ _ _ _) as [r tb] eqn:Hg.
    pose proof (get_or_create_unique _ _ _ _ _ _ _ _ Huniq Hg) as Hu'.
    pose proof (get_or_create_grows _ _ _ _ _ _ _ _ Hg) as Hgr.
    assert (Hw' : reminder_logs w' = tb).
    { destruct r as [[r c]|e]; injection Hadv as <- <-; reflexivity. }
    rewrite Hw'. split; [assumption|]. split; [assumption|].
    intros l Hl.
    destruct (get_or_create_cases (task_appointment_id tk) (task_user_email tk)
                (task_appointment_date tk) "15min" (clock w) (reminder_logs w))
      as [[r0 [Heq [Hin Ha]]]|[[Heq _]|[e Heq]]]; rewrite Heq in Hg;
      injection Hg as <- <-; injection Hadv as <- _; simpl in Hl.
    + destruct (ReminderLog.reminder_sent r0); simpl in Hl; try discriminate.
      injection Hl as <-. exists r0. auto.
    + injection Hl as <-. eexists. simpl. rewrite in_app_iff. simpl. eauto.
    + discriminate.
  - (* lookups *)
    destruct (lookup_step_total tk w) as [ctx Hl]. rewrite Hl in Hadv.
    destruct (EmailTemplate.filter_first _ _ _); injection Hadv as <- <-;
      apply Hsame; auto.
  - (* default template *)
    destruct (create_default_cases w) as [[tp [tb [Heq _]]]|[e Heq]];
      rewrite Heq in Hadv; injection Hadv as <- <-; apply Hsame; auto; discriminate.
  - (* render and send *)
    rewrite send_step_eq in Hadv.
    destruct (render_email E tk ctx tp) as [m|e]; [destruct (smtp_fails E m)|];
      injection Hadv as <- <-; apply Hsame; auto; discriminate.
  - (* save *)
    rewrite save_step_eq in Hadv.
    destruct (ReminderLog.save _ _ _) as [[obj' tb]|e] eqn:Hs.
    + injection Hadv as <- <-. simpl.
      assert (Hb : backed (reminder_logs w) (mark_sent l (clock w))).
      { destruct (Hback l eq_refl) as [r [Hr [Hid Ha]]]. exists r. auto. }
      split; [eapply save_unique; eauto|].
      split; [eapply save_grows; eauto|]. discriminate.
    + injection Hadv as <- <-. apply Hsame; auto; discriminate.
  - (* mark in MongoDB *)
    destruct (mark_reminder_sent_cases (task_appointment_id tk) w) as [b [o [db [Heq _]]]].
    rewrite Heq in Hadv. injection Hadv as <- <-. apply Hsame; auto.
  - injection Hadv as <- <-. apply Hsame; auto.
Qed.

End Steps.

(** ** Concurrent workers: the ledger under any schedule *)

Section Concurrency.
Context (E : Env).

Lemma lookup_In {A} (l : list A) (i : nat) (x : A) : l !! i = Some x -> In x l.
Proof.
  revert i. induction l as [|y l IH]; intros [|i] H; simpl in H; try discriminate.
  - injection H as ->. now left.
  - right. eapply IH. eassumption.
Qed.

Lemma in_list_insert {A} (l : list A) (i : nat) (x y : A) :
  In y (<[i:=x]> l) -> y = x \/ In y l.
Proof.
  revert i. induction l as [|z l IH]; intros [|i] H; simpl in H; auto.
  - destruct H as [<-|H]; [now left|]. right. now right.
  - destruct H as [<-|H]; [right; now left|].
    destruct (IH i H); [now left|]. right. now right.
Qed.

Lemma exec_consistent act c :
  consistent c ->
  consistent (exec E act c)
  /\ ledger_grows (reminder_logs (fst c)) (reminder_logs (fst (exec E act c))).
Proof.
  destruct c as [w workers]. intros [Hu Hb]. simpl in Hu, Hb.
  destruct act as [i|dt]; simpl.
  - destruct (workers !! i) as [wk|] eqn:Hi; [|split; [split; assumption|apply ledger_grows_refl]].
    destruct (advance E (worker_task wk) (worker_pc wk) w) as [p' w'] eqn:Hadv.
    destruct (advance_ledger E _ _ _ _ _ Hadv Hu) as [Hu' [Hg Hl]].
    { intros l Hl. eapply Hb; [eapply lookup_In; eassumption|assumption]. }
    split; [|exact Hg]. split; [exact Hu'|]. simpl.
    intros wk' l Hin Hloc. apply in_list_insert in Hin. destruct Hin as [->|Hin].
    + apply Hl. exact Hloc.
    + eapply backed_grows; [exact Hg|]. eapply Hb; eassumption.
  - split; [split; assumption|apply ledger_grows_refl].
Qed.

Lemma run_consistent schedule c : consistent c -> consistent (run E schedule c).
Proof.
  revert c. induction schedule as [|act rest IH]; intros c Hc; simpl; [assumption|].
  apply IH. now apply exec_consistent.
Qed.


Lemma is_sent_true a w :
  is_sent a w = true <->
  exists r, In r (ReminderLog.rows (reminder_logs w))
            /\ ReminderLog.appointment_id r = a /\ ReminderLog.reminder_sent r = true.
Proof.
  unfold is_sent. rewrite existsb_exists. split.
  - intros [r [Hr Hp]]. apply andb_true_iff in Hp. destruct Hp as [Ha Hs].
    exists r. rewrite has_appointment_true in Ha. auto.
  - intros [r [Hr [Ha Hs]]]. exists r. split; [assumption|].
    apply andb_true_iff. split; [now apply has_appointment_true|assumption].
Qed.

Lemma is_sent_grows a w w' :
  ledger_grows (reminder_logs w) (reminder_logs w') ->
  is_sent a w = true -> is_sent a w' = true.
Proof.
  intros Hg Hs. apply is_sent_true in Hs. destruct Hs as [r [Hr [Ha Hs]]].
  destruct (Hg r Hr) as [r' [Hr' [_ [Ha' Hs']]]].
  apply is_sent_true. exists r'. repeat split; [assumption|congruence|auto].
Qed.




Lemma spawn_consistent w tasks : ledger_unique (reminder_logs w) -> consistent (w, spawn tasks).
Proof.
  intros Hu. split; [assumption|]. intros wk l Hin Hl. simpl in Hin.
  unfold spawn in Hin. apply in_map_iff in Hin. destruct Hin as [tk [<- _]].
  discriminate.
Qed.


End Concurrency.

(** ** One call of [send_reminder_email], stage by stage *)

Section Staged.
Context (E : Env).

Lemma send_reminder_email_staged a email date data w :
  send_reminder_email E a email date data w
  = match ReminderLog_get_or_create a email date "15min" w with
    | (Ok (reminder_log, created), w1) =>
        if negb created && ReminderLog.reminder_sent reminder_log then (Ok true, w1)
        else
          match lookup_step E (Task a email date data) w1 with
          | (Ok (context, ot), w2) =>
              match resolve_template ot w2 with
              | (Ok template, w3) =>
                  match send_step E (Task a email date data) context template w3 with
                  | (Ok _, w4) =>
                      match save_step reminder_log w4 with
                      | (Ok _, w5) =>
                          match mark_reminder_sent E a w5 with
                          | (Ok _, w6) => (Ok true, w6)
                          | (Raise _, w6) => (Ok false, w6)
                          end
                      | (Raise _, w5) => (Ok false, w5)
                      end
                  | (Raise _, w4) => (Ok false, w4)
                  end
              | (Raise _, w3) => (Ok false, w3)
              end
          | (Raise _, w2) => (Ok false, w2)
          end
    | (Raise _, w1) => (Ok false, w1)
    end.
Proof.
  unfold send_reminder_email, lookup_step, send_step, save_step, resolve_template.
  unfold try_except, bind, ret, lift, gets. simpl.
  destruct (ReminderLog_get_or_create a email date "15min" w) as [[[l c]|e] w1]; [|reflexivity].
  destruct (negb c && ReminderLog.reminder_sent l); [reflexivity|].
  destruct (get_user_by_id E _ w1) as [[u|e] w2]; [|reflexivity].
  destruct (get_department_by_id E _ w2) as [[d|e] w3]; [|reflexivity].
  destruct (get_service_by_id E _ w3) as [[s|e] w4]; [|reflexivity].
  destruct (EmailTemplate_filter_first "15min" true w4) as [[ot|e] w5] eqn:Hf.
  2:{ unfold EmailTemplate_filter_first, gets in Hf. discriminate. }
  unfold EmailTemplate_filter_first, gets in Hf. injection Hf as <- <-.
  destruct (EmailTemplate.filter_first "15min" true (email_templates w4)) as [t|].
  - destruct (Format.format _ (EmailTemplate.subject t) _); [|reflexivity].
    destruct (Format.format _ (EmailTemplate.body_text t) _); [|reflexivity].
    destruct (Format.format _ (EmailTemplate.body_html t) _); [|reflexivity].
    destruct (send_mail E _ w4) as [[[]|e] w5]; [|reflexivity].
    destruct (ReminderLog_save _ w5) as [[[]|e] w6]; [|reflexivity].
    destruct (mark_reminder_sent E a w6) as [[b|e] w7]; reflexivity.
  - destruct (create_default_email_template w4) as [[t|e] w5]; [|reflexivity].
    destruct (Format.format _ (EmailTemplate.subject t) _); [|reflexivity].
    destruct (Format.format _ (EmailTemplate.body_text t) _); [|reflexivity].
    destruct (Format.format _ (EmailTemplate.body_html t) _); [|reflexivity].
    destruct (send_mail E _ w5) as [[[]|e] w6]; [|reflexivity].
    destruct (ReminderLog_save _ w6) as [[[]|e] w7]; [|reflexivity].
    destruct (mark_reminder_sent E a w7) as [[b|e] w8]; reflexivity.
Qed.

Lemma run_task_solo tk w :
  exists b w', run_task E tk w = (Ok b, w') /\ advance_n E 6 tk AtClaim w = (Returned b, w').
Proof.
  unfold run_task. rewrite send_reminder_email_staged.
  destruct tk as [a email date data]. cbn [advance_n advance task_appointment_id
    task_user_email task_appointment_date task_appointment_data].
  destruct (ReminderLog_get_or_create a email date "15min" w) as [[[l c]|e] w1];
    [|eexists _, _; split; reflexivity].
  destruct (negb c && ReminderLog.reminder_sent l); [eexists _, _; split; reflexivity|].
  cbn [advance].
  destruct (lookup_step E _ w1) as [[[ctx ot]|e] w2]; [|eexists _, _; split; reflexivity].
  destruct ot as [t|]; cbn [advance resolve_template]; unfold ret.
  - destruct (send_step E _ ctx t w2) as [[[]|e] w3]; [|eexists _, _; split; reflexivity].
    cbn [advance].
    destruct (save_step l w3) as [[[]|e] w4]; [|eexists _, _; split; reflexivity].
    cbn [advance task_appointment_id].
    destruct (mark_reminder_sent E a w4) as [[b|e] w5]; eexists _, _; split; reflexivity.
  - destruct (create_default_email_template w2) as [[t|e] w3];
      [|eexists _, _; split; reflexivity].
    cbn [advance].
    destruct (send_step E _ ctx t w3) as [[[]|e] w4]; [|eexists _, _; split; reflexivity].
    cbn [advance].
    destruct (save_step l w4) as [[[]|e] w5]; [|eexists _, _; split; reflexivity].
    cbn [advance task_appointment_id].
    destruct (mark_reminder_sent E a w5) as [[b|e] w6]; eexists _, _; split; reflexivity.
Qed.
End Staged.

(** ** Rendering fails closed *)

Section RenderFacts.
Context (B : Builtins).

Lemma raised_bind {A C} (r : res A) (k : A -> res C) : raised r -> raised (res_bind r k).
Proof. intros [e ->]. exists e. reflexivity. Qed.

Lemma get_field_object_missing kwargs name :
  kwargs !! fst (Format.field_name_split name) = None ->
  raised (Format.get_field_object B kwargs name).
Proof.
  unfold Format.get_field_object.
  destruct (Format.field_name_split name) as [first accs]. cbn [fst]. intros Hnone.
  destruct first as [|c first]; [eexists; reflexivity|].
  destruct (Format.get_integer (String c first)); [eexists; reflexivity|].
  unfold dict_getitem. rewrite Hnone. eexists. reflexivity.
Qed.

Lemma render_pieces_missing kwargs expand ps name conv spec :
  In (Format.Field name conv spec) ps ->
  kwargs !! fst (Format.field_name_split name) = None ->
  raised (Format.render_pieces B kwargs expand ps).
Proof.
  intros Hin Hnone. induction ps as [|p ps IH]; [destruct Hin|].
  destruct Hin as [->|Hin].
  - simpl. apply raised_bind. now apply get_field_object_missing.
  - specialize (IH Hin). destruct p as [l|n c s|msg]; simpl.
    + now apply raised_bind.
    + destruct (Format.get_field_object B kwargs n) as [obj|e]; simpl; [|eexists; reflexivity].
      destruct (Format.do_conversion B obj c) as [obj'|e]; simpl; [|eexists; reflexivity].
      destruct (if Format.has_brace s then expand s else Ok s) as [spec'|e]; simpl;
        [|eexists; reflexivity].
      destruct (py_format B obj' spec') as [text|e]; simpl; [|eexists; reflexivity].
      now apply raised_bind.
    + eexists. reflexivity.
Qed.

(** A placeholder that is absent from the context makes [format] raise:
    there is no partial rendering. *)
Lemma format_missing_placeholder s key kwargs :
  references s key -> kwargs !! key = None -> raised (Format.format B s kwargs).
Proof.
  intros [name [conv [spec [Hin <-]]]] Hnone.
  unfold Format.format. simpl. eapply render_pieces_missing; eassumption.
Qed.

End RenderFacts.

Section Attempt.
Context (E : Env).

Lemma render_email_missing tk context template :
  missing_placeholder template context -> raised (render_email E tk context template).
Proof.
  intros [s [key [Hs [Href Hnone]]]].
  pose proof (format_missing_placeholder (builtins E) s key context Href Hnone) as Hr.
  unfold render_email.
  destruct Hs as [-> | [-> | ->]].
  - now apply raised_bind.
  - destruct (Format.format _ (EmailTemplate.subject template) context);
      [simpl|eexists; reflexivity]. now apply raised_bind.
  - destruct (Format.format _ (EmailTemplate.subject template) context);
      [simpl|eexists; reflexivity].
    destruct (Format.format _ (EmailTemplate.body_text template) context);
      [simpl|eexists; reflexivity]. now apply raised_bind.
Qed.

Lemma set_reminder_logs_same w : set_reminder_logs (reminder_logs w) w = w.
Proof. now destruct w. Qed.

(** The claim step: what [get_or_create] returns and what it leaves. *)
Lemma claim_facts a email date w l created w1 :
  ReminderLog_get_or_create a email date "15min" w = (Ok (l, created), w1) ->
  w1 = set_reminder_logs (reminder_logs w1) w
  /\ In l (ReminderLog.rows (reminder_logs w1))
  /\ ReminderLog.appointment_id l = a
  /\ (created = false -> reminder_logs w1 = reminder_logs w)
  /\ (created = true ->
      l = ReminderLog.mk (ReminderLog.next_id (reminder_logs w)) a email date false None
            "15min" (clock w) (clock w)
      /\ ReminderLog.rows (reminder_logs w1)
         = (ReminderLog.rows (reminder_logs w) ++ [l])%list
      /\ existsb (ReminderLog.has_appointment a) (ReminderLog.rows (reminder_logs w)) = false).
Proof.
  unfold ReminderLog_get_or_create. intros H.
  destruct (get_or_create_cases a email date "15min" (clock w) (reminder_logs w))
    as [[r0 [Heq [Hin Ha]]]|[[Heq [Hex _]]|[e Heq]]]; rewrite Heq in H;
    try discriminate; injection H as <- <- <-; simpl.
  - repeat split; auto; discriminate.
  - split; [reflexivity|]. split; [rewrite in_app_iff; simpl; auto|].
    split; [reflexivity|]. split; [discriminate|]. auto.
Qed.

Lemma claim_existing w r email date :
  ledger_unique (reminder_logs w) -> In r (ReminderLog.rows (reminder_logs w)) ->
  ReminderLog_get_or_create (ReminderLog.appointment_id r) email date "15min" w
  = (Ok (r, false), w).
Proof.
  intros Hu Hin. unfold ReminderLog_get_or_create, ReminderLog.get_or_create.
  rewrite (get_found _ _ Hu Hin). now rewrite set_reminder_logs_same.
Qed.

Lemma resolve_template_facts ot w t w2 :
  resolve_template ot w = (Ok t, w2) ->
  w2 = set_email_templates (email_templates w2) w.
Proof.
  destruct ot as [t0|]; simpl.
  - unfold ret. intros H. injection H as <- <-. now destruct w.
  - intros H. destruct (create_default_cases w) as [[tp [tb [Heq _]]]|[e Heq]];
      rewrite Heq in H; [|discriminate]. injection H as <- <-. reflexivity.
Qed.

(** Saving a [reminder_log] that was read from the table updates its row. *)
Lemma save_read_row obj now tb :
  ledger_unique tb -> backed tb obj ->
  ReminderLog.save obj now tb
  = Ok (ReminderLog.touch obj now,
        ReminderLog.Table (map (replace_row obj (ReminderLog.touch obj now))
                               (ReminderLog.rows tb)) (ReminderLog.next_id tb)).
Proof.
  intros [Hid Hap] [r [Hr [Hrid Hra]]].
  destruct (save_cases obj now tb) as [[Heq _]|[[_ [Hex _]]|[e Heq]]]; [assumption| |].
  - rewrite existsb_false in Hex. specialize (Hex r Hr).
    apply Bool.not_true_iff_false in Hex. exfalso. apply Hex. now apply has_id_true.
  - exfalso. unfold ReminderLog.save in Heq.
    assert (Hex : existsb (ReminderLog.has_id (ReminderLog.id obj)) (ReminderLog.rows tb) = true).
    { apply existsb_exists. exists r. split; [assumption|]. now apply has_id_true. }
    rewrite Hex in Heq.
    assert (Hc : existsb (fun x => ReminderLog.has_appointment (ReminderLog.appointment_id obj) x
                                   && negb (ReminderLog.has_id (ReminderLog.id obj) x))
                         (ReminderLog.rows tb) = false).
    { apply existsb_false. intros x Hx.
      destruct (ReminderLog.has_appointment (ReminderLog.appointment_id obj) x) eqn:Hxa;
        [|reflexivity].
      apply has_appointment_true in Hxa.
      assert (x = r) by (apply (NoDup_map_same ReminderLog.appointment_id (ReminderLog.rows tb));
                         congruence).
      subst x. simpl. apply negb_false_iff. now apply has_id_true. }
    rewrite Hc in Heq. discriminate.
Qed.

End Attempt.

(** ** One attempt: success and failure *)

Section Outcomes.
Context (E : Env).

Lemma outbox_app w evs :
  omap (fun ev => match ev with EvSendMail m => Some m | _ => None end) (trace w ++ evs)
  = (outbox w ++ omap (fun ev => match ev with EvSendMail m => Some m | _ => None end) evs)%list.
Proof. unfold outbox. apply omap_app. Qed.

Lemma claim_unsent a email date w l created w1 :
  ReminderLog_get_or_create a email date "15min" w = (Ok (l, created), w1) ->
  negb created && ReminderLog.reminder_sent l = false ->
  ReminderLog.reminder_sent l = false.
Proof.
  intros Hc Hcond. destruct created; simpl in Hcond; [|assumption].
  destruct (claim_facts a email date w l true w1 Hc) as [_ [_ [_ [_ Hnew]]]].
  destruct (Hnew eq_refl) as [-> _]. reflexivity.
Qed.

Lemma claim_world_unique a email date w r w1 :
  ledger_unique (reminder_logs w) ->
  ReminderLog_get_or_create a email date "15min" w = (r, w1) ->
  ledger_unique (reminder_logs w1).
Proof.
  unfold ReminderLog_get_or_create. intros Hu H.
  destruct (ReminderLog.get_or_create _ _ _ _ _ _) as [r0 tb] eqn:Hg.
  injection H as <- <-. simpl. eapply get_or_create_unique; eassumption.
Qed.

(** When the template renders and the gateway accepts the message, the
    attempt hands the message over, then saves the row as Sent, then asks
    the appointment source to set its flag, and returns [True]. *)
Lemma send_succeeds w a email date data l created w1 context ot template w2 m :
  ledger_unique (reminder_logs w) ->
  ReminderLog_get_or_create a email date "15min" w = (Ok (l, created), w1) ->
  negb created && ReminderLog.reminder_sent l = false ->
  lookup_step E (Task a email date data) w1 = (Ok (context, ot), w1) ->
  resolve_template ot w1 = (Ok template, w2) ->
  render_email E (Task a email date data) context template = Ok m ->
  smtp_fails E m = false ->
  exists w' o,
    let saved := ReminderLog.touch (mark_sent l (clock w)) (clock w) in
    send_reminder_email E a email date data w = (Ok true, w')
    /\ trace w' = (trace w ++ [EvSendMail m; EvLedgerSave saved; EvMongoUpdate a o])%list
    /\ ReminderLog.rows (reminder_logs w')
       = map (replace_row l saved) (ReminderLog.rows (reminder_logs w1))
    /\ In saved (ReminderLog.rows (reminder_logs w'))
    /\ is_sent a w' = true
    /\ queue w' = queue w
    /\ (mongo_fails E (OpUpdateOne a) = true -> o = None /\ mongodb w' = mongodb w)
    /\ (mongo_fails E (OpUpdateOne a) = false -> exists b, o = Some b).
Proof.
  intros Hu Hclaim Hcond Hlook Hres Hren Hsmtp.
  destruct (claim_facts _ _ _ _ _ _ _ Hclaim) as [Hw1 [Hin [Ha _]]].
  pose proof (claim_world_unique _ _ _ _ _ _ Hu Hclaim) as Hu1.
  pose proof (resolve_template_facts _ _ _ _ Hres) as Hw2.
  rewrite send_reminder_email_staged, Hclaim, Hcond, Hlook, Hres.
  rewrite send_step_eq, Hren, Hsmtp, save_step_eq.
  assert (Hclock : clock (log_event (EvSendMail m) w2) = clock w)
    by (rewrite Hw2, Hw1; reflexivity).
  assert (Hlogs : reminder_logs (log_event (EvSendMail m) w2) = reminder_logs w1)
    by (rewrite Hw2; reflexivity).
  rewrite Hclock, Hlogs.
  rewrite save_read_row; [|assumption|exists l; auto].
  destruct (mark_reminder_sent_cases E a
              (log_event (EvLedgerSave (ReminderLog.touch (mark_sent l (clock w)) (clock w)))
                 (set_reminder_logs
                    (ReminderLog.Table
                       (map (replace_row (mark_sent l (clock w))
                               (ReminderLog.touch (mark_sent l (clock w)) (clock w)))
                            (ReminderLog.rows (reminder_logs w1)))
                       (ReminderLog.next_id (reminder_logs w1)))
                    (log_event (EvSendMail m) w2))))
    as [b [o [db [Heq [Hfail Hok]]]]].
  rewrite Heq. eexists _, o. cbn zeta. split; [reflexivity|].
  assert (Hsaved : In (ReminderLog.touch (mark_sent l (clock w)) (clock w))
            (map (replace_row l (ReminderLog.touch (mark_sent l (clock w)) (clock w)))
                 (ReminderLog.rows (reminder_logs w1)))).
  { apply in_map_iff. exists l. split; [|assumption]. unfold replace_row.
    now rewrite (proj2 (has_id_true _ _) eq_refl). }
  split; [|split; [|split; [|split; [|split; [|split]]]]].
  - simpl. rewrite Hw2, Hw1. simpl. rewrite <- !app_assoc. reflexivity.
  - reflexivity.
  - exact Hsaved.
  - apply is_sent_true. eexists. split; [exact Hsaved|]. split; [exact Ha|reflexivity].
  - simpl. rewrite Hw2, Hw1. reflexivity.
  - intros Hf. destruct (Hfail Hf) as [_ [-> ->]]. split; [reflexivity|].
    simpl. rewrite Hw2, Hw1. reflexivity.
  - intros Hf. exists b. now apply Hok.
Qed.

(** When rendering or the gateway fails, the attempt returns [False] and
    leaves the world as it was after the claim and the template lookup. *)
Lemma send_fails w a email date data l created w1 context ot template w2 :
  ReminderLog_get_or_create a email date "15min" w = (Ok (l, created), w1) ->
  negb created && ReminderLog.reminder_sent l = false ->
  lookup_step E (Task a email date data) w1 = (Ok (context, ot), w1) ->
  resolve_template ot w1 = (Ok template, w2) ->
  (raised (render_email E (Task a email date data) context template)
   \/ exists m, render_email E (Task a email date data) context template = Ok m
                /\ smtp_fails E m = true) ->
  send_reminder_email E a email date data w = (Ok false, w2).
Proof.
  intros Hclaim Hcond Hlook Hres Hfail.
  rewrite send_reminder_email_staged, Hclaim, Hcond, Hlook, Hres, send_step_eq.
  destruct Hfail as [[e ->]|[m [-> ->]]]; reflexivity.
Qed.

End Outcomes.

(** ** The claims on one attempt *)

Lemma unsent_row_not_sent a w l :
  ledger_unique (reminder_logs w) -> In l (ReminderLog.rows (reminder_logs w)) ->
  ReminderLog.appointment_id l = a -> ReminderLog.reminder_sent l = false ->
  is_sent a w = false.
Proof.
  intros [_ Hap] Hin Ha Hs. destruct (is_sent a w) eqn:Hsent; [|reflexivity].
  apply is_sent_true in Hsent. destruct Hsent as [r [Hr [Hra Hrs]]].
  assert (r = l)
    by (apply (NoDup_map_same ReminderLog.appointment_id (ReminderLog.rows (reminder_logs w)));
        congruence).
  congruence.
Qed.

(** C4. When an attempt got past the claim step and rendering fails (a
    placeholder of the template is absent from the context, or [format]
    raises for another reason) or the gateway refuses the message, the
    attempt returns [False]; no message is handed to the gateway, nothing is
    saved and nothing is queued again (the trace and the queue are
    unchanged: no partial rendering, no retry); the ledger is as the claim
    step left it, the row of the appointment is in it with
    [reminder_sent = False] (and [reminder_sent_at] unset, for a new row and
    for any row of a ledger whose Claimed rows have none), and the
    appointment is not Sent. *)
Theorem failed_attempt_stays_claimed (E : Env) (w : world) (a addr : string) (date : Z)
    (data : document) (l : ReminderLog.t) (created : bool) (w1 : world)
    (context : document) (ot : option EmailTemplate.t) (template : EmailTemplate.t)
    (w2 : world) :
  ledger_unique (reminder_logs w) ->
  ReminderLog_get_or_create a addr date "15min" w = (Ok (l, created), w1) ->
  negb created && ReminderLog.reminder_sent l = false ->
  lookup_step E (Task a addr date data) w1 = (Ok (context, ot), w1) ->
  resolve_template ot w1 = (Ok template, w2) ->
  (missing_placeholder template context
   \/ raised (render_email E (Task a addr date data) context template)
   \/ exists m, render_email E (Task a addr date data) context template = Ok m
                /\ smtp_fails E m = true) ->
  send_reminder_email E a addr date data w = (Ok false, w2)
  /\ trace w2 = trace w
  /\ outbox w2 = outbox w
  /\ queue w2 = queue w
  /\ reminder_logs w2 = reminder_logs w1
  /\ In l (ReminderLog.rows (reminder_logs w2))
  /\ ReminderLog.appointment_id l = a
  /\ ReminderLog.reminder_sent l = false
  /\ (created = true -> ReminderLog.reminder_sent_at l = None)
  /\ ((forall r, In r (ReminderLog.rows (reminder_logs w)) ->
         ReminderLog.reminder_sent r = false -> ReminderLog.reminder_sent_at r = None) ->
      ReminderLog.reminder_sent_at l = None)
  /\ is_sent a w2 = false.
Proof.
  intros Hu Hclaim Hcond Hlook Hres Hfail.
  destruct (claim_facts _ _ _ _ _ _ _ Hclaim) as [Hw1 [Hin [Ha [Hold Hnew]]]].
  pose proof (claim_world_unique _ _ _ _ _ _ Hu Hclaim) as Hu1.
  pose proof (resolve_template_facts _ _ _ _ Hres) as Hw2.
  pose proof (claim_unsent _ _ _ _ _ _ _ Hclaim Hcond) as Hunsent.
  assert (Hlogs : reminder_logs w2 = reminder_logs w1) by (rewrite Hw2; reflexivity).
  assert (Htrace : trace w2 = trace w) by (rewrite Hw2, Hw1; reflexivity).
  split.
  { eapply send_fails; try eassumption.
    destruct Hfail as [Hm|[Hr|Hs]]; [left; now apply render_email_missing|now left|now right]. }
  split; [exact Htrace|]. split; [unfold outbox; now rewrite Htrace|].
  split; [rewrite Hw2, Hw1; reflexivity|]. split; [exact Hlogs|].
  split; [now rewrite Hlogs|]. split; [exact Ha|]. split; [exact Hunsent|].
  split; [intros ->; destruct (Hnew eq_refl) as [-> _]; reflexivity|].
  split.
  - intros Hinv. destruct created.
    + destruct (Hnew eq_refl) as [-> _]. reflexivity.
    + apply Hinv; [|assumption]. rewrite <- (Hold eq_refl). assumption.
  - apply (unsent_row_not_sent a w2 l); rewrite ?Hlogs; assumption.
Qed.
Import Demo.
(** With no template in the table the default is created, its HTML body
    does not render, and the attempt for [a1] fails. *)
Lemma failed_attempt_stays_claimed_witness :
  send_reminder_email all_up "a1" "u@x.com" at_1000 a1 bare_world
  = (Ok false, world_of one_claimed default_templates)
  /\ is_sent "a1" (world_of one_claimed default_templates) = false.
Proof.
  pose proof (failed_attempt_stays_claimed all_up bare_world "a1" "u@x.com" at_1000 a1
                claimed_row true (world_of one_claimed no_templates) context_a1 None
                default_template (world_of one_claimed default_templates)) as H.
  assert (Hu : ledger_unique (reminder_logs bare_world)) by (split; constructor).
  assert (Hc : ReminderLog_get_or_create "a1" "u@x.com" at_1000 "15min" bare_world
               = (Ok (claimed_row, true), world_of one_claimed no_templates))
    by computed.
  assert (Hl : lookup_step all_up (Task "a1" "u@x.com" at_1000 a1)
                 (world_of one_claimed no_templates)
               = (Ok (context_a1, None), world_of one_claimed no_templates))
    by computed.
  assert (Hr : resolve_template None (world_of one_claimed no_templates)
               = (Ok default_template, world_of one_claimed default_templates))
    by computed.
  assert (Hf : raised (render_email all_up (Task "a1" "u@x.com" at_1000 a1) context_a1
                         default_template))
    by (exists (Exn KeyError " font-family"); computed).
  destruct (H Hu Hc eq_refl Hl Hr (or_intror (or_introl Hf)))
    as [H1 [_ [_ [_ [_ [_ [_ [_ [_ [_ H2]]]]]]]]]].
  split; assumption.
Defined.

(** C7. When the gateway accepts the message, the attempt first saves the
    ledger row as Sent with [reminder_sent_at] set to the current time, and
    only then asks the appointment source to set its flag: the trace grows by
    the message, the save and the update, in this order.  Whatever the update
    does (also when the appointment source fails) the attempt returns [True]
    and the row stays Sent. *)
Theorem finalize_then_mark (E : Env) (w : world) (a addr : string) (date : Z)
    (data : document) (l : ReminderLog.t) (created : bool) (w1 : world)
    (context : document) (ot : option EmailTemplate.t) (template : EmailTemplate.t)
    (w2 : world) (m : email) :
  ledger_unique (reminder_logs w) ->
  ReminderLog_get_or_create a addr date "15min" w = (Ok (l, created), w1) ->
  negb created && ReminderLog.reminder_sent l = false ->
  lookup_step E (Task a addr date data) w1 = (Ok (context, ot), w1) ->
  resolve_template ot w1 = (Ok template, w2) ->
  render_email E (Task a addr date data) context template = Ok m ->
  smtp_fails E m = false ->
  exists w' saved o,
    send_reminder_email E a addr date data w = (Ok true, w')
    /\ trace w' = trace w ++ [EvSendMail m; EvLedgerSave saved; EvMongoUpdate a o]
    /\ ReminderLog.id saved = ReminderLog.id l
    /\ ReminderLog.appointment_id saved = a
    /\ ReminderLog.reminder_sent saved = true
    /\ ReminderLog.reminder_sent_at saved = Some (clock w)
    /\ In saved (ReminderLog.rows (reminder_logs w'))
    /\ is_sent a w' = true
    /\ (mongo_fails E (OpUpdateOne a) = true -> o = None /\ mongodb w' = mongodb w).
Proof.
  intros Hu Hclaim Hcond Hlook Hres Hren Hsmtp.
  destruct (send_succeeds E w a addr date data l created w1 context ot template w2 m
              Hu Hclaim Hcond Hlook Hres Hren Hsmtp)
    as [w' [o [Hsend [Htrace [_ [Hin [Hsent [_ [Hfail _]]]]]]]]].
  destruct (claim_facts _ _ _ _ _ _ _ Hclaim) as [_ [_ [Ha _]]].
  exists w', (ReminderLog.touch (mark_sent l (clock w)) (clock w)), o.
  repeat (split; [first [assumption | reflexivity]|]). assumption.
Qed.

(** The appointment source refuses the update: the attempt for [a1] still
    returns [True] and the row is Sent. *)
Lemma finalize_then_mark_witness :
  exists w' saved,
    send_reminder_email Demo.updates_down "a1" "u@x.com" Demo.at_1000 Demo.a1 Demo.fresh_world
    = (Ok true, w')
    /\ trace w' = [EvSendMail Demo.mail_a1; EvLedgerSave saved; EvMongoUpdate "a1" None]
    /\ is_sent "a1" w' = true.
Proof.
  assert (Hu : ledger_unique (reminder_logs Demo.fresh_world)) by (split; constructor).
  assert (Hc : ReminderLog_get_or_create "a1" "u@x.com" Demo.at_1000 "15min" Demo.fresh_world
               = (Ok (Demo.claimed_row, true), Demo.claimed_world))
    by computed.
  assert (Hl : lookup_step Demo.updates_down (Task "a1" "u@x.com" Demo.at_1000 Demo.a1)
                 Demo.claimed_world
               = (Ok (Demo.context_a1, Some Demo.plain_template), Demo.claimed_world))
    by computed.
  assert (Hr : resolve_template (Some Demo.plain_template) Demo.claimed_world
               = (Ok Demo.plain_template, Demo.claimed_world)) by reflexivity.
  assert (Hm : render_email Demo.updates_down (Task "a1" "u@x.com" Demo.at_1000 Demo.a1)
                 Demo.context_a1 Demo.plain_template = Ok Demo.mail_a1)
    by computed.
  destruct (finalize_then_mark Demo.updates_down Demo.fresh_world "a1" "u@x.com" Demo.at_1000
              Demo.a1 Demo.claimed_row true Demo.claimed_world Demo.context_a1
              (Some Demo.plain_template) Demo.plain_template Demo.claimed_world Demo.mail_a1
              Hu Hc eq_refl Hl Hr Hm eq_refl)
    as [w' [saved [o [H1 [H2 [_ [_ [_ [_ [_ [H3 H4]]]]]]]]]]].
  destruct (H4 eq_refl) as [-> _].
  exists w', saved. split; [exact H1|]. split; [exact H2|exact H3].
Defined.

(** C2, as the code has it.  A row in state Claimed does not stop the
    attempt: the claim step returns the existing row, the attempt goes on to
    the template, the rendering and the gateway, and when these succeed it
    hands the message over, returns [True] and marks that row as Sent.  Only
    a row in state Sent stops an attempt. *)
Theorem claimed_record_is_retried (E : Env) (w : world) (r : ReminderLog.t)
    (addr : string) (date : Z) (data : document) (context : document)
    (ot : option EmailTemplate.t) (template : EmailTemplate.t) (w2 : world) (m : email) :
  ledger_unique (reminder_logs w) ->
  In r (ReminderLog.rows (reminder_logs w)) ->
  ReminderLog.reminder_sent r = false ->
  lookup_step E (Task (ReminderLog.appointment_id r) addr date data) w
    = (Ok (context, ot), w) ->
  resolve_template ot w = (Ok template, w2) ->
  render_email E (Task (ReminderLog.appointment_id r) addr date data) context template
    = Ok m ->
  smtp_fails E m = false ->
  ReminderLog_get_or_create (ReminderLog.appointment_id r) addr date "15min" w
    = (Ok (r, false), w)
  /\ exists w',
       send_reminder_email E (ReminderLog.appointment_id r) addr date data w = (Ok true, w')
       /\ outbox w' = outbox w ++ [m]
       /\ is_sent (ReminderLog.appointment_id r) w' = true.
Proof.
  intros Hu Hin Hs Hlook Hres Hren Hsmtp.
  pose proof (claim_existing w r addr date Hu Hin) as Hclaim.
  split; [exact Hclaim|].
  destruct (send_succeeds E w _ addr date data r false w context ot template w2 m
              Hu Hclaim) as [w' [o [Hsend [Htrace [_ [_ [Hsent _]]]]]]]; try assumption.
  exists w'. split; [exact Hsend|]. split; [|exact Hsent].
  unfold outbox at 1. rewrite Htrace. rewrite outbox_app. reflexivity.
Qed.

(** The row of [a1] is Claimed and the attempt hands the message over. *)
Lemma claimed_record_is_retried_witness :
  exists w',
    send_reminder_email Demo.all_up "a1" "u@x.com" Demo.at_1000 Demo.a1 Demo.claimed_world
    = (Ok true, w')
    /\ outbox w' = [Demo.mail_a1].
Proof.
  assert (Hu : ledger_unique (reminder_logs Demo.claimed_world))
    by (split; repeat constructor; intros []).
  assert (Hl : lookup_step Demo.all_up (Task "a1" "u@x.com" Demo.at_1000 Demo.a1)
                 Demo.claimed_world
               = (Ok (Demo.context_a1, Some Demo.plain_template), Demo.claimed_world))
    by computed.
  assert (Hm : render_email Demo.all_up (Task "a1" "u@x.com" Demo.at_1000 Demo.a1)
                 Demo.context_a1 Demo.plain_template = Ok Demo.mail_a1)
    by computed.
  destruct (claimed_record_is_retried Demo.all_up Demo.claimed_world Demo.claimed_row
              "u@x.com" Demo.at_1000 Demo.a1 Demo.context_a1 (Some Demo.plain_template)
              Demo.plain_template Demo.claimed_world Demo.mail_a1
              Hu (or_introl eq_refl) eq_refl Hl eq_refl Hm eq_refl)
    as [_ [w' [H1 [H2 _]]]].
  exists w'. split; [exact H1|exact H2].
Defined.

(** C2, as the spec states it, fails: with a row for [a1] in state Claimed
    in the ledger, an attempt for [a1] hands a message to the gateway and
    returns [True]; so does the manual resend, once a worker runs the call it
    queued. *)
Lemma claimed_record_does_not_stop_the_attempt :
  ReminderLog.get "a1" (reminder_logs Demo.claimed_world) = Ok Demo.claimed_row
  /\ ReminderLog.reminder_sent Demo.claimed_row = false
  /\ fst (send_reminder_email Demo.all_up "a1" "u@x.com" Demo.at_1000 Demo.a1
            Demo.claimed_world) = Ok true
  /\ outbox (snd (send_reminder_email Demo.all_up "a1" "u@x.com" Demo.at_1000 Demo.a1
                    Demo.claimed_world)) = [Demo.mail_a1]
  /\ fst (send_custom_reminder Demo.all_up "a1" "15min" Demo.claimed_world)
     = Ok (Some Demo.task_a1)
  /\ outbox (snd (drain_queue Demo.all_up
                    (snd (send_custom_reminder Demo.all_up "a1" "15min" Demo.claimed_world))))
     = [Demo.mail_a1].
Proof. repeat split; computed. Qed.

(** ** The scanner, the manual resend and the sweeper *)

Section Scan.
Context (E : Env).

Lemma get_appointments_for_reminder_eq minutes_before w :
  get_appointments_for_reminder E minutes_before w
  = (Ok (if mongo_fails E OpFind then []
         else List.filter
                (reminder_query (clock w + timedelta_minutes (minutes_before - 1))
                                (clock w + timedelta_minutes (minutes_before + 1)))
                (collection (mongodb w))), w).
Proof.
  unfold get_appointments_for_reminder, collection_find, try_except, bind, gets, ret.
  destruct (mongo_fails E OpFind); reflexivity.
Qed.

Lemma set_queue_same w : set_queue (queue w) w = w.
Proof. now destruct w. Qed.

Lemma set_queue_twice q q' w : set_queue q (set_queue q' w) = set_queue q w.
Proof. reflexivity. Qed.

Lemma delay_eq tk w :
  delay E tk w
  = if broker_fails E tk then (Raise (Exn OperationalError "broker not available"), w)
    else (Ok tk, set_queue (queue w ++ [tk]) w).
Proof. reflexivity. Qed.



(** Whatever happens in it, the loop writes the queue only. *)
Lemma queue_reminder_frame appointment n w r w' :
  queue_reminder E appointment n w = (r, w') -> exists q, w' = set_queue q w.
Proof.
  unfold queue_reminder, dict_getitem, delay, try_except, bind, lift, ret.
  destruct (appointment !! "_id") as [v|].
  - destruct (task_for v appointment) as [tk|e].
    + destruct (broker_fails E tk); intros H; injection H as <- <-;
        eexists; first [reflexivity | symmetry; apply set_queue_same].
    + intros H; injection H as <- <-. eexists. symmetry. apply set_queue_same.
  - intros H; injection H as <- <-. eexists. symmetry. apply set_queue_same.
Qed.

Lemma for_each_appointment_frame appointments n w r w' :
  for_each_appointment E appointments n w = (r, w') -> exists q, w' = set_queue q w.
Proof.
  revert n w. induction appointments as [|d ds IH]; intros n w.
  - simpl. unfold ret. intros H. injection H as <- <-. eexists. symmetry.
    apply set_queue_same.
  - cbn [for_each_appointment]. unfold bind.
    destruct (queue_reminder E d n w) as [[n'|e] w1] eqn:Hq;
      destruct (queue_reminder_frame _ _ _ _ _ Hq) as [q1 ->].
    + intros H. destruct (IH _ _ H) as [q ->]. eexists. reflexivity.
    + intros H. injection H as <- <-. eexists. reflexivity.
Qed.

Lemma check_and_send_reminders_frame w r w' :
  check_and_send_reminders E w = (r, w') -> exists q, w' = set_queue q w.
Proof.
  unfold check_and_send_reminders, try_except. unfold bind at 1.
  rewrite get_appointments_for_reminder_eq.
  destruct (if mongo_fails E OpFind then [] else _) as [|d ds].
  - unfold ret. intros H. injection H as <- <-. eexists. symmetry. apply set_queue_same.
  - unfold bind, ret.
    destruct (for_each_appointment E (d :: ds) 0 w) as [[n|e] w1] eqn:Hf;
      destruct (for_each_appointment_frame _ _ _ _ _ Hf) as [q ->];
      intros H; injection H as <- <-; eexists; reflexivity.
Qed.

Lemma send_custom_reminder_frame a rtype w r w' :
  send_custom_reminder E a rtype w = (r, w') -> exists q, w' = set_queue q w.
Proof.
  unfold send_custom_reminder, try_except. unfold bind at 1.
  destruct (get_appointment_by_id_total E a w) as [o ->].
  destruct o as [d|].
  - destruct (size d =? 0)%nat.
    + unfold ret. intros H. injection H as <- <-. eexists. symmetry. apply set_queue_same.
    + unfold bind, lift, ret, delay.
      destruct (task_for (VStr a) d) as [tk|e].
      * destruct (broker_fails E tk); intros H; injection H as <- <-;
          eexists; first [reflexivity | symmetry; apply set_queue_same].
      * intros H. injection H as <- <-. eexists. symmetry. apply set_queue_same.
  - unfold ret. intros H. injection H as <- <-. eexists. symmetry. apply set_queue_same.
Qed.

Lemma cleanup_old_reminders_eq w :
  cleanup_old_reminders w
  = (Ok (result_dict "success" "deleted_count"
           (VInt (Z.of_nat (fst (ReminderLog.filter_delete (clock w - timedelta_days 30)
                                   (reminder_logs w)))))),
     set_reminder_logs (snd (ReminderLog.filter_delete (clock w - timedelta_days 30)
                               (reminder_logs w))) w).
Proof. reflexivity. Qed.

End Scan.

(** ** The state Sent is final *)

Section Final.
Context (E : Env).

Lemma ledger_grows_trans tb1 tb2 tb3 :
  ledger_grows tb1 tb2 -> ledger_grows tb2 tb3 -> ledger_grows tb1 tb3.
Proof.
  intros H12 H23 r Hr. destruct (H12 r Hr) as [r2 [Hr2 [Hid2 [Ha2 Hs2]]]].
  destruct (H23 r2 Hr2) as [r3 [Hr3 [Hid3 [Ha3 Hs3]]]].
  exists r3. repeat split; [assumption|congruence|congruence|auto].
Qed.

Lemma advance_n_ledger n tk p w p' w' :
  advance_n E n tk p w = (p', w') ->
  ledger_unique (reminder_logs w) ->
  (forall l, local_log p = Some l -> backed (reminder_logs w) l) ->
  ledger_unique (reminder_logs w') /\ ledger_grows (reminder_logs w) (reminder_logs w').
Proof.
  revert p w. induction n as [|n IH]; intros p w Hadv Hu Hb; simpl in Hadv.
  - injection Hadv as <- <-. split; [assumption|apply ledger_grows_refl].
  - destruct (advance E tk p w) as [p1 w1] eqn:H1.
    destruct (advance_ledger E _ _ _ _ _ H1 Hu Hb) as [Hu1 [Hg1 Hb1]].
    destruct (IH _ _ Hadv Hu1 Hb1) as [Hu' Hg'].
    split; [assumption|]. eapply ledger_grows_trans; eassumption.
Qed.

Lemma run_task_ledger tk w :
  ledger_unique (reminder_logs w) ->
  ledger_unique (reminder_logs (snd (run_task E tk w)))
  /\ ledger_grows (reminder_logs w) (reminder_logs (snd (run_task E tk w))).
Proof.
  intros Hu. destruct (run_task_solo E tk w) as [b [w' [Hrun Hadv]]].
  rewrite Hrun. simpl. eapply advance_n_ledger; [exact Hadv|exact Hu|discriminate].
Qed.

Lemma run_grows schedule c :
  consistent c ->
  ledger_grows (reminder_logs (fst c)) (reminder_logs (fst (run E schedule c))).
Proof.
  revert c. induction schedule as [|act rest IH]; intros c Hc; simpl.
  - apply ledger_grows_refl.
  - destruct (exec_consistent E act c Hc) as [Hc' Hg].
    eapply ledger_grows_trans; [exact Hg|]. now apply IH.
Qed.

Lemma never_reset_refl tb :
  List.NoDup (map ReminderLog.id (ReminderLog.rows tb)) -> never_reset tb tb.
Proof. intros Hnd. apply never_reset_grows; [assumption|apply ledger_grows_refl]. Qed.

Lemma filter_delete_never_reset cutoff tb :
  ledger_unique tb -> never_reset tb (snd (ReminderLog.filter_delete cutoff tb)).
Proof.
  intros [Hid _] r r' Hr Hs Hr' Heq. simpl in Hr'. apply List.filter_In in Hr'.
  destruct Hr' as [Hr' _].
  assert (r' = r) by (apply (NoDup_map_same ReminderLog.id (ReminderLog.rows tb)); assumption).
  congruence.
Qed.

End Final.

(** C3. A row in state Sent is final.  An attempt for its appointment
    returns [True] and leaves the whole world as it is: no message, no write
    to the row, nothing queued.  And no part of the core puts a row back from
    Sent to Claimed: not an attempt (for any appointment), not the sweeper,
    not the scanner, not the manual resend, not any number of concurrent
    workers under any schedule; a row that is Sent is still Sent afterwards,
    unless the sweeper deleted it. *)
Theorem sent_record_is_final (E : Env) (w : world) (r : ReminderLog.t)
    (addr : string) (date : Z) (data : document) :
  ledger_unique (reminder_logs w) ->
  In r (ReminderLog.rows (reminder_logs w)) ->
  ReminderLog.reminder_sent r = true ->
  send_reminder_email E (ReminderLog.appointment_id r) addr date data w = (Ok true, w)
  /\ (forall tk, never_reset (reminder_logs w) (reminder_logs (snd (run_task E tk w))))
  /\ never_reset (reminder_logs w) (reminder_logs (snd (cleanup_old_reminders w)))
  /\ never_reset (reminder_logs w) (reminder_logs (snd (check_and_send_reminders E w)))
  /\ (forall a rtype,
        never_reset (reminder_logs w) (reminder_logs (snd (send_custom_reminder E a rtype w))))
  /\ (forall tasks schedule,
        never_reset (reminder_logs w)
          (reminder_logs (fst (run E schedule (w, spawn tasks))))).
Proof.
  intros Hu Hin Hs. split; [|split; [|split; [|split; [|split]]]].
  - rewrite send_reminder_email_staged, (claim_existing w r addr date Hu Hin), Hs.
    reflexivity.
  - intros tk. destruct (run_task_ledger E tk w Hu) as [[Hid _] Hg].
    now apply never_reset_grows.
  - rewrite cleanup_old_reminders_eq. simpl. now apply filter_delete_never_reset.
  - destruct (check_and_send_reminders E w) as [res w'] eqn:Hc.
    destruct (check_and_send_reminders_frame E _ _ _ Hc) as [q ->]. simpl.
    apply never_reset_refl. apply Hu.
  - intros a rtype. destruct (send_custom_reminder E a rtype w) as [res w'] eqn:Hc.
    destruct (send_custom_reminder_frame E _ _ _ _ _ Hc) as [q ->]. simpl.
    apply never_reset_refl. apply Hu.
  - intros tasks schedule. pose proof (spawn_consistent w tasks Hu) as Hc.
    apply never_reset_grows.
    + apply (run_consistent E schedule _ Hc).
    + apply (run_grows E schedule _ Hc).
Qed.

(** The row of [a1] is Sent and the attempt changes nothing. *)
Lemma sent_record_is_final_witness :
  send_reminder_email Demo.all_up "a1" "u@x.com" Demo.at_1000 Demo.a1 Demo.sent_world
  = (Ok true, Demo.sent_world).
Proof.
  assert (Hu : ledger_unique (reminder_logs Demo.sent_world))
    by (split; repeat constructor; intros []).
  exact (proj1 (sent_record_is_final Demo.all_up Demo.sent_world Demo.sent_row "u@x.com"
                  Demo.at_1000 Demo.a1 Hu (or_introl eq_refl) eq_refl)).
Defined.

(** ** The sweeper and the candidate query *)

Lemma filter_split_length {A} (p : A -> bool) (l : list A) :
  (length (List.filter p l) + length (List.filter (fun x => negb (p x)) l))%nat = length l.
Proof.
  induction l as [|x l IH]; simpl; [reflexivity|]. destruct (p x); simpl; lia.
Qed.

(** C5. [cleanup_old_reminders] deletes the rows whose [created_at] is
    strictly before the current time minus 30 days (2 592 000 000 000
    microseconds) and no other row, whatever their state: the rows that stay
    are those of the ledger that are not older, in their order.  It returns
    the number of rows it deleted and changes nothing but the ledger. *)
Theorem sweeper_deletes_exactly_the_old_rows (w : world) :
  exists (deleted : nat) (w' : world),
    cleanup_old_reminders w
    = (Ok (result_dict "success" "deleted_count" (VInt (Z.of_nat deleted))), w')
    /\ (forall r, In r (ReminderLog.rows (reminder_logs w')) <->
                  In r (ReminderLog.rows (reminder_logs w))
                  /\ clock w - 2592000000000 <= ReminderLog.created_at r)
    /\ (forall r, In r (ReminderLog.rows (reminder_logs w)) ->
                  ~ In r (ReminderLog.rows (reminder_logs w')) <->
                  ReminderLog.created_at r < clock w - 2592000000000)
    /\ ReminderLog.rows (reminder_logs w')
       = List.filter (fun r => clock w - 2592000000000 <=? ReminderLog.created_at r)
                     (ReminderLog.rows (reminder_logs w))
    /\ (deleted + length (ReminderLog.rows (reminder_logs w')))%nat
       = length (ReminderLog.rows (reminder_logs w))
    /\ w' = set_reminder_logs (reminder_logs w') w.
Proof.
  rewrite cleanup_old_reminders_eq. eexists _, _. split; [reflexivity|].
  change (timedelta_days 30) with 2592000000000.
  assert (Hf : forall r : ReminderLog.t,
             negb (ReminderLog.older_than (clock w - 2592000000000) r)
             = (clock w - 2592000000000 <=? ReminderLog.created_at r)).
  { intros r. unfold ReminderLog.older_than.
    destruct (Z.ltb_spec (ReminderLog.created_at r) (clock w - 2592000000000));
      destruct (Z.leb_spec (clock w - 2592000000000) (ReminderLog.created_at r));
      simpl; try reflexivity; lia. }
  assert (Hin : forall r,
             In r (List.filter (fun r => negb (ReminderLog.older_than
                                                 (clock w - 2592000000000) r))
                               (ReminderLog.rows (reminder_logs w))) <->
             In r (ReminderLog.rows (reminder_logs w))
             /\ clock w - 2592000000000 <= ReminderLog.created_at r).
  { intros r. rewrite List.filter_In, Hf, Z.leb_le. reflexivity. }
  simpl. split; [exact Hin|]. split; [|split; [|split]].
  - intros r Hr. rewrite Hin. split; [intros Hn|intros Hlt [_ Hge]; lia].
    destruct (Z.lt_ge_cases (ReminderLog.created_at r) (clock w - 2592000000000));
      [assumption|]. exfalso. apply Hn. split; [assumption|lia].
  - apply List.filter_ext. exact Hf.
  - apply filter_split_length.
  - reflexivity.
Qed.

Lemma reminder_query_true t_start t_end (d : document) :
  reminder_query t_start t_end d = true <->
  exists t s,
    d !! "appointmentDate" = Some (VDate t) /\ t_start <= t <= t_end
    /\ d !! "status" = Some (VStr s)
    /\ (s = "waiting" \/ s = "confirmed" \/ s = "scheduled")
    /\ d !! "reminderSent" <> Some (VBool true).
Proof.
  unfold reminder_query, date_between, string_in, not_true. split.
  - intros H. apply andb_true_iff in H. destruct H as [H Hn].
    apply andb_true_iff in H. destruct H as [Hd Hs].
    destruct (d !! "appointmentDate") as [[| | | |t|]|]; try discriminate.
    destruct (d !! "status") as [[| | |s| |]|]; try discriminate.
    exists t, s. apply andb_true_iff in Hd. destruct Hd as [H1 H2].
    apply Z.leb_le in H1. apply Z.leb_le in H2.
    split; [reflexivity|]. split; [lia|]. split; [reflexivity|]. split.
    + simpl in Hs. rewrite !orb_true_iff in Hs.
      destruct Hs as [Hs|[Hs|[Hs|Hs]]]; try discriminate;
        apply String.eqb_eq in Hs; auto.
    + destruct (d !! "reminderSent") as [[|[|]| | | |]|]; try discriminate; congruence.
  - intros [t [s [-> [Ht [-> [Hs Hn]]]]]].
    apply andb_true_iff. split; [apply andb_true_iff; split|].
    + apply andb_true_iff. split; apply Z.leb_le; lia.
    + simpl. rewrite !orb_true_iff.
      destruct Hs as [-> | [-> | ->]]; auto.
    + destruct (d !! "reminderSent") as [[|[|]| | | |]|]; try reflexivity.
      now contradiction Hn.
Qed.

(** C6. When the appointment source answers,
    [get_appointments_for_reminder(15)] returns the documents of the
    collection, in their order, whose [appointmentDate] is a date [t] with
    [now + 14 min <= t <= now + 16 min] (both ends included), whose [status]
    is one of [waiting], [confirmed], [scheduled], and whose [reminderSent]
    is not [True]; it returns no other document and writes nothing. *)
Theorem due_appointments_query (E : Env) (w : world) :
  mongo_fails E OpFind = false ->
  exists found,
    get_appointments_for_reminder E 15 w = (Ok found, w)
    /\ found = List.filter (reminder_query (clock w + 840000000) (clock w + 960000000))
                           (collection (mongodb w))
    /\ forall d : document,
         In d found <->
         In d (collection (mongodb w))
         /\ exists t s,
              d !! "appointmentDate" = Some (VDate t)
              /\ clock w + 14 * 60 * 1000000 <= t <= clock w + 16 * 60 * 1000000
              /\ d !! "status" = Some (VStr s)
              /\ (s = "waiting" \/ s = "confirmed" \/ s = "scheduled")
              /\ d !! "reminderSent" <> Some (VBool true).
Proof.
  intros Hup. rewrite get_appointments_for_reminder_eq, Hup.
  eexists. split; [reflexivity|]. split; [reflexivity|].
  intros d. rewrite List.filter_In, reminder_query_true. reflexivity.
Qed.

(** At 09:45 the appointment [a1] of 10:00 is due. *)
Lemma due_appointments_query_witness :
  get_appointments_for_reminder Demo.all_up 15 Demo.fresh_world
  = (Ok [Demo.a1], Demo.fresh_world).
Proof.
  destruct (due_appointments_query Demo.all_up Demo.fresh_world eq_refl)
    as [found [H1 [H2 _]]].
  rewrite H1, H2. computed.
Defined.

(** ** The scan and its summary *)

Lemma candidates_eq (E : Env) (w : world) :
  candidates E w
  = if mongo_fails E OpFind then []
    else List.filter (reminder_query (clock w + timedelta_minutes 14)
                                     (clock w + timedelta_minutes 16))
                     (collection (mongodb w)).
Proof. unfold candidates. rewrite get_appointments_for_reminder_eq. reflexivity. Qed.






(** ** The manual resend *)

Section Resend.
Context (E : Env).

(** The ledger after an attempt: as the claim step left it, or with the
    claimed row saved as Sent. *)
Lemma attempt_ledger a addr date data w b w' :
  ledger_unique (reminder_logs w) ->
  send_reminder_email E a addr date data w = (Ok b, w') ->
  exists res w1,
    ReminderLog_get_or_create a addr date "15min" w = (res, w1)
    /\ (reminder_logs w' = reminder_logs w1
        \/ exists l created,
             res = Ok (l, created)
             /\ ReminderLog.rows (reminder_logs w')
                = map (replace_row l (ReminderLog.touch (mark_sent l (clock w)) (clock w)))
                      (ReminderLog.rows (reminder_logs w1))).
Proof.
  intros Hu. rewrite send_reminder_email_staged.
  destruct (ReminderLog_get_or_create a addr date "15min" w) as [[[l created]|e] w1] eqn:Hclaim.
  2:{ intros H. injection H as <- <-. eexists _, _. split; [reflexivity|now left]. }
  intros H. exists (Ok (l, created)), w1. split; [reflexivity|].
  destruct (negb created && ReminderLog.reminder_sent l).
  { injection H as <- <-. now left. }
  destruct (claim_facts _ _ _ _ _ _ _ Hclaim) as [Hw1 [Hin [Ha _]]].
  pose proof (claim_world_unique _ _ _ _ _ _ Hu Hclaim) as Hu1.
  destruct (lookup_step_total E (Task a addr date data) w1) as [ctx Hl]. rewrite Hl in H.
  destruct (resolve_template _ w1) as [[t|e] w2] eqn:Hres.
  2:{ injection H as <- <-. left.
      destruct (EmailTemplate.filter_first _ _ _); simpl in Hres.
      - discriminate.
      - destruct (create_default_cases w1) as [[tp [tb [Heq _]]]|[e' Heq]];
          rewrite Heq in Hres; [discriminate|]. now injection Hres as <- <-. }
  pose proof (resolve_template_facts _ _ _ _ Hres) as Hw2.
  rewrite send_step_eq in H.
  destruct (render_email E _ ctx t) as [m|e].
  2:{ injection H as <- <-. left. rewrite Hw2. reflexivity. }
  destruct (smtp_fails E m).
  { injection H as <- <-. left. rewrite Hw2. reflexivity. }
  rewrite save_step_eq in H.
  assert (Hclock : clock (log_event (EvSendMail m) w2) = clock w)
    by (rewrite Hw2, Hw1; reflexivity).
  assert (Hlogs : reminder_logs (log_event (EvSendMail m) w2) = reminder_logs w1)
    by (rewrite Hw2; reflexivity).
  rewrite Hclock, Hlogs in H.
  rewrite save_read_row in H; [|assumption|exists l; auto].
  match type of H with
  | context [mark_reminder_sent E a ?w0] =>
      destruct (mark_reminder_sent_cases E a w0) as [b0 [o [db [Heq _]]]]
  end.
  rewrite Heq in H. injection H as <- <-. right. exists l, created.
  split; reflexivity.
Qed.

(** A row an attempt adds to the ledger has [reminder_type = "15min"]. *)
Lemma attempt_new_rows a addr date data w b w' r :
  ledger_unique (reminder_logs w) ->
  send_reminder_email E a addr date data w = (Ok b, w') ->
  In r (ReminderLog.rows (reminder_logs w')) ->
  (forall r0, In r0 (ReminderLog.rows (reminder_logs w)) ->
              ReminderLog.id r0 <> ReminderLog.id r) ->
  ReminderLog.reminder_type r = "15min".
Proof.
  intros Hu Hsend Hin Hfresh.
  destruct (attempt_ledger _ _ _ _ _ _ _ Hu Hsend) as [res [w1 [Hclaim Hcases]]].
  assert (Hw1 : forall x, In x (ReminderLog.rows (reminder_logs w1)) ->
            In x (ReminderLog.rows (reminder_logs w))
            \/ (ReminderLog.reminder_type x = "15min"
                /\ res = Ok (x, true))).
  { intros x Hx. unfold ReminderLog_get_or_create in Hclaim.
    destruct (get_or_create_cases a addr date "15min" (clock w) (reminder_logs w))
      as [[r0 [Heq _]]|[[Heq _]|[e Heq]]]; rewrite Heq in Hclaim;
      injection Hclaim as <- <-; simpl in Hx; auto.
    rewrite in_app_iff in Hx. destruct Hx as [Hx|[<-|[]]]; auto. }
  destruct Hcases as [Heq|[l [created [-> Hrows]]]].
  - rewrite Heq in Hin. destruct (Hw1 r Hin) as [Hold|[Ht _]]; [|assumption].
    exfalso. now apply (Hfresh r).
  - rewrite Hrows in Hin. apply in_replace in Hin.
    destruct Hin as [[-> [x [Hx Hxid]]]|[Hin _]].
    + simpl. destruct (claim_facts _ _ _ _ _ _ _ Hclaim) as [_ [Hl _]].
      destruct (Hw1 l Hl) as [Hold|[Ht _]]; [|assumption].
      exfalso. now apply (Hfresh l).
    + destruct (Hw1 r Hin) as [Hold|[Ht _]]; [|assumption].
      exfalso. now apply (Hfresh r).
Qed.

End Resend.

(** C10. The [reminder_type] argument of [send_custom_reminder] changes
    nothing: with any two values the call returns the same result and leaves
    the same world.  The call it queues carries no reminder type; when a
    worker runs it, every row it adds to the ledger has
    [reminder_type = "15min"], and the template it looks up is the first
    active template of type ["15min"]. *)
Theorem reminder_type_is_ignored (E : Env) (w : world) (a rtype1 rtype2 : string) :
  send_custom_reminder E a rtype1 w = send_custom_reminder E a rtype2 w
  /\ (forall tk w', send_custom_reminder E a rtype1 w = (Ok (Some tk), w') ->
        task_appointment_id tk = a
        /\ queue w' = queue w ++ [tk]
        /\ (forall w0 r,
              ledger_unique (reminder_logs w0) ->
              In r (ReminderLog.rows (reminder_logs (snd (run_task E tk w0)))) ->
              (forall r0, In r0 (ReminderLog.rows (reminder_logs w0)) ->
                          ReminderLog.id r0 <> ReminderLog.id r) ->
              ReminderLog.reminder_type r = "15min")
        /\ (forall w0, exists context,
              lookup_step E tk w0
              = (Ok (context, EmailTemplate.filter_first "15min" true (email_templates w0)),
                 w0))).
Proof.
  split; [reflexivity|]. intros tk w' Hsend.
  assert (Hq : task_appointment_id tk = a /\ queue w' = queue w ++ [tk]).
  { revert Hsend. unfold send_custom_reminder, try_except. unfold bind at 1.
    destruct (get_appointment_by_id_total E a w) as [o ->].
    destruct o as [d|]; [|unfold ret; discriminate].
    destruct (size d =? 0)%nat; [unfold ret; discriminate|].
    unfold bind, lift, ret, delay, task_for.
    destruct (as_str (dict_get d "notificationEmail" (VStr EmptyString))) as [addr|e];
      simpl; [|discriminate].
    destruct (dict_getitem d "appointmentDate") as [v|e]; simpl; [|discriminate].
    destruct (as_datetime v) as [t|e]; simpl; [|discriminate].
    destruct (broker_fails E _); [discriminate|].
    intros H. injection H as <- <-. split; reflexivity. }
  destruct Hq as [Ha Hq]. split; [exact Ha|]. split; [exact Hq|]. split.
  - intros w0 r Hu Hin Hfresh.
    destruct (run_task_solo E tk w0) as [b [w1 [Hrun _]]]. rewrite Hrun in Hin.
    unfold run_task in Hrun.
    eapply attempt_new_rows; eassumption.
  - intros w0. apply lookup_step_total.
Qed.

(** ** The template table *)

Section Templates.
Import EmailTemplate.

Lemma matches_true rtype active r :
  matches rtype active r = true <-> reminder_type r = rtype /\ is_active r = active.
Proof.
  unfold matches. rewrite andb_true_iff, String.eqb_eq, Bool.eqb_true_iff. reflexivity.
Qed.

Lemma template_has_id_true i r : has_id i r = true <-> id r = i.
Proof. unfold has_id. apply Nat.eqb_eq. Qed.

Lemma sequence_is_fresh tb :
  templates_unique tb -> existsb (has_id (next_id tb)) (rows tb) = false.
Proof.
  intros [_ [_ Hlt]]. apply existsb_false. intros r Hr.
  destruct (has_id (next_id tb) r) eqn:Hid; [|reflexivity].
  apply template_has_id_true in Hid. specialize (Hlt r Hr). lia.
Qed.

(** [create] inserts when no row has the pair [(reminder_type, is_active)],
    and raises when one has. *)
Lemma create_free nm subj html text rtype active now tb :
  templates_unique tb -> existsb (matches rtype active) (rows tb) = false ->
  create nm subj html text rtype active now tb
  = Ok (mk (next_id tb) nm subj html text rtype active now now,
        Table (rows tb ++ [mk (next_id tb) nm subj html text rtype active now now])
              (S (next_id tb))).
Proof.
  intros Hu Hfree. unfold create. cbn [id].
  now rewrite (sequence_is_fresh tb Hu), Hfree.
Qed.

Lemma create_taken nm subj html text rtype active now tb :
  existsb (matches rtype active) (rows tb) = true ->
  exists e, create nm subj html text rtype active now tb = Raise e.
Proof.
  intros Htaken. unfold create. cbn [id].
  destruct (existsb (has_id (next_id tb)) (rows tb)); [eexists; reflexivity|].
  rewrite Htaken. eexists. reflexivity.
Qed.

Lemma create_unique nm subj html text rtype active now tb t tb' :
  templates_unique tb -> create nm subj html text rtype active now tb = Ok (t, tb') ->
  templates_unique tb'.
Proof.
  intros Hu Hc. destruct (existsb (matches rtype active) (rows tb)) eqn:Hm.
  - destruct (create_taken nm subj html text rtype active now tb Hm) as [e He].
    rewrite He in Hc. discriminate.
  - rewrite (create_free _ _ _ _ _ _ _ _ Hu Hm) in Hc. injection Hc as <- <-.
    destruct Hu as [Hid [Hpair Hlt]]. split; [|split]; simpl.
    + apply NoDup_map_snoc; [assumption|]. intros y Hy. simpl. specialize (Hlt y Hy). lia.
    + apply NoDup_map_snoc; [assumption|]. intros y Hy Heq. simpl in Heq.
      rewrite existsb_false in Hm. specialize (Hm y Hy).
      apply Bool.not_true_iff_false in Hm. apply Hm. apply matches_true.
      injection Heq as -> ->. auto.
    + intros r Hr. rewrite in_app_iff in Hr. destruct Hr as [Hr|[<-|[]]].
      * specialize (Hlt r Hr). lia.
      * simpl. lia.
Qed.

Lemma active_at_most_one rtype tb :
  templates_unique tb -> (length (active_templates rtype tb) <= 1)%nat.
Proof.
  intros [_ [Hpair _]]. unfold active_templates.
  induction (rows tb) as [|r rs IH]; simpl; [lia|].
  simpl in Hpair. inversion Hpair as [|? ? Hr Hrs]; subst.
  destruct (matches rtype true r) eqn:Hm; [|now apply IH].
  simpl. rewrite (filter_key_none (matches rtype true) rs); [simpl; lia|].
  intros x Hx. destruct (matches rtype true x) eqn:Hmx; [|reflexivity].
  exfalso. apply Hr. apply matches_true in Hm. apply matches_true in Hmx.
  destruct Hm as [Hm1 Hm2], Hmx as [Hx1 Hx2].
  apply in_map_iff. exists x. split; [congruence|assumption].
Qed.

Lemma active_exactly_one tb :
  templates_unique tb -> filter_exists "15min" true tb = true ->
  length (active_templates "15min" tb) = 1%nat.
Proof.
  intros Hu Hex. pose proof (active_at_most_one "15min" tb Hu) as Hle.
  unfold filter_exists in Hex. apply existsb_exists in Hex. destruct Hex as [r [Hr Hm]].
  assert (Hin : In r (active_templates "15min" tb))
    by (apply List.filter_In; now split).
  destruct (active_templates "15min" tb); [destruct Hin|simpl in *; lia].
Qed.

End Templates.

Section TemplateSteps.
Context (E : Env).

Lemma create_default_templates w :
  templates_unique (email_templates w) ->
  templates_unique (email_templates (snd (create_default_email_template w)))
  /\ (EmailTemplate.filter_exists "15min" true (email_templates w) = true ->
      snd (create_default_email_template w) = w)
  /\ EmailTemplate.filter_exists "15min" true
       (email_templates (snd (create_default_email_template w))) = true.
Proof.
  intros Hu. unfold create_default_email_template.
  destruct (EmailTemplate.filter_exists "15min" true (email_templates w)) eqn:Hex.
  - destruct (create_taken "Default 15-Minute Reminder" default_subject default_body_html
                default_body_text "15min" true (clock w) (email_templates w) Hex) as [e ->].
    simpl. auto.
  - rewrite (create_free _ _ _ _ _ _ _ _ Hu Hex).
    pose proof (create_unique _ _ _ _ _ _ _ _ _ _ Hu
                  (create_free "Default 15-Minute Reminder" default_subject default_body_html
                     default_body_text "15min" true (clock w) _ Hu Hex)) as Hu'.
    simpl. split; [exact Hu'|]. split; [discriminate|].
    unfold EmailTemplate.filter_exists. simpl. rewrite existsb_app. simpl.
    apply orb_true_r.
Qed.

Lemma call_default_templates n w :
  templates_unique (email_templates w) ->
  templates_unique (email_templates (call_default n w))
  /\ ((1 <= n)%nat ->
      EmailTemplate.filter_exists "15min" true (email_templates (call_default n w)) = true).
Proof.
  revert w. induction n as [|n IH]; intros w Hu; simpl.
  - split; [assumption|lia].
  - destruct (create_default_templates w Hu) as [Hu1 [Hsame Hex1]].
    destruct (IH _ Hu1) as [Hu' Hex']. split; [assumption|]. intros _.
    destruct n as [|n]; [exact Hex1|]. apply Hex'. lia.
Qed.

(** A step of a worker keeps the constraints of the template table; only
    the fallback writes to it. *)
Lemma advance_templates tk p w p' w' :
  advance E tk p w = (p', w') ->
  templates_unique (email_templates w) -> templates_unique (email_templates w').
Proof.
  intros Hadv Hu.
  destruct p as [|l|l ctx|l ctx tp|l| |b]; simpl in Hadv.
  - unfold ReminderLog_get_or_create in Hadv.
    destruct (ReminderLog.get_or_create _ _ _ _ _ _) as [[[r c]|e] tb];
      injection Hadv as <- <-; exact Hu.
  - destruct (lookup_step_total E tk w) as [ctx Hl]. rewrite Hl in Hadv.
    destruct (EmailTemplate.filter_first _ _ _); injection Hadv as <- <-; exact Hu.
  - pose proof (create_default_templates w Hu) as [Hu' _].
    destruct (create_default_email_template w) as [[t|e] w1];
      injection Hadv as <- <-; exact Hu'.
  - rewrite send_step_eq in Hadv.
    destruct (render_email E tk ctx tp) as [m|e]; [destruct (smtp_fails E m)|];
      injection Hadv as <- <-; exact Hu.
  - rewrite save_step_eq in Hadv.
    destruct (ReminderLog.save _ _ _) as [[obj' tb]|e];
      injection Hadv as <- <-; exact Hu.
  - destruct (mark_reminder_sent_cases E (task_appointment_id tk) w) as [b [o [db [Heq _]]]].
    rewrite Heq in Hadv. injection Hadv as <- <-. exact Hu.
  - injection Hadv as <- <-. exact Hu.
Qed.

Lemma run_templates schedule c :
  templates_unique (email_templates (fst c)) ->
  templates_unique (email_templates (fst (run E schedule c))).
Proof.
  revert c. induction schedule as [|act rest IH]; intros [w workers] Hu; simpl; [assumption|].
  apply IH. destruct act as [i|dt]; simpl.
  - destruct (workers !! i) as [wk|]; [|exact Hu].
    destruct (advance E (worker_task wk) (worker_pc wk) w) as [p' w'] eqn:Hadv.
    simpl. eapply advance_templates; eassumption.
  - exact Hu.
Qed.

End TemplateSteps.

(** C8. The fallback keeps the template table within its constraint, at
    most one active template per reminder type.  When no active template of
    type ["15min"] exists, [create_default_email_template] inserts one, the
    default, and it is then the only active one of its type.  When one
    exists, the fallback raises and changes nothing, so calling it again,
    any number of times, leaves exactly one.  And in every interleaving of
    concurrent workers (also of workers that each found no template and
    each go on to create the default) the table keeps its constraint: no
    reminder type ever has two active templates. *)
Theorem default_template_created_once (E : Env) (w : world) :
  templates_unique (email_templates w) ->
  (EmailTemplate.filter_exists "15min" true (email_templates w) = false ->
     exists t,
       create_default_email_template w
       = (Ok t, set_email_templates
                  (EmailTemplate.Table (EmailTemplate.rows (email_templates w) ++ [t])
                                       (S (EmailTemplate.next_id (email_templates w)))) w)
       /\ EmailTemplate.name t = "Default 15-Minute Reminder"
       /\ EmailTemplate.reminder_type t = "15min"
       /\ EmailTemplate.is_active t = true
       /\ active_templates "15min" (email_templates (snd (create_default_email_template w)))
          = [t])
  /\ (EmailTemplate.filter_exists "15min" true (email_templates w) = true ->
        exists e, create_default_email_template w = (Raise e, w))
  /\ (forall n, (1 <= n)%nat ->
        length (active_templates "15min" (email_templates (call_default n w))) = 1%nat)
  /\ (forall n rtype,
        (length (active_templates rtype (email_templates (call_default n w))) <= 1)%nat)
  /\ (forall workers schedule rtype,
        templates_unique (email_templates (fst (run E schedule (w, workers))))
        /\ (length (active_templates rtype
                      (email_templates (fst (run E schedule (w, workers))))) <= 1)%nat).
Proof.
  intros Hu. split; [|split; [|split; [|split]]].
  - intros Hnone. unfold create_default_email_template.
    rewrite (create_free _ _ _ _ _ _ _ _ Hu Hnone). eexists. split; [reflexivity|].
    simpl. repeat split. unfold active_templates. simpl. rewrite List.filter_app. simpl.
    rewrite (filter_key_none _ (EmailTemplate.rows (email_templates w))); [reflexivity|].
    now apply existsb_false.
  - intros Hex. unfold create_default_email_template.
    destruct (create_taken "Default 15-Minute Reminder" default_subject default_body_html
                default_body_text "15min" true (clock w) (email_templates w) Hex) as [e ->].
    eexists. reflexivity.
  - intros n Hn. destruct (call_default_templates n w Hu) as [Hu' Hex].
    apply active_exactly_one; auto.
  - intros n rtype. apply active_at_most_one. now apply call_default_templates.
  - intros workers schedule rtype.
    pose proof (run_templates E schedule (w, workers) Hu) as Hu'.
    split; [exact Hu'|]. now apply active_at_most_one.
Qed.

(** In an empty table the fallback creates the default template, and three
    calls in a row leave one. *)
Lemma default_template_created_once_witness :
  create_default_email_template Demo.bare_world
  = (Ok Demo.default_template, Demo.world_of Demo.no_rows Demo.default_templates)
  /\ length (active_templates "15min" (email_templates (call_default 3 Demo.bare_world)))
     = 1%nat.
Proof.
  assert (Hu : templates_unique (email_templates Demo.bare_world)).
  { split; [constructor|]. split; [constructor|]. intros r []. }
  destruct (default_template_created_once Demo.all_up Demo.bare_world Hu)
    as [H1 [_ [H3 _]]].
  split; [computed|]. apply H3. repeat constructor.
Defined.

(** ** Concurrent calls for one appointment *)



(** Two calls for [a1] that overlap both get past the claim step (the first
    creates the row, the second reads it in state Claimed), both hand a
    message to the gateway and both save the row as Sent: the row goes to
    Sent once, and the second save overwrites [reminder_sent_at]. *)
Example overlapping_attempts_both_dispatch :
  let after := run Demo.all_up Demo.in_turn
                 (Demo.fresh_world, spawn [Demo.task_a1; Demo.task_a1]) in
  map worker_pc (snd after) = [Returned true; Returned true]
  /\ outbox (fst after) = [Demo.mail_a1; Demo.mail_a1]
  /\ map ReminderLog.reminder_sent_at (ReminderLog.rows (reminder_logs (fst after)))
     = [Some (Demo.at_0945 + 5000000)]
  /\ transitions_to_sent Demo.all_up "a1" Demo.in_turn
       (Demo.fresh_world, spawn [Demo.task_a1; Demo.task_a1]) = 1%nat.
Proof. cbv zeta. repeat split; computed. Qed.

(** ** The default template *)

Section DefaultTemplate.
Context (E : Env).

Lemma default_body_html_references : references default_body_html " font-family".
Proof.
  exists " font-family", None, " Arial, sans-serif; line-height: 1.6; color: #333; ".
  split; [|computed].
  assert (H : nth_error (Format.parse default_body_html) 1
              = Some (Format.Field " font-family" None
                        " Arial, sans-serif; line-height: 1.6; color: #333; "))
    by computed.
  eapply nth_error_In. exact H.
Qed.

Lemma email_context_keys user department service data date key :
  key <> "user" -> key <> "appointment" -> key <> "department" -> key <> "service" ->
  key <> "appointment_date" -> key <> "appointment_time" ->
  key <> "appointment_date_formatted" -> key <> "token_number" ->
  key <> "queue_position" ->
  email_context E user department service data date !! key = None.
Proof.
  intros. unfold email_context.
  repeat (rewrite lookup_insert_ne by congruence). apply lookup_empty.
Qed.

Lemma lookup_step_context tk w context ot w' :
  lookup_step E tk w = (Ok (context, ot), w') ->
  exists user department service,
    context = email_context E user department service (task_appointment_data tk)
                (task_appointment_date tk).
Proof.
  unfold lookup_step, EmailTemplate_filter_first.
  destruct (get_user_by_id_total E (dict_get (task_appointment_data tk) "citizenId" VNone) w)
    as [u Hu].
  destruct (get_department_by_id_total E
              (dict_get (task_appointment_data tk) "departmentId" VNone) w) as [d Hd].
  destruct (get_service_by_id_total E (dict_get (task_appointment_data tk) "serviceId" VNone) w)
    as [s Hs].
  unfold bind at 1. rewrite Hu. unfold bind at 1. rewrite Hd.
  unfold bind at 1. rewrite Hs. unfold bind, gets, ret.
  intros H. injection H as <- _ _. eauto.
Qed.

(** The HTML body of the default template holds a style sheet whose braces
    [str.format] reads as replacement fields: the first one asks for the
    keyword [" font-family"], which no context has.  So the default template
    never renders: an attempt that gets past the claim step and resolves
    the default template returns [False], hands no message to the gateway
    and leaves the row in state Claimed. *)
Theorem default_template_never_renders (w : world) (a addr : string) (date : Z)
    (data : document) (l : ReminderLog.t) (created : bool) (w1 : world)
    (context : document) (ot : option EmailTemplate.t) (template : EmailTemplate.t)
    (w2 : world) :
  ReminderLog_get_or_create a addr date "15min" w = (Ok (l, created), w1) ->
  negb created && ReminderLog.reminder_sent l = false ->
  lookup_step E (Task a addr date data) w1 = (Ok (context, ot), w1) ->
  resolve_template ot w1 = (Ok template, w2) ->
  EmailTemplate.body_html template = default_body_html ->
  raised (Format.format (builtins E) default_body_html context)
  /\ send_reminder_email E a addr date data w = (Ok false, w2)
  /\ outbox w2 = outbox w
  /\ ReminderLog.reminder_sent l = false.
Proof.
  intros Hclaim Hcond Hlook Hres Hhtml.
  destruct (lookup_step_context _ _ _ _ _ Hlook) as [u [d [s ->]]].
  assert (Hnone : email_context E u d s data date !! " font-family" = None)
    by (apply email_context_keys; discriminate).
  assert (Hraise : raised (Format.format (builtins E) default_body_html
                             (email_context E u d s data date)))
    by (eapply format_missing_placeholder;
        [apply default_body_html_references|exact Hnone]).
  split; [exact Hraise|].
  assert (Hmiss : missing_placeholder template (email_context E u d s data date)).
  { exists default_body_html, " font-family". split; [auto|].
    split; [apply default_body_html_references|exact Hnone]. }
  split; [|split].
  - eapply send_fails; try eassumption. left. now apply render_email_missing.
  - pose proof (resolve_template_facts _ _ _ _ Hres) as Hw2.
    destruct (claim_facts _ _ _ _ _ _ _ Hclaim) as [Hw1 _].
    unfold outbox. rewrite Hw2, Hw1. reflexivity.
  - eapply claim_unsent; eassumption.
Qed.

End DefaultTemplate.

(** The attempt for [a1] with the default template. *)
Lemma default_template_never_renders_witness :
  send_reminder_email Demo.all_up "a1" "u@x.com" Demo.at_1000 Demo.a1 Demo.bare_world
  = (Ok false, Demo.world_of Demo.one_claimed Demo.default_templates).
Proof.
  assert (Hc : ReminderLog_get_or_create "a1" "u@x.com" Demo.at_1000 "15min" Demo.bare_world
               = (Ok (Demo.claimed_row, true), Demo.world_of Demo.one_claimed Demo.no_templates))
    by computed.
  assert (Hl : lookup_step Demo.all_up (Task "a1" "u@x.com" Demo.at_1000 Demo.a1)
                 (Demo.world_of Demo.one_claimed Demo.no_templates)
               = (Ok (Demo.context_a1, None), Demo.world_of Demo.one_claimed Demo.no_templates))
    by computed.
  assert (Hr : resolve_template None (Demo.world_of Demo.one_claimed Demo.no_templates)
               = (Ok Demo.default_template,
                  Demo.world_of Demo.one_claimed Demo.default_templates))
    by computed.
  exact (proj1 (proj2 (default_template_never_renders Demo.all_up Demo.bare_world "a1"
                         "u@x.com" Demo.at_1000 Demo.a1 Demo.claimed_row true _ _ _ _ _
                         Hc eq_refl Hl Hr eq_refl))).
Defined.

(** ** One attempt, whatever happens in it *)

Section AttemptOutcome.
Context (E : Env).

Lemma render_email_fields tk context template m :
  render_email E tk context template = Ok m ->
  recipient_list m = [task_user_email tk] /\ from_email m = DEFAULT_FROM_EMAIL E.
Proof.
  unfold render_email.
  destruct (Format.format _ (EmailTemplate.subject template) context); simpl; [|discriminate].
  destruct (Format.format _ (EmailTemplate.body_text template) context); simpl; [|discriminate].
  destruct (Format.format _ (EmailTemplate.body_html template) context); simpl; [|discriminate].
  intros H. injection H as <-. split; reflexivity.
Qed.

Lemma claim_grows a addr date w r w1 :
  ReminderLog_get_or_create a addr date "15min" w = (r, w1) ->
  ledger_grows (reminder_logs w) (reminder_logs w1).
Proof.
  unfold ReminderLog_get_or_create. intros H.
  destruct (ReminderLog.get_or_create _ _ _ _ _ _) as [r0 tb] eqn:Hg.
  injection H as <- <-. simpl. eapply get_or_create_grows; eassumption.
Qed.

(** A claim that raises leaves the world as it is, and the appointment
    has no row. *)
Lemma claim_raises a addr date w e w1 :
  ledger_unique (reminder_logs w) ->
  ReminderLog_get_or_create a addr date "15min" w = (Raise e, w1) ->
  w1 = w /\ is_sent a w = false.
Proof.
  intros Hu Hclaim. split.
  - unfold ReminderLog_get_or_create in Hclaim.
    destruct (get_or_create_cases a addr date "15min" (clock w) (reminder_logs w))
      as [[r0 [Heq _]]|[[Heq _]|[e0 Heq]]]; rewrite Heq in Hclaim; try discriminate.
    injection Hclaim as _ <-. apply set_reminder_logs_same.
  - destruct (is_sent a w) eqn:Hs; [|reflexivity].
    apply is_sent_true in Hs. destruct Hs as [r [Hr [Ha Hs]]]. subst a.
    rewrite (claim_existing w r addr date Hu Hr) in Hclaim. discriminate.
Qed.

(** A claim that returns a row in state Claimed: the appointment is not
    Sent, before and after. *)
Lemma claim_unsent_not_sent a addr date w l created w1 :
  ledger_unique (reminder_logs w) ->
  ReminderLog_get_or_create a addr date "15min" w = (Ok (l, created), w1) ->
  negb created && ReminderLog.reminder_sent l = false ->
  is_sent a w = false /\ is_sent a w1 = false.
Proof.
  intros Hu Hclaim Hcond.
  destruct (claim_facts _ _ _ _ _ _ _ Hclaim) as [_ [Hin [Ha _]]].
  assert (H1 : is_sent a w1 = false).
  { apply (unsent_row_not_sent a w1 l); try assumption.
    - eapply claim_world_unique; eassumption.
    - eapply claim_unsent; eassumption. }
  split; [|exact H1].
  destruct (is_sent a w) eqn:Hs; [|reflexivity].
  rewrite (is_sent_grows a w w1 (claim_grows _ _ _ _ _ _ Hclaim) Hs) in H1. discriminate.
Qed.

(** A claim that returns a row in state Sent changes nothing. *)
Lemma claim_sent a addr date w l created w1 :
  ReminderLog_get_or_create a addr date "15min" w = (Ok (l, created), w1) ->
  negb created && ReminderLog.reminder_sent l = true ->
  w1 = w /\ is_sent a w = true.
Proof.
  intros Hclaim Hcond. apply andb_true_iff in Hcond. destruct Hcond as [Hc Hs].
  apply negb_true_iff in Hc. subst created.
  destruct (claim_facts _ _ _ _ _ _ _ Hclaim) as [Hw1 [Hin [Ha [Hold _]]]].
  assert (Heq : w1 = w).
  { rewrite Hw1, (Hold eq_refl). apply set_reminder_logs_same. }
  split; [exact Heq|]. subst w1. apply is_sent_true. exists l. auto.
Qed.

Lemma attempt_on_sent a addr date data w :
  ledger_unique (reminder_logs w) -> is_sent a w = true ->
  send_reminder_email E a addr date data w = (Ok true, w).
Proof.
  intros Hu Hs. apply is_sent_true in Hs. destruct Hs as [r [Hr [Ha Hs]]]. subst a.
  rewrite send_reminder_email_staged, (claim_existing w r addr date Hu Hr), Hs.
  reflexivity.
Qed.

(** The appointment store after [mark_reminder_sent] depends on the store
    and the clock only. *)
Lemma mark_reminder_sent_store a w1 w2 :
  mongodb w1 = mongodb w2 -> clock w1 = clock w2 ->
  mongodb (snd (mark_reminder_sent E a w1)) = mongodb (snd (mark_reminder_sent E a w2)).
Proof.
  intros Hm Hc. unfold mark_reminder_sent, collection_update_one, try_except, ret.
  destruct (mongo_fails E (OpUpdateOne a)); simpl; [exact Hm|].
  rewrite Hm, Hc.
  destruct (update_first _ _ _ _) as [docs modified]. reflexivity.
Qed.

(** Every attempt returns.  Either it hands nothing over (the trace and the
    appointment store are as before, and it returns whether the row was
    Sent already), or it hands one message over, saves the row as Sent and
    asks the appointment source to set its flag. *)
Lemma attempt_outcome a addr date data w :
  ledger_unique (reminder_logs w) ->
  exists b w',
    send_reminder_email E a addr date data w = (Ok b, w')
    /\ queue w' = queue w /\ clock w' = clock w
    /\ ((trace w' = trace w /\ mongodb w' = mongodb w
         /\ is_sent a w' = is_sent a w /\ b = is_sent a w)
        \/ (exists m saved o,
              trace w' = trace w ++ [EvSendMail m; EvLedgerSave saved; EvMongoUpdate a o]
              /\ recipient_list m = [addr] /\ from_email m = DEFAULT_FROM_EMAIL E
              /\ smtp_fails E m = false
              /\ is_sent a w = false /\ is_sent a w' = true /\ b = true
              /\ mongodb w' = mongodb (snd (mark_reminder_sent E a w)))).
Proof.
  intros Hu. rewrite send_reminder_email_staged.
  destruct (ReminderLog_get_or_create a addr date "15min" w) as [[[l created]|e] w1] eqn:Hclaim.
  2:{ destruct (claim_raises _ _ _ _ _ _ Hu Hclaim) as [-> Hs].
      exists false, w. rewrite Hs. split; [reflexivity|]. auto 10. }
  destruct (negb created && ReminderLog.reminder_sent l) eqn:Hcond.
  { destruct (claim_sent _ _ _ _ _ _ _ Hclaim Hcond) as [-> Hs].
    exists true, w. rewrite Hs. split; [reflexivity|]. auto 10. }
  destruct (claim_unsent_not_sent _ _ _ _ _ _ _ Hu Hclaim Hcond) as [Hs Hs1].
  destruct (claim_facts _ _ _ _ _ _ _ Hclaim) as [Hw1 [Hin [Ha _]]].
  pose proof (claim_world_unique _ _ _ _ _ _ Hu Hclaim) as Hu1.
  assert (Hquiet : forall w2, w2 = set_email_templates (email_templates w2) w1 ->
            exists b w', (Ok false, w2) = (Ok b, w')
              /\ queue w' = queue w /\ clock w' = clock w
              /\ ((trace w' = trace w /\ mongodb w' = mongodb w
                   /\ is_sent a w' = is_sent a w /\ b = is_sent a w)
                  \/ (exists m saved o,
                        trace w' = trace w ++ [EvSendMail m; EvLedgerSave saved;
                                               EvMongoUpdate a o]
                        /\ recipient_list m = [addr] /\ from_email m = DEFAULT_FROM_EMAIL E
                        /\ smtp_fails E m = false
                        /\ is_sent a w = false /\ is_sent a w' = true /\ b = true
                        /\ mongodb w' = mongodb (snd (mark_reminder_sent E a w))))).
  { intros w2 Hw2. exists false, w2. split; [reflexivity|].
    assert (Hs2 : is_sent a w2 = false) by (rewrite Hw2; exact Hs1).
    rewrite Hs, Hs2, Hw2, Hw1. simpl. auto 10. }
  destruct (lookup_step_total E (Task a addr date data) w1) as [ctx Hl]. rewrite Hl.
  destruct (resolve_template _ w1) as [[t|e] w2] eqn:Hres.
  2:{ apply Hquiet.
      destruct (EmailTemplate.filter_first _ _ _); simpl in Hres; [discriminate|].
      destruct (create_default_cases w1) as [[tp [tb [Heq _]]]|[e' Heq]];
        rewrite Heq in Hres; [discriminate|]. injection Hres as _ <-. now destruct w1. }
  pose proof (resolve_template_facts _ _ _ _ Hres) as Hw2.
  rewrite send_step_eq.
  destruct (render_email E _ ctx t) as [m|e] eqn:Hren; [|now apply Hquiet].
  destruct (smtp_fails E m) eqn:Hsmtp; [now apply Hquiet|].
  rewrite save_step_eq.
  assert (Hclock : clock (log_event (EvSendMail m) w2) = clock w)
    by (rewrite Hw2, Hw1; reflexivity).
  assert (Hlogs : reminder_logs (log_event (EvSendMail m) w2) = reminder_logs w1)
    by (rewrite Hw2; reflexivity).
  rewrite Hclock, Hlogs.
  rewrite save_read_row; [|assumption|exists l; auto].
  match goal with
  | |- context [mark_reminder_sent E a ?w0] =>
      pose proof (mark_reminder_sent_store a w0 w) as Hstore;
      destruct (mark_reminder_sent_cases E a w0) as [b0 [o [db [Heq _]]]]
  end.
  rewrite Heq in Hstore |- *.
  eexists true, _. split; [reflexivity|].
  split; [simpl; rewrite Hw2, Hw1; reflexivity|].
  split; [simpl; rewrite Hw2, Hw1; reflexivity|].
  right. exists m, (ReminderLog.touch (mark_sent l (clock w)) (clock w)), o.
  destruct (render_email_fields _ _ _ _ Hren) as [Hto Hfrom].
  split; [simpl; rewrite Hw2, Hw1; simpl; rewrite <- !app_assoc; reflexivity|].
  split; [exact Hto|]. split; [exact Hfrom|]. split; [exact Hsmtp|].
  split; [exact Hs|]. split.
  - apply is_sent_true. exists (ReminderLog.touch (mark_sent l (clock w)) (clock w)).
    split; [|split; [exact Ha|reflexivity]].
    simpl. apply in_map_iff. exists l. split; [|assumption]. unfold replace_row.
    cbn [mark_sent ReminderLog.id]. now rewrite (proj2 (has_id_true _ _) eq_refl).
  - split; [reflexivity|]. apply Hstore; simpl; rewrite Hw2, Hw1; reflexivity.
Qed.

End AttemptOutcome.

(** ** What an attempt returns, and one worker draining the queue *)

Section Sequential.
Context (E : Env).

Lemma outbox_same w w' : trace w' = trace w -> outbox w' = outbox w.
Proof. unfold outbox. now intros ->. Qed.

Lemma filter_length_le {A} (p q : A -> bool) (l : list A) :
  (forall x, In x l -> p x = true -> q x = true) ->
  (length (List.filter p l) <= length (List.filter q l))%nat.
Proof.
  induction l as [|y l IH]; intros H; simpl; [lia|].
  assert (IH' : (length (List.filter p l) <= length (List.filter q l))%nat)
    by (apply IH; intros x Hx; apply H; now right).
  destruct (p y) eqn:Hp.
  - rewrite (H y (or_introl eq_refl) Hp). simpl. lia.
  - destruct (q y); simpl; lia.
Qed.

Lemma filter_length_lt {A} (p q : A -> bool) (l : list A) (x : A) :
  (forall y, In y l -> p y = true -> q y = true) ->
  In x l -> q x = true -> p x = false ->
  (length (List.filter p l) < length (List.filter q l))%nat.
Proof.
  induction l as [|y l IH]; intros H Hx Hq Hp; [destruct Hx|].
  assert (Hle : (length (List.filter p l) <= length (List.filter q l))%nat)
    by (apply filter_length_le; intros z Hz; apply H; now right).
  simpl. destruct Hx as [->|Hx].
  - rewrite Hp, Hq. simpl. lia.
  - assert (IH' : (length (List.filter p l) < length (List.filter q l))%nat)
      by (apply IH; auto; intros z Hz; apply H; now right).
    destruct (p y) eqn:Hpy.
    + rewrite (H y (or_introl eq_refl) Hpy). simpl. lia.
    + destruct (q y); simpl; lia.
Qed.

Lemma unsent_grows w w1 tks :
  ledger_grows (reminder_logs w) (reminder_logs w1) ->
  (length (unsent_appointments w1 tks) <= length (unsent_appointments w tks))%nat.
Proof.
  intros Hg. apply filter_length_le. intros a _ Ha.
  apply negb_true_iff in Ha. apply negb_true_iff.
  destruct (is_sent a w) eqn:Hs; [|reflexivity].
  rewrite (is_sent_grows a w w1 Hg Hs) in Ha. discriminate.
Qed.

Lemma unsent_cons w tk tks :
  (length (unsent_appointments w tks) <= length (unsent_appointments w (tk :: tks)))%nat.
Proof.
  unfold unsent_appointments. cbn [map List.nodup].
  destruct (in_dec String.string_dec (task_appointment_id tk) (map task_appointment_id tks));
    [lia|].
  simpl. destruct (negb (is_sent (task_appointment_id tk) w)); simpl; lia.
Qed.

(** The call that dispatches takes its appointment out of the unsent
    ones. *)
Lemma unsent_dispatched w w1 tk tks :
  ledger_grows (reminder_logs w) (reminder_logs w1) ->
  is_sent (task_appointment_id tk) w = false ->
  is_sent (task_appointment_id tk) w1 = true ->
  (S (length (unsent_appointments w1 tks)) <= length (unsent_appointments w (tk :: tks)))%nat.
Proof.
  intros Hg Hs Hs1. unfold unsent_appointments. cbn [map List.nodup].
  assert (Hmono : forall a, negb (is_sent a w1) = true -> negb (is_sent a w) = true).
  { intros a Ha. apply negb_true_iff in Ha. apply negb_true_iff.
    destruct (is_sent a w) eqn:Hsa; [|reflexivity].
    rewrite (is_sent_grows a w w1 Hg Hsa) in Ha. discriminate. }
  destruct (in_dec String.string_dec (task_appointment_id tk) (map task_appointment_id tks))
    as [Hin|Hnin].
  - apply (filter_length_lt _ _ _ (task_appointment_id tk)).
    + intros a _. apply Hmono.
    + now apply List.nodup_In.
    + now rewrite Hs.
    + now rewrite Hs1.
  - simpl. rewrite Hs. simpl. apply le_n_S. apply filter_length_le. intros a _. apply Hmono.
Qed.

(** The calls run one after the other: each returns, and the messages
    handed over are at most as many as the appointments not yet Sent. *)
Lemma run_tasks_outcome tks w :
  ledger_unique (reminder_logs w) ->
  exists bs w' ms,
    run_tasks E tks w = (Ok bs, w')
    /\ length bs = length tks
    /\ queue w' = queue w
    /\ ledger_unique (reminder_logs w')
    /\ ledger_grows (reminder_logs w) (reminder_logs w')
    /\ outbox w' = (outbox w ++ ms)%list
    /\ (length ms <= length (unsent_appointments w tks))%nat.
Proof.
  revert w. induction tks as [|tk rest IH]; intros w Hu.
  - exists [], w, []. simpl. unfold ret. rewrite app_nil_r.
    repeat split; try apply Hu; try apply ledger_grows_refl; lia.
  - destruct (run_task_ledger E tk w Hu) as [Hu1 Hg1].
    destruct (attempt_outcome E (task_appointment_id tk) (task_user_email tk)
                (task_appointment_date tk) (task_appointment_data tk) w Hu)
      as [b [w1 [Hrun [Hq1 [_ Hcases]]]]].
    fold (run_task E tk w) in Hrun. rewrite Hrun in Hu1, Hg1. simpl in Hu1, Hg1.
    destruct (IH w1 Hu1) as [bs [w' [ms [Hrest [Hlen [Hq [Hu' [Hg' [Hout Hbound]]]]]]]]].
    assert (Heq : run_tasks E (tk :: rest) w = (Ok (b :: bs), w')).
    { cbn [run_tasks]. unfold bind at 1. rewrite Hrun. unfold bind. rewrite Hrest.
      reflexivity. }
    destruct Hcases as [[Htr _]|[m [saved [o [Htr [_ [_ [_ [Hs [Hs1 _]]]]]]]]]].
    + exists (b :: bs), w', ms. split; [exact Heq|]. split; [simpl; lia|].
      split; [congruence|]. split; [exact Hu'|].
      split; [eapply ledger_grows_trans; eassumption|].
      split; [rewrite Hout, (outbox_same w w1 Htr); reflexivity|].
      pose proof (unsent_grows w w1 rest Hg1). pose proof (unsent_cons w tk rest). lia.
    + exists (b :: bs), w', (m :: ms). split; [exact Heq|]. split; [simpl; lia|].
      split; [congruence|]. split; [exact Hu'|].
      split; [eapply ledger_grows_trans; eassumption|]. split.
      * rewrite Hout. unfold outbox at 1. rewrite Htr, outbox_app. simpl.
        rewrite <- app_assoc. reflexivity.
      * pose proof (unsent_dispatched w w1 tk rest Hg1 Hs Hs1). simpl. lia.
Qed.

End Sequential.

(** Every call of [send_reminder_email] returns, and it returns [True]
    exactly when the row of the appointment is in state Sent afterwards.  It
    hands at most one message to the gateway, addressed to the [user_email]
    of the call and sent from [DEFAULT_FROM_EMAIL], and only when the row
    was not Sent before; when it returns [False] nothing was handed over, the
    appointment store is untouched, and a scan finds what it found before:
    an appointment whose attempt failed is still a candidate.  It never
    writes to the queue. *)
Theorem attempt_returns_whether_sent (E : Env) (w : world) (a addr : string) (date : Z)
    (data : document) :
  ledger_unique (reminder_logs w) ->
  exists b w',
    send_reminder_email E a addr date data w = (Ok b, w')
    /\ is_sent a w' = b
    /\ queue w' = queue w
    /\ (outbox w' = outbox w
        \/ exists m, outbox w' = outbox w ++ [m] /\ recipient_list m = [addr]
                     /\ from_email m = DEFAULT_FROM_EMAIL E
                     /\ b = true /\ is_sent a w = false)
    /\ (b = false ->
        trace w' = trace w /\ mongodb w' = mongodb w
        /\ candidates E w' = candidates E w).
Proof.
  intros Hu.
  destruct (attempt_outcome E a addr date data w Hu) as [b [w' [Hrun [Hq [Hclock Hcases]]]]].
  exists b, w'. split; [exact Hrun|].
  destruct Hcases as [[Htr [Hdb [Hs Hb]]]|[m [saved [o [Htr [Hto [Hfrom [_ [Hs [Hs1 [Hb Hdb]]]]]]]]]]].
  - split; [congruence|]. split; [exact Hq|].
    split; [left; now apply outbox_same|]. intros _.
    split; [exact Htr|]. split; [exact Hdb|]. now rewrite !candidates_eq, Hdb, Hclock.
  - split; [congruence|]. split; [exact Hq|]. split.
    + right. exists m. split; [|auto].
      unfold outbox at 1. rewrite Htr, outbox_app. reflexivity.
    + intros ->. discriminate.
Qed.

(** The attempt for [a1] in a world without a row for it. *)
Lemma attempt_returns_whether_sent_witness :
  exists w',
    send_reminder_email Demo.all_up "a1" "u@x.com" Demo.at_1000 Demo.a1 Demo.fresh_world
    = (Ok true, w')
    /\ is_sent "a1" w' = true.
Proof.
  assert (Hu : ledger_unique (reminder_logs Demo.fresh_world)) by (split; constructor).
  destruct (attempt_returns_whether_sent Demo.all_up Demo.fresh_world "a1" "u@x.com"
              Demo.at_1000 Demo.a1 Hu) as [b [w' [Hrun [Hs _]]]].
  assert (Hb : fst (send_reminder_email Demo.all_up "a1" "u@x.com" Demo.at_1000 Demo.a1
                      Demo.fresh_world) = Ok true) by computed.
  rewrite Hrun in Hb. simpl in Hb. injection Hb as ->.
  exists w'. split; assumption.
Defined.

(** A worker that runs the queued calls one after the other hands at most
    one message to the gateway for each appointment in the queue whose row
    is not Sent, however often the appointment was queued; every call
    returns and the queue is empty afterwards. *)
Theorem drain_dispatches_once_per_appointment (E : Env) (w : world) :
  ledger_unique (reminder_logs w) ->
  exists results w' messages,
    drain_queue E w = (Ok results, w')
    /\ length results = length (queue w)
    /\ queue w' = []
    /\ outbox w' = outbox w ++ messages
    /\ (length messages <= length (unsent_appointments w (queue w)))%nat
    /\ ledger_unique (reminder_logs w').
Proof.
  intros Hu. unfold drain_queue.
  destruct (run_tasks_outcome E (queue w) (set_queue [] w) Hu)
    as [bs [w' [ms [Hrun [Hlen [Hq [Hu' [_ [Hout Hbound]]]]]]]]].
  exists bs, w', ms. auto 10.
Qed.

(** The call for [a1] queued three times: one message. *)
Lemma drain_dispatches_once_per_appointment_witness :
  exists results w' messages,
    drain_queue Demo.all_up
      (set_queue [Demo.task_a1; Demo.task_a1; Demo.task_a1] Demo.fresh_world)
    = (Ok results, w')
    /\ outbox w' = messages
    /\ (length messages <= 1)%nat.
Proof.
  assert (Hu : ledger_unique (reminder_logs
                 (set_queue [Demo.task_a1; Demo.task_a1; Demo.task_a1] Demo.fresh_world)))
    by (split; constructor).
  destruct (drain_dispatches_once_per_appointment Demo.all_up _ Hu)
    as [bs [w' [ms [Hrun [_ [_ [Hout [Hbound _]]]]]]]].
  exists bs, w', ms. split; [exact Hrun|]. split; [exact Hout|].
  assert (Hone : length (unsent_appointments
                   (set_queue [Demo.task_a1; Demo.task_a1; Demo.task_a1] Demo.fresh_world)
                   [Demo.task_a1; Demo.task_a1; Demo.task_a1]) = 1%nat) by computed.
  simpl queue in Hbound. rewrite Hone in Hbound. exact Hbound.
Defined.

(** ** The claim step, twice *)

(** The claim step is idempotent.  After [get_or_create] has returned a row
    for an appointment, [get] returns that row, and a second
    [get_or_create] for the appointment returns it again with
    [created = False] and writes nothing, whatever the address, the date and
    the type it is called with: the defaults are used for a new row only. *)
Theorem claim_is_idempotent (a addr addr' : string) (date date' : Z)
    (rtype rtype' : string) (now now' : Z) (tb tb' : ReminderLog.table)
    (r : ReminderLog.t) (created : bool) :
  ledger_unique tb ->
  ReminderLog.get_or_create a addr date rtype now tb = (Ok (r, created), tb') ->
  ReminderLog.get a tb' = Ok r
  /\ ReminderLog.get_or_create a addr' date' rtype' now' tb' = (Ok (r, false), tb')
  /\ (created = true ->
      r = ReminderLog.mk (ReminderLog.next_id tb) a addr date false None rtype now now
      /\ ReminderLog.rows tb' = ReminderLog.rows tb ++ [r])
  /\ (created = false -> tb' = tb /\ In r (ReminderLog.rows tb)).
Proof.
  intros Hu Hg.
  pose proof (get_or_create_unique _ _ _ _ _ _ _ _ Hu Hg) as Hu'.
  assert (Hin : In r (ReminderLog.rows tb') /\ ReminderLog.appointment_id r = a).
  { destruct (get_or_create_cases a addr date rtype now tb)
      as [[r0 [Heq [Hin Ha]]]|[[Heq _]|[e Heq]]]; rewrite Heq in Hg;
      try discriminate; injection Hg as <- <- <-.
    - auto.
    - simpl. rewrite in_app_iff. simpl. auto. }
  destruct Hin as [Hin Ha]. subst a.
  assert (Hget : ReminderLog.get (ReminderLog.appointment_id r) tb' = Ok r)
    by (now apply get_found).
  split; [exact Hget|]. split.
  - unfold ReminderLog.get_or_create. now rewrite Hget.
  - destruct (get_or_create_cases (ReminderLog.appointment_id r) addr date rtype now tb)
      as [[r0 [Heq [Hin0 Ha0]]]|[[Heq _]|[e Heq]]]; rewrite Heq in Hg;
      try discriminate; injection Hg as <- <- <-.
    + split; [discriminate|]. auto.
    + split; [|discriminate]. intros _. split; reflexivity.
Qed.

(** The first claim for [a1], then a second one with another address. *)
Lemma claim_is_idempotent_witness :
  ReminderLog.get "a1" Demo.one_claimed = Ok Demo.claimed_row
  /\ ReminderLog.get_or_create "a1" "other@x.com" 0 "1hour" 7 Demo.one_claimed
     = (Ok (Demo.claimed_row, false), Demo.one_claimed).
Proof.
  assert (Hu : ledger_unique Demo.no_rows) by (split; constructor).
  assert (Hg : ReminderLog.get_or_create "a1" "u@x.com" Demo.at_1000 "15min" Demo.at_0945
                 Demo.no_rows = (Ok (Demo.claimed_row, true), Demo.one_claimed))
    by reflexivity.
  destruct (claim_is_idempotent "a1" "u@x.com" "other@x.com" Demo.at_1000 0 "15min" "1hour"
              Demo.at_0945 7 Demo.no_rows Demo.one_claimed Demo.claimed_row true Hu Hg)
    as [H1 [H2 _]].
  split; assumption.
Defined.

(** ** The flag on the appointment *)

Section Store.
Context (E : Env).

Lemma update_first_none (p : document -> bool) f c l :
  List.find p l = None -> update_first p f c l = (l, false).
Proof.
  induction l as [|d l IH]; simpl; [reflexivity|].
  destruct (p d); [discriminate|]. intros H. now rewrite (IH H).
Qed.

Lemma update_first_some (p : document -> bool) f c l d :
  List.find p l = Some d ->
  exists before after,
    l = (before ++ d :: after)%list
    /\ Forall (fun x => p x = false) before
    /\ update_first p f c l = ((before ++ f d :: after)%list, c d).
Proof.
  induction l as [|y l IH]; simpl; [discriminate|].
  destruct (p y) eqn:Hy.
  - intros H. injection H as ->. exists [], l. auto.
  - intros H. destruct (IH H) as [before [after [-> [Hall Heq]]]].
    exists (y :: before), after. rewrite Heq. auto.
Qed.

Lemma set_reminder_sent_flag now (d : document) :
  set_reminder_sent now d !! "reminderSent" = Some (VBool true)
  /\ set_reminder_sent now d !! "reminderSentAt" = Some (VDate now)
  /\ forall key, key <> "reminderSent" -> key <> "reminderSentAt" ->
       set_reminder_sent now d !! key = d !! key.
Proof.
  unfold set_reminder_sent. split; [|split].
  - rewrite lookup_insert_ne by discriminate. apply lookup_insert_eq.
  - apply lookup_insert_eq.
  - intros key H1 H2. now rewrite !lookup_insert_ne by congruence.
Qed.

Lemma set_reminder_sent_changes_false now (d : document) :
  set_reminder_sent_changes now d = false <->
  d !! "reminderSent" = Some (VBool true) /\ d !! "reminderSentAt" = Some (VDate now).
Proof.
  unfold set_reminder_sent_changes, not_true, date_between.
  rewrite negb_false_iff, andb_true_iff, negb_true_iff. split.
  - intros [H1 H2].
    destruct (d !! "reminderSent") as [[|[|]| | | |]|]; try discriminate.
    destruct (d !! "reminderSentAt") as [[| | | |t|]|]; try discriminate.
    apply andb_true_iff in H2. destruct H2 as [Ha Hb].
    apply Z.leb_le in Ha. apply Z.leb_le in Hb.
    split; [reflexivity|]. do 2 f_equal. lia.
  - intros [-> ->]. split; [reflexivity|].
    apply andb_true_iff. split; apply Z.leb_le; lia.
Qed.

Lemma set_reminder_sent_not_due now t_start t_end (d : document) :
  reminder_query t_start t_end (set_reminder_sent now d) = false.
Proof.
  unfold reminder_query, not_true.
  rewrite (proj1 (set_reminder_sent_flag now d)). apply andb_false_r.
Qed.

(** The documents a query finds after the first match of [p] got its flag
    set: those it found before, but for the match. *)
Lemma filter_update_first (p q : document -> bool) f c l :
  (length (List.filter p l) <= 1)%nat ->
  (forall x, q (f x) = false) ->
  List.filter q (fst (update_first p f c l))
  = List.filter (fun d => negb (p d)) (List.filter q l).
Proof.
  intros Hone Hf. induction l as [|y l IH]; [reflexivity|].
  simpl in Hone |- *. destruct (p y) eqn:Hy.
  - simpl in Hone. simpl. rewrite Hf.
    assert (Hnone : forall x, In x l -> p x = false).
    { intros x Hx. destruct (p x) eqn:Hpx; [|reflexivity].
      assert (Hin : In x (List.filter p l)) by (apply List.filter_In; now split).
      destruct (List.filter p l); [destruct Hin|simpl in Hone; lia]. }
    assert (Hkeep : List.filter (fun d => negb (p d)) (List.filter q l) = List.filter q l).
    { clear -Hnone. induction l as [|x l IH]; [reflexivity|]. simpl.
      destruct (q x) eqn:Hq.
      - simpl. rewrite (Hnone x (or_introl eq_refl)). simpl. f_equal.
        apply IH. intros z Hz. apply Hnone. now right.
      - apply IH. intros z Hz. apply Hnone. now right. }
    destruct (q y); simpl; [rewrite Hy; simpl|]; now rewrite Hkeep.
  - destruct (update_first p f c l) as [l' modified] eqn:Hup. simpl in IH |- *.
    destruct (q y); simpl; [rewrite Hy; simpl; f_equal|]; now apply IH.
Qed.

Lemma mark_reminder_sent_eq a w :
  mark_reminder_sent E a w
  = if mongo_fails E (OpUpdateOne a) then
      (Ok false, log_event (EvMongoUpdate a None) w)
    else
      let updated := update_first (id_is (VStr a)) (set_reminder_sent (clock w))
                       (set_reminder_sent_changes (clock w)) (collection (mongodb w)) in
      (Ok (snd updated),
       log_event (EvMongoUpdate a (Some (snd updated)))
         (set_mongodb (Mongo (fst updated) (users (mongodb w)) (departments (mongodb w))
                             (services (mongodb w))) w)).
Proof.
  unfold mark_reminder_sent, collection_update_one, try_except, ret.
  destruct (mongo_fails E (OpUpdateOne a)); [reflexivity|].
  destruct (update_first _ _ _ _) as [docs modified]. reflexivity.
Qed.

Lemma set_mongodb_same w :
  set_mongodb (Mongo (collection (mongodb w)) (users (mongodb w)) (departments (mongodb w))
                     (services (mongodb w))) w = w.
Proof. now destruct w as [? ? [] ? ? ?]. Qed.

End Store.

(** [mark_reminder_sent] never raises and writes to the appointments
    only.  When the appointment source fails, or no appointment has the
    identifier, it returns [False] and the store is as before.  Otherwise the
    first appointment with the identifier, and no other document, gets
    [reminderSent = True] and [reminderSentAt = now], its other fields are
    kept, and the call returns [True] unless the document had these two
    values already. *)
Theorem mark_reminder_sent_sets_the_flag (E : Env) (w : world) (a : string) :
  exists b w',
    mark_reminder_sent E a w = (Ok b, w')
    /\ reminder_logs w' = reminder_logs w /\ email_templates w' = email_templates w
    /\ queue w' = queue w /\ outbox w' = outbox w
    /\ users (mongodb w') = users (mongodb w)
    /\ departments (mongodb w') = departments (mongodb w)
    /\ services (mongodb w') = services (mongodb w)
    /\ (mongo_fails E (OpUpdateOne a) = true -> b = false /\ mongodb w' = mongodb w)
    /\ (mongo_fails E (OpUpdateOne a) = false ->
        match List.find (id_is (VStr a)) (collection (mongodb w)) with
        | None => b = false /\ mongodb w' = mongodb w
        | Some d =>
            exists before after,
              collection (mongodb w) = before ++ d :: after
              /\ Forall (fun x => id_is (VStr a) x = false) before
              /\ collection (mongodb w')
                 = before ++ set_reminder_sent (clock w) d :: after
              /\ set_reminder_sent (clock w) d !! "reminderSent" = Some (VBool true)
              /\ set_reminder_sent (clock w) d !! "reminderSentAt" = Some (VDate (clock w))
              /\ (forall key, key <> "reminderSent" -> key <> "reminderSentAt" ->
                    set_reminder_sent (clock w) d !! key = d !! key)
              /\ (b = false <->
                  d !! "reminderSent" = Some (VBool true)
                  /\ d !! "reminderSentAt" = Some (VDate (clock w)))
        end).
Proof.
  rewrite mark_reminder_sent_eq.
  destruct (mongo_fails E (OpUpdateOne a)) eqn:Hfail.
  - eexists _, _. split; [reflexivity|]. simpl.
    repeat (split; [reflexivity|]). split.
    + unfold outbox. simpl. rewrite omap_app. simpl. apply app_nil_r.
    + repeat (split; [reflexivity|]). split; [auto|discriminate].
  - eexists _, _. split; [reflexivity|]. simpl.
    repeat (split; [reflexivity|]). split.
    + unfold outbox. simpl. rewrite omap_app. simpl. apply app_nil_r.
    + repeat (split; [reflexivity|]). split; [discriminate|]. intros _.
      destruct (List.find (id_is (VStr a)) (collection (mongodb w))) as [d|] eqn:Hfind.
      * destruct (update_first_some _ (set_reminder_sent (clock w))
                    (set_reminder_sent_changes (clock w)) _ _ Hfind)
          as [before [after [Hl [Hall Heq]]]].
        exists before, after. rewrite Heq. simpl.
        destruct (set_reminder_sent_flag (clock w) d) as [H1 [H2 H3]].
        split; [exact Hl|]. split; [exact Hall|]. split; [reflexivity|].
        split; [exact H1|]. split; [exact H2|]. split; [exact H3|].
        apply set_reminder_sent_changes_false.
      * rewrite (update_first_none _ _ _ _ Hfind). simpl. split; [reflexivity|].
        now destruct (mongodb w).
Qed.

(** After an attempt that handed its message over, with the appointment
    source answering, the appointment is out of the scan: a later scan finds
    the appointments it would have found before, but for the one that was
    reminded.  (Appointment identifiers are unique in the collection.) *)
Theorem dispatched_appointment_leaves_the_scan (E : Env) (w w' : world)
    (a addr : string) (date : Z) (data : document) :
  ledger_unique (reminder_logs w) ->
  (length (List.filter (id_is (VStr a)) (collection (mongodb w))) <= 1)%nat ->
  mongo_fails E (OpUpdateOne a) = false ->
  is_sent a w = false ->
  send_reminder_email E a addr date data w = (Ok true, w') ->
  candidates E w' = List.filter (fun d => negb (id_is (VStr a) d)) (candidates E w)
  /\ (forall d, In d (candidates E w') -> d !! "_id" <> Some (VStr a))
  /\ is_sent a w' = true.
Proof.
  intros Hu Hone Hup Hs Hrun.
  destruct (attempt_outcome E a addr date data w Hu) as [b [w0 [Hrun' [_ [Hclock Hcases]]]]].
  rewrite Hrun in Hrun'. injection Hrun' as <- <-.
  destruct Hcases as [[_ [_ [_ Hb]]]|[m [saved [o [_ [_ [_ [_ [_ [Hs' [_ Hdb]]]]]]]]]]];
    [congruence|].
  assert (Hcand : candidates E w'
                  = List.filter (fun d => negb (id_is (VStr a) d)) (candidates E w)).
  { rewrite !candidates_eq. destruct (mongo_fails E OpFind); [reflexivity|].
    rewrite Hdb, Hclock, mark_reminder_sent_eq, Hup. simpl.
    apply filter_update_first; [exact Hone|]. intros x. apply set_reminder_sent_not_due. }
  split; [exact Hcand|]. split; [|exact Hs'].
  intros d Hd Hid. rewrite Hcand in Hd. apply List.filter_In in Hd. destruct Hd as [_ Hd].
  unfold id_is in Hd. rewrite Hid, String.eqb_refl in Hd. discriminate.
Qed.

(** After the attempt for [a1] the scan finds nothing. *)
Lemma dispatched_appointment_leaves_the_scan_witness :
  candidates Demo.all_up Demo.fresh_world = [Demo.a1]
  /\ candidates Demo.all_up
       (snd (send_reminder_email Demo.all_up "a1" "u@x.com" Demo.at_1000 Demo.a1
               Demo.fresh_world)) = [].
Proof.
  assert (Hu : ledger_unique (reminder_logs Demo.fresh_world)) by (split; constructor).
  assert (Hone : (length (List.filter (id_is (VStr "a1"))
                            (collection (mongodb Demo.fresh_world))) <= 1)%nat)
    by (vm_compute; lia).
  assert (Hc : candidates Demo.all_up Demo.fresh_world = [Demo.a1]) by computed.
  destruct (send_reminder_email Demo.all_up "a1" "u@x.com" Demo.at_1000 Demo.a1
              Demo.fresh_world) as [r w'] eqn:Hrun.
  assert (Hr : r = Ok true).
  { change r with (fst (r, w')). rewrite <- Hrun. computed. }
  subst r.
  destruct (dispatched_appointment_leaves_the_scan Demo.all_up Demo.fresh_world w' "a1"
              "u@x.com" Demo.at_1000 Demo.a1 Hu Hone eq_refl eq_refl Hrun) as [H1 _].
  split; [exact Hc|]. simpl. rewrite H1, Hc. computed.
Defined.

(** ** Successive scans *)

(** The scan looks two minutes wide, from 14 to 16 minutes ahead.  Two
    scans at most two minutes apart leave no gap between their windows: an
    appointment that is open (its status is one of the three, its flag is not
    set) and due between the start of the first window and the end of the
    second is found by one of them.  Two scans further apart leave a gap: an
    appointment due after the first window and before the second is found by
    neither. *)
Theorem scan_windows_leave_no_gap (E : Env) (w1 w2 : world) (d : document) (t : Z) :
  mongo_fails E OpFind = false ->
  clock w1 <= clock w2 ->
  In d (collection (mongodb w1)) -> In d (collection (mongodb w2)) ->
  d !! "appointmentDate" = Some (VDate t) ->
  string_in "status" ["waiting"; "confirmed"; "scheduled"] d = true ->
  not_true "reminderSent" d = true ->
  (clock w2 <= clock w1 + timedelta_minutes 2 ->
   clock w1 + timedelta_minutes 14 <= t <= clock w2 + timedelta_minutes 16 ->
   In d (candidates E w1) \/ In d (candidates E w2))
  /\ (clock w1 + timedelta_minutes 16 < t < clock w2 + timedelta_minutes 14 ->
      ~ In d (candidates E w1) /\ ~ In d (candidates E w2)).
Proof.
  intros Hup Hle Hin1 Hin2 Hdate Hstatus Hflag.
  assert (Hcand : forall w, In d (collection (mongodb w)) ->
            (In d (candidates E w) <->
             clock w + timedelta_minutes 14 <= t <= clock w + timedelta_minutes 16)).
  { intros w Hin. rewrite candidates_eq, Hup, List.filter_In.
    unfold reminder_query, date_between. rewrite Hdate, Hstatus, Hflag, !andb_true_r.
    rewrite andb_true_iff, !Z.leb_le. tauto. }
  unfold timedelta_minutes in *. split.
  - intros Hclose Hdue. rewrite (Hcand w1 Hin1), (Hcand w2 Hin2). lia.
  - intros Hgap. rewrite (Hcand w1 Hin1), (Hcand w2 Hin2). lia.
Qed.

(** The scans of 09:45 and of 09:46 both find the appointment of 10:00. *)
Lemma scan_windows_leave_no_gap_witness :
  In Demo.a1 (candidates Demo.all_up Demo.fresh_world)
  \/ In Demo.a1 (candidates Demo.all_up
                   (set_clock (Demo.at_0945 + timedelta_minutes 1) Demo.fresh_world)).
Proof.
  assert (Hd : Demo.a1 !! "appointmentDate" = Some (VDate Demo.at_1000)) by computed.
  assert (Hs : string_in "status" ["waiting"; "confirmed"; "scheduled"] Demo.a1 = true)
    by computed.
  assert (Hf : not_true "reminderSent" Demo.a1 = true) by computed.
  refine (proj1 (scan_windows_leave_no_gap Demo.all_up Demo.fresh_world
                   (set_clock (Demo.at_0945 + timedelta_minutes 1) Demo.fresh_world)
                   Demo.a1 Demo.at_1000 eq_refl _ (or_introl eq_refl) (or_introl eq_refl)
                   Hd Hs Hf) _ _);
    unfold Z.le; repeat split; vm_compute; discriminate.
Defined.

(** ** The scan never fails *)

Section ScanTotal.
Context (E : Env).

Lemma queue_reminder_count appointment n w r w' :
  queue_reminder E appointment n w = (r, w') ->
  (exists n', r = Ok n' /\ n <= n' <= n + 1) \/ (exists e, r = Raise e).
Proof.
  unfold queue_reminder, dict_getitem, delay, try_except, bind, lift, ret.
  destruct (appointment !! "_id") as [v|].
  - destruct (task_for v appointment) as [tk|e].
    + destruct (broker_fails E tk); intros H; injection H as <- <-;
        left; eexists; (split; [reflexivity|lia]).
    + intros H; injection H as <- <-. left. eexists. split; [reflexivity|lia].
  - intros H; injection H as <- <-. right. eexists. reflexivity.
Qed.

Lemma for_each_appointment_count appointments n w r w' :
  for_each_appointment E appointments n w = (r, w') ->
  (exists n', r = Ok n' /\ n <= n' <= n + Z.of_nat (length appointments))
  \/ (exists e, r = Raise e).
Proof.
  revert n w. induction appointments as [|d ds IH]; intros n w.
  - simpl. unfold ret. intros H. injection H as <- <-. left. exists n. simpl. split; [auto|lia].
  - cbn [for_each_appointment]. unfold bind.
    destruct (queue_reminder E d n w) as [[n1|e] w1] eqn:Hq.
    + destruct (queue_reminder_count _ _ _ _ _ Hq) as [[n1' [Heq Hn1]]|[e Heq]];
        [injection Heq as <-|discriminate].
      intros H. destruct (IH _ _ H) as [[n' [-> Hn']]|[e ->]].
      * left. exists n'. split; [reflexivity|]. cbn [length]. lia.
      * right. eauto.
    + intros H. injection H as <- <-. right. eauto.
Qed.

End ScanTotal.

(** [check_and_send_reminders] always returns a summary and writes to the
    queue only.  The summary is a success with a count between zero and the
    number of candidates, or an error with a message.  When the appointment
    source is down the scan cannot be told from one that found nothing: it
    returns the success summary with count zero and changes nothing. *)
Theorem scan_always_returns_a_summary (E : Env) (w : world) :
  exists summary q,
    check_and_send_reminders E w = (Ok summary, set_queue q w)
    /\ ((exists n, summary = result_dict "success" "reminders_sent" (VInt n)
                   /\ 0 <= n <= Z.of_nat (length (candidates E w)))
        \/ (exists msg, summary = result_dict "error" "message" (VStr msg)))
    /\ (mongo_fails E OpFind = true ->
        summary = result_dict "success" "reminders_sent" (VInt 0) /\ q = queue w).
Proof.
  unfold check_and_send_reminders, try_except. unfold bind at 1.
  rewrite candidates_eq, get_appointments_for_reminder_eq.
  change (15 - 1) with 14. change (15 + 1) with 16.
  destruct (mongo_fails E OpFind).
  - exists (result_dict "success" "reminders_sent" (VInt 0)), (queue w).
    unfold ret. rewrite set_queue_same. split; [reflexivity|]. split; [|auto].
    left. exists 0. simpl. split; [reflexivity|lia].
  - destruct (List.filter _ (collection (mongodb w))) as [|d ds] eqn:Hfound.
    + exists (result_dict "success" "reminders_sent" (VInt 0)), (queue w).
      unfold ret. rewrite set_queue_same. split; [reflexivity|]. split; [|discriminate].
      left. exists 0. simpl. split; [reflexivity|lia].
    + unfold bind, ret.
      destruct (for_each_appointment E (d :: ds) 0 w) as [r w1] eqn:Hf.
      destruct (for_each_appointment_frame _ _ _ _ _ _ Hf) as [q ->].
      destruct (for_each_appointment_count _ _ _ _ _ _ Hf) as [[n [-> Hn]]|[e ->]].
      * eexists _, q. split; [reflexivity|]. split; [|discriminate].
        left. exists n. split; [reflexivity|lia].
      * eexists _, q. split; [reflexivity|]. split; [|discriminate].
        right. eexists. reflexivity.
Qed.

(** ** The manual resend *)

Section ManualResend.
Context (E : Env).

Lemma get_appointment_by_id_eq a w :
  get_appointment_by_id E a w
  = (Ok (if mongo_fails E (OpFindOne "appointments" (VStr a)) then None
         else List.find (id_is (VStr a)) (collection (mongodb w))), w).
Proof.
  unfold get_appointment_by_id, find_one, try_except, ret.
  destruct (mongo_fails E _); reflexivity.
Qed.

Lemma send_custom_reminder_eq a rtype w :
  send_custom_reminder E a rtype w
  = match (if mongo_fails E (OpFindOne "appointments" (VStr a)) then None
           else List.find (id_is (VStr a)) (collection (mongodb w))) with
    | Some d =>
        if (size d =? 0)%nat then (Ok None, w)
        else match task_for (VStr a) d with
             | Ok tk => if broker_fails E tk then (Ok None, w)
                        else (Ok (Some tk), set_queue (queue w ++ [tk]) w)
             | Raise _ => (Ok None, w)
             end
    | None => (Ok None, w)
    end.
Proof.
  unfold send_custom_reminder, try_except. unfold bind at 1.
  rewrite get_appointment_by_id_eq.
  destruct (if mongo_fails E _ then None else _) as [d|]; [|reflexivity].
  destruct (size d =? 0)%nat; [reflexivity|].
  unfold bind, lift, ret, delay.
  destruct (task_for (VStr a) d) as [tk|e]; [|reflexivity].
  destruct (broker_fails E tk); reflexivity.
Qed.

(** The manual resend queues nothing, or one call for its appointment. *)
Lemma send_custom_reminder_queue a rtype w :
  exists o,
    fst (send_custom_reminder E a rtype w) = Ok o
    /\ match o with
       | None => snd (send_custom_reminder E a rtype w) = w
       | Some tk =>
           task_appointment_id tk = a
           /\ snd (send_custom_reminder E a rtype w) = set_queue (queue w ++ [tk]) w
       end.
Proof.
  rewrite send_custom_reminder_eq.
  destruct (if mongo_fails E _ then None else _) as [d|];
    [|exists None; split; reflexivity].
  destruct (size d =? 0)%nat; [exists None; split; reflexivity|].
  destruct (task_for (VStr a) d) as [tk|e] eqn:Htk; [|exists None; split; reflexivity].
  destruct (broker_fails E tk); [exists None; split; reflexivity|].
  exists (Some tk). split; [reflexivity|]. split; [|reflexivity].
  unfold task_for in Htk. simpl in Htk.
  destruct (as_str (dict_get d "notificationEmail" (VStr EmptyString))) as [addr|e];
    simpl in Htk; [|discriminate].
  destruct (dict_getitem d "appointmentDate") as [v|e]; simpl in Htk; [|discriminate].
  destruct (as_datetime v) as [t|e]; simpl in Htk; [|discriminate].
  injection Htk as <-. reflexivity.
Qed.

End ManualResend.

(** The manual resend forces nothing.  It never raises; when the
    appointment source is down or has no appointment with the identifier it
    returns [False] and changes nothing.  And when the row of the appointment
    is in state Sent, the resend followed by a worker that drains the queue
    leaves the world as it was: no message goes to the gateway and the row is
    not written. *)
Theorem manual_resend_forces_nothing (E : Env) (w : world) (a rtype : string) :
  ledger_unique (reminder_logs w) ->
  queue w = [] ->
  ((mongo_fails E (OpFindOne "appointments" (VStr a)) = true
    \/ List.find (id_is (VStr a)) (collection (mongodb w)) = None) ->
   send_custom_reminder E a rtype w = (Ok None, w))
  /\ (is_sent a w = true ->
      exists results,
        drain_queue E (snd (send_custom_reminder E a rtype w)) = (Ok results, w)
        /\ Forall (fun b => b = true) results).
Proof.
  intros Hu Hq. split.
  - intros Hnone. rewrite send_custom_reminder_eq.
    destruct Hnone as [-> | ->]; [reflexivity|].
    destruct (mongo_fails E _); reflexivity.
  - intros Hs. destruct (send_custom_reminder_queue E a rtype w) as [o [_ Ho]].
    assert (Hw : forall q, set_queue [] (set_queue q w) = w)
      by (intros q; rewrite set_queue_twice, <- Hq; apply set_queue_same).
    destruct o as [tk|].
    + destruct Ho as [Ha ->]. unfold drain_queue. rewrite Hw, Hq.
      cbn [queue set_queue app run_tasks]. unfold bind at 1. unfold run_task.
      rewrite Ha, (attempt_on_sent E a _ _ _ w Hu Hs). unfold bind, ret.
      exists [true]. split; [reflexivity|]. repeat constructor.
    + rewrite Ho. unfold drain_queue. rewrite Hq. cbn [run_tasks]. unfold ret.
      rewrite <- Hq, set_queue_same. exists []. split; [reflexivity|constructor].
Qed.

(** The row of [a1] is Sent: the resend and the worker change nothing. *)
Lemma manual_resend_forces_nothing_witness :
  drain_queue Demo.all_up (snd (send_custom_reminder Demo.all_up "a1" "15min" Demo.sent_world))
  = (Ok [true], Demo.sent_world).
Proof.
  assert (Hu : ledger_unique (reminder_logs Demo.sent_world))
    by (split; repeat constructor; intros []).
  destruct (proj2 (manual_resend_forces_nothing Demo.all_up Demo.sent_world "a1" "15min"
                     Hu eq_refl) eq_refl) as [results [Hrun _]].
  rewrite Hrun. f_equal. f_equal.
  assert (H : fst (drain_queue Demo.all_up
                     (snd (send_custom_reminder Demo.all_up "a1" "15min" Demo.sent_world)))
              = Ok [true]) by computed.
  rewrite Hrun in H. simpl in H. now injection H.
Defined.

(** ** Sweeping twice *)

Section Sweeps.
Import ReminderLog.

Lemma filter_newer_twice c1 c2 (l : list t) :
  c1 <= c2 ->
  List.filter (fun r => negb (older_than c2 r)) (List.filter (fun r => negb (older_than c1 r)) l)
  = List.filter (fun r => negb (older_than c2 r)) l.
Proof.
  intros Hle. induction l as [|r l IH]; [reflexivity|]. simpl.
  unfold older_than in *.
  destruct (Z.ltb_spec (created_at r) c1); simpl.
  - destruct (Z.ltb_spec (created_at r) c2); [simpl; exact IH|lia].
  - destruct (Z.ltb_spec (created_at r) c2); simpl; [exact IH|now rewrite IH].
Qed.

Lemma filter_older_twice c1 c2 (l : list t) :
  c1 <= c2 ->
  (length (List.filter (older_than c1) l)
   + length (List.filter (older_than c2) (List.filter (fun r => negb (older_than c1 r)) l)))%nat
  = length (List.filter (older_than c2) l).
Proof.
  intros Hle. induction l as [|r l IH]; [reflexivity|]. simpl.
  unfold older_than in *.
  destruct (Z.ltb_spec (created_at r) c1); simpl.
  - destruct (Z.ltb_spec (created_at r) c2); [simpl; lia|lia].
  - destruct (Z.ltb_spec (created_at r) c2); simpl; lia.
Qed.

End Sweeps.

(** Sweeps compose.  A sweep followed by a sweep at a later time leaves the
    ledger a single sweep at the later time leaves, and their two counts add
    up to its count.  So a sweep run again at the same time deletes nothing;
    and a sweep keeps the constraints of the ledger and marks no appointment
    as Sent. *)
Theorem sweeps_compose (w : world) (later : Z) :
  clock w <= later ->
  exists n1 n2 : nat,
    fst (cleanup_old_reminders w)
    = Ok (result_dict "success" "deleted_count" (VInt (Z.of_nat n1)))
    /\ fst (cleanup_old_reminders (set_clock later (snd (cleanup_old_reminders w))))
       = Ok (result_dict "success" "deleted_count" (VInt (Z.of_nat n2)))
    /\ fst (cleanup_old_reminders (set_clock later w))
       = Ok (result_dict "success" "deleted_count" (VInt (Z.of_nat (n1 + n2))))
    /\ snd (cleanup_old_reminders (set_clock later (snd (cleanup_old_reminders w))))
       = snd (cleanup_old_reminders (set_clock later w))
    /\ (later = clock w -> n2 = 0%nat)
    /\ (ledger_unique (reminder_logs w) ->
        ledger_unique (reminder_logs (snd (cleanup_old_reminders w))))
    /\ (forall a, is_sent a (snd (cleanup_old_reminders w)) = true -> is_sent a w = true).
Proof.
  intros Hle. rewrite !cleanup_old_reminders_eq. simpl.
  eexists _, _. split; [reflexivity|]. split; [reflexivity|].
  assert (Hcut : clock w - timedelta_days 30 <= later - timedelta_days 30) by lia.
  split; [|split; [|split; [|split]]].
  - now rewrite (filter_older_twice _ _ (ReminderLog.rows (reminder_logs w)) Hcut).
  - unfold set_reminder_logs, set_clock. simpl.
    now rewrite (filter_newer_twice _ _ (ReminderLog.rows (reminder_logs w)) Hcut).
  - intros ->.
    pose proof (filter_older_twice _ _ (ReminderLog.rows (reminder_logs w)) Hcut).
    lia.
  - intros Hu. now apply (filter_delete_unique _ _ Hu).
  - intros a Hs. apply is_sent_true in Hs. destruct Hs as [r [Hr Hs]].
    simpl in Hr. apply List.filter_In in Hr. apply is_sent_true. exists r. tauto.
Qed.

(** A sweep of the world of 09:45, then one a day later. *)
Lemma sweeps_compose_witness :
  snd (cleanup_old_reminders
         (set_clock (Demo.at_0945 + timedelta_days 1) (snd (cleanup_old_reminders Demo.sent_world))))
  = snd (cleanup_old_reminders (set_clock (Demo.at_0945 + timedelta_days 1) Demo.sent_world)).
Proof.
  assert (Hle : clock Demo.sent_world <= Demo.at_0945 + timedelta_days 1)
    by (vm_compute; discriminate).
  destruct (sweeps_compose Demo.sent_world (Demo.at_0945 + timedelta_days 1) Hle)
    as [n1 [n2 [_ [_ [_ [H _]]]]]].
  exact H.
Defined.

(** ** A party that was not found *)

Section UnknownParty.
Context (E : Env).

Lemma render_pieces_raises kwargs expand ps name conv spec :
  In (Format.Field name conv spec) ps ->
  raised (Format.get_field_object (builtins E) kwargs name) ->
  raised (Format.render_pieces (builtins E) kwargs expand ps).
Proof.
  intros Hin Hraise. induction ps as [|p ps IH]; [destruct Hin|].
  destruct Hin as [->|Hin].
  - simpl. now apply raised_bind.
  - specialize (IH Hin). destruct p as [lit|n c s|msg]; simpl.
    + now apply raised_bind.
    + destruct (Format.get_field_object (builtins E) kwargs n) as [obj|e]; simpl;
        [|eexists; reflexivity].
      destruct (Format.do_conversion (builtins E) obj c) as [obj'|e]; simpl;
        [|eexists; reflexivity].
      destruct (if Format.has_brace s then expand s else Ok s) as [spec'|e]; simpl;
        [|eexists; reflexivity].
      destruct (py_format (builtins E) obj' spec') as [text|e]; simpl; [|eexists; reflexivity].
      now apply raised_bind.
    + eexists. reflexivity.
Qed.

(** [None] cannot be subscripted. *)
Lemma subscript_of_none kwargs name key item accessors :
  Format.field_name_split name = (key, Format.Item item :: accessors) ->
  kwargs !! key = Some VNone ->
  raised (Format.get_field_object (builtins E) kwargs name).
Proof.
  intros Hsplit Hnone. unfold Format.get_field_object. rewrite Hsplit.
  destruct key as [|c key]; [eexists; reflexivity|].
  destruct (Format.get_integer (String c key)); [eexists; reflexivity|].
  unfold dict_getitem. rewrite Hnone. simpl. apply raised_bind.
  unfold Format.getitem. destruct (Format.get_integer item); eexists; reflexivity.
Qed.

Lemma format_subscript_of_none s key kwargs :
  subscripts s key -> kwargs !! key = Some VNone ->
  raised (Format.format (builtins E) s kwargs).
Proof.
  intros [name [conv [spec [item [accessors [Hin Hsplit]]]]]] Hnone.
  unfold Format.format. simpl. eapply render_pieces_raises; [exact Hin|].
  eapply subscript_of_none; eassumption.
Qed.

Lemma render_email_subscript_of_none tk context template key :
  context !! key = Some VNone ->
  (subscripts (EmailTemplate.subject template) key
   \/ subscripts (EmailTemplate.body_text template) key
   \/ subscripts (EmailTemplate.body_html template) key) ->
  raised (render_email E tk context template).
Proof.
  intros Hnone Hs. unfold render_email.
  destruct Hs as [Hs | [Hs | Hs]];
    pose proof (format_subscript_of_none _ _ _ Hs Hnone) as Hr.
  - now apply raised_bind.
  - destruct (Format.format _ (EmailTemplate.subject template) context);
      [simpl|eexists; reflexivity]. now apply raised_bind.
  - destruct (Format.format _ (EmailTemplate.subject template) context);
      [simpl|eexists; reflexivity].
    destruct (Format.format _ (EmailTemplate.body_text template) context);
      [simpl|eexists; reflexivity]. now apply raised_bind.
Qed.

(** The context of an attempt whose requester lookup fails. *)
Lemma lookup_step_user_down tk w context ot w' :
  lookup_step E tk w = (Ok (context, ot), w') ->
  mongo_fails E (OpFindOne "users" (dict_get (task_appointment_data tk) "citizenId" VNone))
    = true ->
  context !! "user" = Some VNone.
Proof.
  unfold lookup_step, EmailTemplate_filter_first. intros H Hdown.
  assert (Hu : get_user_by_id E (dict_get (task_appointment_data tk) "citizenId" VNone) w
               = (Ok None, w)).
  { unfold get_user_by_id, find_one, try_except, ret. now rewrite Hdown. }
  destruct (get_department_by_id_total E
              (dict_get (task_appointment_data tk) "departmentId" VNone) w) as [d Hd].
  destruct (get_service_by_id_total E (dict_get (task_appointment_data tk) "serviceId" VNone) w)
    as [s Hs].
  unfold bind at 1 in H. rewrite Hu in H. unfold bind at 1 in H. rewrite Hd in H.
  unfold bind at 1 in H. rewrite Hs in H. unfold bind, gets, ret in H.
  injection H as <- _ _. unfold email_context. apply lookup_insert_eq.
Qed.

End UnknownParty.

(** The context holds [None] for a requester, a department or a service
    that was not found, and for the requester when the lookup fails.  A
    template that subscripts such an entry (as in [{user[firstName]}]) cannot
    be rendered: the attempt returns [False], hands nothing to the gateway,
    and the row stays in state Claimed. *)
Theorem unknown_party_fails_the_attempt (E : Env) (w : world) (a addr : string)
    (date : Z) (data : document) (l : ReminderLog.t) (created : bool) (w1 : world)
    (context : document) (ot : option EmailTemplate.t) (template : EmailTemplate.t)
    (w2 : world) (key : string) :
  ReminderLog_get_or_create a addr date "15min" w = (Ok (l, created), w1) ->
  negb created && ReminderLog.reminder_sent l = false ->
  lookup_step E (Task a addr date data) w1 = (Ok (context, ot), w1) ->
  resolve_template ot w1 = (Ok template, w2) ->
  (mongo_fails E (OpFindOne "users" (dict_get data "citizenId" VNone)) = true ->
   context !! "user" = Some VNone)
  /\ (context !! key = Some VNone ->
      (subscripts (EmailTemplate.subject template) key
       \/ subscripts (EmailTemplate.body_text template) key
       \/ subscripts (EmailTemplate.body_html template) key) ->
      send_reminder_email E a addr date data w = (Ok false, w2)
      /\ outbox w2 = outbox w
      /\ reminder_logs w2 = reminder_logs w1
      /\ ReminderLog.reminder_sent l = false).
Proof.
  intros Hclaim Hcond Hlook Hres. split.
  - intros Hdown. exact (lookup_step_user_down E _ _ _ _ _ Hlook Hdown).
  - intros Hnone Hs.
    pose proof (resolve_template_facts _ _ _ _ Hres) as Hw2.
    destruct (claim_facts _ _ _ _ _ _ _ Hclaim) as [Hw1 _].
    split; [|split; [|split]].
    + eapply send_fails; try eassumption. left.
      eapply render_email_subscript_of_none; eassumption.
    + unfold outbox. rewrite Hw2, Hw1. reflexivity.
    + rewrite Hw2. reflexivity.
    + eapply claim_unsent; eassumption.
Qed.

(** The appointment source is down: the plain template, which greets the
    requester by name, does not render. *)
Lemma unknown_party_fails_the_attempt_witness :
  send_reminder_email Demo.mongo_down "a1" "u@x.com" Demo.at_1000 Demo.a1 Demo.fresh_world
  = (Ok false, Demo.claimed_world).
Proof.
  assert (Hc : ReminderLog_get_or_create "a1" "u@x.com" Demo.at_1000 "15min" Demo.fresh_world
               = (Ok (Demo.claimed_row, true), Demo.claimed_world)) by computed.
  assert (Hl : lookup_step Demo.mongo_down (Task "a1" "u@x.com" Demo.at_1000 Demo.a1)
                 Demo.claimed_world
               = (Ok (email_context Demo.mongo_down None None None Demo.a1 Demo.at_1000,
                      Some Demo.plain_template), Demo.claimed_world)) by computed.
  assert (Hr : resolve_template (Some Demo.plain_template) Demo.claimed_world
               = (Ok Demo.plain_template, Demo.claimed_world)) by reflexivity.
  destruct (unknown_party_fails_the_attempt Demo.mongo_down Demo.fresh_world "a1" "u@x.com"
              Demo.at_1000 Demo.a1 Demo.claimed_row true Demo.claimed_world _ _ _ _ "user"
              Hc eq_refl Hl Hr) as [Hdown Hfail].
  refine (proj1 (Hfail (Hdown eq_refl) _)).
  right. left. exists "user[firstName]", None, EmptyString, "firstName", [].
  split; [|computed].
  assert (H : nth_error (Format.parse (EmailTemplate.body_text Demo.plain_template)) 1
              = Some (Format.Field "user[firstName]" None EmptyString)) by computed.
  eapply nth_error_In. exact H.
Defined.

(** ** Two calls that overlap *)

Section Overlap.
Context (E : Env).

Lemma exec_run i wk workers w p' w' :
  workers !! i = Some wk ->
  advance E (worker_task wk) (worker_pc wk) w = (p', w') ->
  exec E (Run i) (w, workers) = (w', <[i := Worker (worker_task wk) p']> workers).
Proof. intros Hi Ha. simpl. rewrite Hi, Ha. reflexivity. Qed.

Lemma is_sent_row a w r :
  In r (ReminderLog.rows (reminder_logs w)) -> ReminderLog.appointment_id r = a ->
  ReminderLog.reminder_sent r = true -> is_sent a w = true.
Proof. intros. apply is_sent_true. exists r. auto. Qed.

Lemma in_replaced l saved rows :
  ReminderLog.id saved = ReminderLog.id l -> In l rows ->
  In saved (map (replace_row l saved) rows).
Proof.
  intros Hid Hin. apply in_map_iff. exists l. split; [|assumption].
  unfold replace_row. now rewrite (proj2 (has_id_true _ _) eq_refl).
Qed.

End Overlap.

(** Two calls for one appointment that overlap, their steps taken in turn
    (with time passing before the second save).  The first claim creates the
    row or reads it in state Claimed, the second reads it in state Claimed;
    when the template renders and the gateway accepts the message, both
    calls hand the message over, both save the row as Sent and both return
    [True]: the requester gets two messages, while the row goes to Sent
    once. *)
Theorem overlapping_attempts_dispatch_twice (E : Env) (w : world) (tk : task)
    (l : ReminderLog.t) (created : bool) (w1 : world) (context : document)
    (template : EmailTemplate.t) (m : email) :
  ledger_unique (reminder_logs w) ->
  ReminderLog_get_or_create (task_appointment_id tk) (task_user_email tk)
    (task_appointment_date tk) "15min" w = (Ok (l, created), w1) ->
  negb created && ReminderLog.reminder_sent l = false ->
  lookup_step E tk w1 = (Ok (context, Some template), w1) ->
  render_email E tk context template = Ok m ->
  smtp_fails E m = false ->
  let after := run E Demo.in_turn (w, spawn [tk; tk]) in
  map worker_pc (snd after) = [Returned true; Returned true]
  /\ outbox (fst after) = outbox w ++ [m; m]
  /\ is_sent (task_appointment_id tk) (fst after) = true
  /\ transitions_to_sent E (task_appointment_id tk) Demo.in_turn (w, spawn [tk; tk]) = 1%nat.
Proof.
  intros Hu Hclaim Hcond Hlook Hren Hsmtp.
  set (a := task_appointment_id tk) in *.
  destruct (claim_facts _ _ _ _ _ _ _ Hclaim) as [Hw1 [Hin [Ha _]]].
  pose proof (claim_world_unique _ _ _ _ _ _ Hu Hclaim) as Hu1.
  pose proof (claim_unsent _ _ _ _ _ _ _ Hclaim Hcond) as Hunsent.
  destruct (claim_unsent_not_sent _ _ _ _ _ _ _ Hu Hclaim Hcond) as [Hs0 Hs1].
  (* the two claims *)
  assert (H1 : exec E (Run 0) (w, spawn [tk; tk])
               = (w1, [Worker tk (AtLookup l); Worker tk AtClaim])).
  { rewrite (exec_run E 0 (Worker tk AtClaim) _ w (AtLookup l) w1); [reflexivity..|].
    cbn [advance worker_task worker_pc]. fold a. now rewrite Hclaim, Hcond. }
  assert (H2 : exec E (Run 1) (w1, [Worker tk (AtLookup l); Worker tk AtClaim])
               = (w1, [Worker tk (AtLookup l); Worker tk (AtLookup l)])).
  { rewrite (exec_run E 1 (Worker tk AtClaim) _ w1 (AtLookup l) w1); [reflexivity..|].
    cbn [advance worker_task worker_pc]. fold a. rewrite <- Ha.
    rewrite (claim_existing w1 l _ _ Hu1 Hin). simpl. now rewrite Hunsent. }
  (* the lookups *)
  assert (H3 : exec E (Run 0) (w1, [Worker tk (AtLookup l); Worker tk (AtLookup l)])
               = (w1, [Worker tk (AtSend l context template); Worker tk (AtLookup l)])).
  { rewrite (exec_run E 0 (Worker tk (AtLookup l)) _ w1 (AtSend l context template) w1);
      [reflexivity..|].
    cbn [advance worker_task worker_pc]. now rewrite Hlook. }
  assert (H4 : exec E (Run 1)
                 (w1, [Worker tk (AtSend l context template); Worker tk (AtLookup l)])
               = (w1, [Worker tk (AtSend l context template);
                       Worker tk (AtSend l context template)])).
  { rewrite (exec_run E 1 (Worker tk (AtLookup l)) _ w1 (AtSend l context template) w1);
      [reflexivity..|].
    cbn [advance worker_task worker_pc]. now rewrite Hlook. }
  (* both hand the message over *)
  set (w5 := log_event (EvSendMail m) w1).
  set (w6 := log_event (EvSendMail m) w5).
  assert (H5 : exec E (Run 0)
                 (w1, [Worker tk (AtSend l context template);
                       Worker tk (AtSend l context template)])
               = (w5, [Worker tk (AtSave l); Worker tk (AtSend l context template)])).
  { rewrite (exec_run E 0 (Worker tk (AtSend l context template)) _ w1 (AtSave l) w5);
      [reflexivity..|].
    cbn [advance worker_task worker_pc]. now rewrite send_step_eq, Hren, Hsmtp. }
  assert (H6 : exec E (Run 1)
                 (w5, [Worker tk (AtSave l); Worker tk (AtSend l context template)])
               = (w6, [Worker tk (AtSave l); Worker tk (AtSave l)])).
  { rewrite (exec_run E 1 (Worker tk (AtSend l context template)) _ w5 (AtSave l) w6);
      [reflexivity..|].
    cbn [advance worker_task worker_pc]. now rewrite send_step_eq, Hren, Hsmtp. }
  (* the first save *)
  set (saved0 := ReminderLog.touch (mark_sent l (clock w1)) (clock w1)).
  set (tb7 := ReminderLog.Table (map (replace_row l saved0) (ReminderLog.rows (reminder_logs w1)))
                (ReminderLog.next_id (reminder_logs w1))).
  set (w7 := log_event (EvLedgerSave saved0) (set_reminder_logs tb7 w6)).
  assert (Hsave0 : ReminderLog.save (mark_sent l (clock w1)) (clock w1) (reminder_logs w1)
                   = Ok (saved0, tb7)).
  { apply save_read_row; [assumption|]. exists l. auto. }
  assert (H7 : exec E (Run 0) (w6, [Worker tk (AtSave l); Worker tk (AtSave l)])
               = (w7, [Worker tk AtMark; Worker tk (AtSave l)])).
  { rewrite (exec_run E 0 (Worker tk (AtSave l)) _ w6 AtMark w7); [reflexivity..|].
    cbn [advance worker_task worker_pc]. rewrite save_step_eq.
    change (clock w6) with (clock w1). change (reminder_logs w6) with (reminder_logs w1).
    now rewrite Hsave0. }
  assert (Hu7 : ledger_unique tb7) by (eapply save_unique; eassumption).
  assert (Hin7 : In saved0 (ReminderLog.rows tb7)) by (now apply in_replaced).
  (* time passes, then the second save *)
  set (w8 := set_clock (clock w7 + 5000000) w7).
  assert (H8 : exec E (Tick 5000000) (w7, [Worker tk AtMark; Worker tk (AtSave l)])
               = (w8, [Worker tk AtMark; Worker tk (AtSave l)])) by reflexivity.
  set (saved1 := ReminderLog.touch (mark_sent l (clock w8)) (clock w8)).
  set (tb9 := ReminderLog.Table (map (replace_row l saved1) (ReminderLog.rows tb7))
                (ReminderLog.next_id tb7)).
  set (w9 := log_event (EvLedgerSave saved1) (set_reminder_logs tb9 w8)).
  assert (Hsave1 : ReminderLog.save (mark_sent l (clock w8)) (clock w8) tb7
                   = Ok (saved1, tb9)).
  { apply save_read_row; [assumption|]. exists saved0. auto. }
  assert (H9 : exec E (Run 1) (w8, [Worker tk AtMark; Worker tk (AtSave l)])
               = (w9, [Worker tk AtMark; Worker tk AtMark])).
  { rewrite (exec_run E 1 (Worker tk (AtSave l)) _ w8 AtMark w9); [reflexivity..|].
    cbn [advance worker_task worker_pc]. rewrite save_step_eq.
    change (reminder_logs w8) with tb7. now rewrite Hsave1. }
  assert (Hin9 : In saved1 (ReminderLog.rows tb9)).
  { apply in_map_iff. exists saved0. split; [|assumption]. unfold replace_row.
    now rewrite (proj2 (has_id_true (ReminderLog.id l) saved0) eq_refl). }
  (* the two updates of the appointment *)
  destruct (mark_reminder_sent_cases E a w9) as [b10 [o10 [db10 [Hmark10 _]]]].
  set (w10 := log_event (EvMongoUpdate a o10) (set_mongodb db10 w9)) in *.
  destruct (mark_reminder_sent_cases E a w10) as [b11 [o11 [db11 [Hmark11 _]]]].
  set (w11 := log_event (EvMongoUpdate a o11) (set_mongodb db11 w10)) in *.
  assert (H10 : exec E (Run 0) (w9, [Worker tk AtMark; Worker tk AtMark])
                = (w10, [Worker tk (Returned true); Worker tk AtMark])).
  { rewrite (exec_run E 0 (Worker tk AtMark) _ w9 (Returned true) w10); [reflexivity..|].
    cbn [advance worker_task worker_pc]. fold a. now rewrite Hmark10. }
  assert (H11 : exec E (Run 1) (w10, [Worker tk (Returned true); Worker tk AtMark])
                = (w11, [Worker tk (Returned true); Worker tk (Returned true)])).
  { rewrite (exec_run E 1 (Worker tk AtMark) _ w10 (Returned true) w11); [reflexivity..|].
    cbn [advance worker_task worker_pc]. fold a. now rewrite Hmark11. }
  (* the row is Sent from the first save on *)
  assert (Ha0 : ReminderLog.appointment_id saved0 = a) by exact Ha.
  assert (Ha1 : ReminderLog.appointment_id saved1 = a) by exact Ha.
  assert (Hs5 : is_sent a w5 = false) by exact Hs1.
  assert (Hs6 : is_sent a w6 = false) by exact Hs1.
  assert (Hs7 : is_sent a w7 = true) by (now apply (is_sent_row a w7 saved0)).
  assert (Hs8 : is_sent a w8 = true) by exact Hs7.
  assert (Hs9 : is_sent a w9 = true) by (now apply (is_sent_row a w9 saved1)).
  assert (Hs10 : is_sent a w10 = true) by exact Hs9.
  assert (Hs11 : is_sent a w11 = true) by exact Hs9.
  assert (Hrun : run E Demo.in_turn (w, spawn [tk; tk])
                 = (w11, [Worker tk (Returned true); Worker tk (Returned true)])).
  { unfold Demo.in_turn. cbn [run].
    now rewrite H1, H2, H3, H4, H5, H6, H7, H8, H9, H10, H11. }
  cbv zeta. rewrite Hrun. cbn [fst snd]. split; [reflexivity|]. split; [|split].
  - unfold outbox. cbn [trace w11 w10 w9 w8 w7 w6 w5 log_event set_mongodb set_reminder_logs
                        set_clock].
    rewrite Hw1. cbn [trace set_reminder_logs]. rewrite !omap_app. simpl.
    rewrite !app_nil_r, <- app_assoc. reflexivity.
  - exact Hs11.
  - unfold Demo.in_turn. cbn [transitions_to_sent].
    rewrite H1, H2, H3, H4, H5, H6, H7, H8, H9, H10, H11. cbn [fst].
    now rewrite Hs0, Hs1, Hs5, Hs6, Hs7, Hs8, Hs9, Hs10, Hs11.
Qed.

(** The two calls for [a1]. *)
Lemma overlapping_attempts_dispatch_twice_witness :
  outbox (fst (run Demo.all_up Demo.in_turn
                 (Demo.fresh_world, spawn [Demo.task_a1; Demo.task_a1])))
  = [Demo.mail_a1; Demo.mail_a1].
Proof.
  assert (Hu : ledger_unique (reminder_logs Demo.fresh_world)) by (split; constructor).
  assert (Hc : ReminderLog_get_or_create "a1" "u@x.com" Demo.at_1000 "15min" Demo.fresh_world
               = (Ok (Demo.claimed_row, true), Demo.claimed_world)) by computed.
  assert (Hl : lookup_step Demo.all_up Demo.task_a1 Demo.claimed_world
               = (Ok (Demo.context_a1, Some Demo.plain_template), Demo.claimed_world))
    by computed.
  assert (Hm : render_email Demo.all_up Demo.task_a1 Demo.context_a1 Demo.plain_template
               = Ok Demo.mail_a1) by computed.
  exact (proj1 (proj2 (overlapping_attempts_dispatch_twice Demo.all_up Demo.fresh_world
                         Demo.task_a1 Demo.claimed_row true Demo.claimed_world
                         Demo.context_a1 Demo.plain_template Demo.mail_a1
                         Hu Hc eq_refl Hl Hm eq_refl))).
Defined.

(** ** The setup command *)

Section SettingsFacts.
Import SystemSettings.

Lemma has_key_true k r : has_key k r = true <-> key r = k.
Proof. unfold has_key. apply String.eqb_eq. Qed.

Lemma settings_filter_unique rs r :
  List.NoDup (map key rs) -> In r rs -> List.filter (has_key (key r)) rs = [r].
Proof.
  induction rs as [|y rs IH]; intros Hnd Hin; [destruct Hin|].
  simpl in Hnd. inversion Hnd as [|? ? Hy Hnd']; subst.
  simpl. destruct Hin as [->|Hin].
  - rewrite (proj2 (has_key_true _ _) eq_refl). f_equal.
    apply filter_key_none. intros x Hx.
    destruct (has_key (key r) x) eqn:Hx'; [|reflexivity].
    apply has_key_true in Hx'. exfalso. apply Hy. rewrite <- Hx'. now apply in_map.
  - destruct (has_key (key r) y) eqn:Hy'.
    + apply has_key_true in Hy'. exfalso. apply Hy. rewrite Hy'. now apply in_map.
    + now apply IH.
Qed.

(** Within the constraints of the table [get_or_create] does not raise: it
    returns the row that has the key, or inserts one with the defaults. *)
Lemma settings_get_or_create_cases k v d now tb :
  settings_unique tb ->
  (exists r, In r (rows tb) /\ key r = k
             /\ get_or_create k v d now tb = (Ok (r, false), tb))
  \/ (existsb (has_key k) (rows tb) = false
      /\ get_or_create k v d now tb
         = (Ok (mk (next_id tb) k v d now now, true),
            Table (rows tb ++ [mk (next_id tb) k v d now now]) (S (next_id tb)))).
Proof.
  intros [Hid [Hkey Hlt]]. unfold get_or_create, get.
  destruct (existsb (has_key k) (rows tb)) eqn:Hex.
  - left. apply existsb_exists in Hex. destruct Hex as [r [Hr Hk]].
    apply has_key_true in Hk. subst k. exists r.
    rewrite (settings_filter_unique _ _ Hkey Hr). auto.
  - right. split; [reflexivity|].
    rewrite (filter_key_none (has_key k) (rows tb)) by (now apply existsb_false).
    unfold create. cbn [id]. rewrite Hex.
    assert (Hfresh : existsb (has_id (next_id tb)) (rows tb) = false).
    { apply existsb_false. intros r Hr. unfold has_id.
      apply Nat.eqb_neq. specialize (Hlt r Hr). lia. }
    now rewrite Hfresh.
Qed.

Lemma settings_unique_snoc tb r :
  settings_unique tb -> id r = next_id tb -> existsb (has_key (key r)) (rows tb) = false ->
  settings_unique (Table (rows tb ++ [r]) (S (next_id tb))).
Proof.
  intros [Hid [Hkey Hlt]] Hr Hfree. split; [|split]; simpl.
  - apply NoDup_map_snoc; [assumption|]. intros y Hy. specialize (Hlt y Hy). lia.
  - apply NoDup_map_snoc; [assumption|]. intros y Hy Heq.
    rewrite existsb_false in Hfree. specialize (Hfree y Hy).
    apply Bool.not_true_iff_false in Hfree. apply Hfree. now apply has_key_true.
  - intros x Hx. rewrite in_app_iff in Hx. destruct Hx as [Hx|[<-|[]]].
    + specialize (Hlt x Hx). lia.
    + lia.
Qed.

End SettingsFacts.

Section Setup.

(** One default setting: the row with its key is kept as it is, or a row
    with the default value is added. *)
Lemma create_setting_spec k v d s :
  settings_unique (system_settings s) ->
  exists s',
    create_setting (k, v, d) s = (Ok tt, s')
    /\ site_world s' = site_world s
    /\ settings_unique (system_settings s')
    /\ (forall r, In r (SystemSettings.rows (system_settings s)) ->
                  In r (SystemSettings.rows (system_settings s')))
    /\ existsb (SystemSettings.has_key k) (SystemSettings.rows (system_settings s')) = true
    /\ (existsb (SystemSettings.has_key k) (SystemSettings.rows (system_settings s)) = true ->
        system_settings s' = system_settings s)
    /\ (forall r, In r (SystemSettings.rows (system_settings s')) ->
          In r (SystemSettings.rows (system_settings s))
          \/ (SystemSettings.key r = k /\ SystemSettings.value r = v
              /\ SystemSettings.description r = d)).
Proof.
  intros Hu. unfold create_setting.
  destruct (settings_get_or_create_cases k v d (clock (site_world s)) (system_settings s) Hu)
    as [[r [Hr [Hk ->]]]|[Hfree ->]].
  - eexists. split; [reflexivity|]. simpl. split; [reflexivity|]. split; [exact Hu|].
    split; [auto|]. split; [|split; [reflexivity|auto]].
    apply existsb_exists. exists r. split; [assumption|]. now apply has_key_true.
  - eexists. split; [reflexivity|]. simpl. split; [reflexivity|].
    split; [now apply settings_unique_snoc|].
    split; [intros r Hr; rewrite in_app_iff; now left|]. split; [|split].
    + rewrite existsb_app. simpl. rewrite (proj2 (has_key_true k _)) by reflexivity.
      apply orb_true_iff. right. reflexivity.
    + rewrite Hfree. discriminate.
    + intros r Hr. rewrite in_app_iff in Hr. destruct Hr as [Hr|[<-|[]]]; auto.
Qed.

Lemma existsb_mono {A} (p : A -> bool) (l l' : list A) :
  (forall x, In x l -> In x l') -> existsb p l = true -> existsb p l' = true.
Proof.
  intros Hsub H. apply existsb_exists in H. destruct H as [x [Hx Hp]].
  apply existsb_exists. exists x. auto.
Qed.

Lemma create_settings_spec entries s :
  settings_unique (system_settings s) ->
  exists s',
    create_settings entries s = (Ok tt, s')
    /\ site_world s' = site_world s
    /\ settings_unique (system_settings s')
    /\ (forall r, In r (SystemSettings.rows (system_settings s)) ->
                  In r (SystemSettings.rows (system_settings s')))
    /\ (forall k v d, In (k, v, d) entries ->
          existsb (SystemSettings.has_key k) (SystemSettings.rows (system_settings s')) = true)
    /\ ((forall k v d, In (k, v, d) entries ->
           existsb (SystemSettings.has_key k) (SystemSettings.rows (system_settings s)) = true) ->
        system_settings s' = system_settings s)
    /\ (forall r, In r (SystemSettings.rows (system_settings s')) ->
          In r (SystemSettings.rows (system_settings s))
          \/ In (SystemSettings.key r, SystemSettings.value r, SystemSettings.description r)
                entries).
Proof.
  revert s. induction entries as [|[[k v] d] rest IH]; intros s Hu.
  - exists s. simpl. split; [reflexivity|]. split; [reflexivity|]. split; [exact Hu|].
    split; [auto|]. split; [intros k v d []|]. split; auto.
  - destruct (create_setting_spec k v d s Hu) as [s1 [H1 [Hw1 [Hu1 [Hkeep1 [Hhas1 [Hsame1 Hnew1]]]]]]].
    destruct (IH s1 Hu1) as [s' [H2 [Hw2 [Hu2 [Hkeep2 [Hhas2 [Hsame2 Hnew2]]]]]]].
    exists s'. cbn [create_settings]. rewrite H1. split; [exact H2|].
    split; [congruence|]. split; [exact Hu2|]. split; [auto|]. split; [|split].
    + intros k' v' d' [Heq|Hin].
      * injection Heq as <- <- <-. eapply existsb_mono; [exact Hkeep2|exact Hhas1].
      * eapply Hhas2. exact Hin.
    + intros Hall.
      assert (Hs1 : system_settings s1 = system_settings s)
        by (apply Hsame1; eapply Hall; now left).
      rewrite <- Hs1. apply Hsame2. intros k' v' d' Hin. rewrite Hs1.
      eapply Hall. right. exact Hin.
    + intros r Hr. destruct (Hnew2 r Hr) as [Hr1|Hin]; [|right; now right].
      destruct (Hnew1 r Hr1) as [Hr0|[<- [<- <-]]]; [now left|right; now left].
Qed.

Lemma setup_template_spec s :
  templates_unique (email_templates (site_world s)) ->
  exists s',
    setup_template s = (Ok tt, s')
    /\ system_settings s' = system_settings s
    /\ site_world s' = set_email_templates (email_templates (site_world s')) (site_world s)
    /\ templates_unique (email_templates (site_world s'))
    /\ EmailTemplate.filter_exists "15min" true (email_templates (site_world s')) = true
    /\ (EmailTemplate.filter_exists "15min" true (email_templates (site_world s)) = true ->
        site_world s' = site_world s)
    /\ (forall t, In t (EmailTemplate.rows (email_templates (site_world s))) ->
                  In t (EmailTemplate.rows (email_templates (site_world s')))).
Proof.
  intros Hu. unfold setup_template.
  destruct (EmailTemplate.filter_exists "15min" true (email_templates (site_world s))) eqn:Hex.
  - eexists. split; [reflexivity|]. simpl. split; [reflexivity|].
    split; [now destruct (site_world s)|]. auto.
  - cbn [negb site_world stdout_write]. unfold create_default_email_template.
    pose proof (create_free "Default 15-Minute Reminder" default_subject default_body_html
                  default_body_text "15min" true (clock (site_world s)) _ Hu Hex) as Hc.
    rewrite Hc. eexists. split; [reflexivity|]. simpl. split; [reflexivity|].
    split; [reflexivity|].
    split; [exact (create_unique _ _ _ _ _ _ _ _ _ _ Hu Hc)|]. split; [|split].
    + unfold EmailTemplate.filter_exists. simpl. rewrite existsb_app. simpl.
      apply orb_true_r.
    + discriminate.
    + intros t Ht. rewrite in_app_iff. now left.
Qed.

End Setup.

(** The setup command can be run again.  Within the constraints of the two
    tables it does not fail.  It leaves an active template of type [15min]
    and a row for each of the four default settings; it keeps every template
    and every setting that exists as it is (a value an operator has changed
    is not put back to the default), and what it adds comes from the
    defaults.  Run a second time it writes to no table. *)
Theorem setup_can_be_run_again (s : site) :
  templates_unique (email_templates (site_world s)) ->
  settings_unique (system_settings s) ->
  exists s1 s2,
    handle s = (Ok tt, s1)
    /\ handle s1 = (Ok tt, s2)
    /\ site_world s2 = site_world s1
    /\ system_settings s2 = system_settings s1
    /\ site_world s1 = set_email_templates (email_templates (site_world s1)) (site_world s)
    /\ EmailTemplate.filter_exists "15min" true (email_templates (site_world s1)) = true
    /\ (forall t, In t (EmailTemplate.rows (email_templates (site_world s))) ->
                  In t (EmailTemplate.rows (email_templates (site_world s1))))
    /\ (forall r, In r (SystemSettings.rows (system_settings s)) ->
                  In r (SystemSettings.rows (system_settings s1)))
    /\ (forall k v d, In (k, v, d) default_settings ->
          exists r, SystemSettings.get k (system_settings s1) = Ok r)
    /\ (forall r, In r (SystemSettings.rows (system_settings s1)) ->
          In r (SystemSettings.rows (system_settings s))
          \/ In (SystemSettings.key r, SystemSettings.value r, SystemSettings.description r)
                default_settings)
    /\ templates_unique (email_templates (site_world s1))
    /\ settings_unique (system_settings s1).
Proof.
  intros Hut Hus.
  assert (Hrun : forall s0,
            templates_unique (email_templates (site_world s0)) ->
            settings_unique (system_settings s0) ->
            exists sa sb,
              setup_template (stdout_write (Plain "Setting up reminder service...") s0)
              = (Ok tt, sa)
              /\ create_settings default_settings sa = (Ok tt, sb)
              /\ handle s0
                 = (Ok tt, stdout_write
                             (Success "Reminder service setup completed successfully!") sb)).
  { intros s0 Ht Hs.
    destruct (setup_template_spec
                (stdout_write (Plain "Setting up reminder service...") s0) Ht)
      as [sa [Ha [Hsa _]]].
    assert (Hs' : settings_unique (system_settings sa)) by (rewrite Hsa; exact Hs).
    destruct (create_settings_spec default_settings sa Hs') as [sb [Hb _]].
    exists sa, sb. split; [exact Ha|]. split; [exact Hb|].
    unfold handle. now rewrite Ha, Hb. }
  destruct (Hrun s Hut Hus) as [sa [sb [Ha [Hb Hh]]]].
  destruct (setup_template_spec (stdout_write (Plain "Setting up reminder service...") s) Hut)
    as [sa' [Ha' [Hsa [Hwa [Huta [Hexa [_ Hkeepa]]]]]]].
  rewrite Ha in Ha'. injection Ha' as <-.
  assert (Husa : settings_unique (system_settings sa)) by (rewrite Hsa; exact Hus).
  destruct (create_settings_spec default_settings sa Husa)
    as [sb' [Hb' [Hwb [Husb [Hkeepb [Hhasb [_ Hnewb]]]]]]].
  rewrite Hb in Hb'. injection Hb' as <-.
  set (s1 := stdout_write (Success "Reminder service setup completed successfully!") sb) in *.
  assert (Hut1 : templates_unique (email_templates (site_world s1)))
    by (simpl; rewrite Hwb; exact Huta).
  assert (Hus1 : settings_unique (system_settings s1)) by exact Husb.
  destruct (Hrun s1 Hut1 Hus1) as [sc [sd [Hc [Hd Hh1]]]].
  destruct (setup_template_spec (stdout_write (Plain "Setting up reminder service...") s1) Hut1)
    as [sc' [Hc' [Hsc [_ [_ [_ [Hsamec _]]]]]]].
  rewrite Hc in Hc'. injection Hc' as <-.
  assert (Husc : settings_unique (system_settings sc)) by (rewrite Hsc; exact Hus1).
  destruct (create_settings_spec default_settings sc Husc)
    as [sd' [Hd' [Hwd [_ [_ [_ [Hsamed _]]]]]]].
  rewrite Hd in Hd'. injection Hd' as <-.
  exists s1, (stdout_write (Success "Reminder service setup completed successfully!") sd).
  split; [exact Hh|]. split; [exact Hh1|].
  assert (Hex1 : EmailTemplate.filter_exists "15min" true (email_templates (site_world s1))
                 = true) by (simpl; rewrite Hwb; exact Hexa).
  split; [simpl; rewrite Hwd; now apply Hsamec|]. split.
  { simpl. rewrite Hsamed; [exact Hsc|]. intros k v d Hin. rewrite Hsc. simpl.
    eapply Hhasb. exact Hin. }
  split; [simpl; rewrite Hwb; exact Hwa|]. split; [exact Hex1|].
  split; [intros t Ht; simpl; rewrite Hwb; now apply Hkeepa|].
  split; [intros r Hr; simpl; apply Hkeepb; rewrite Hsa; exact Hr|]. split.
  { intros k v d Hin. specialize (Hhasb k v d Hin). apply existsb_exists in Hhasb.
    destruct Hhasb as [r [Hr Hk]]. apply has_key_true in Hk. subst k. exists r.
    unfold SystemSettings.get. simpl.
    now rewrite (settings_filter_unique _ _ (proj1 (proj2 Husb)) Hr). }
  split; [|split; assumption].
  intros r Hr. simpl in Hr. destruct (Hnewb r Hr) as [Hr0|Hin]; [left|now right].
  rewrite Hsa in Hr0. exact Hr0.
Qed.

(** The command on a site where an operator has changed a setting: the
    changed row is kept. *)
Lemma setup_can_be_run_again_witness :
  exists s1 s2,
    handle Demo.site_0945 = (Ok tt, s1)
    /\ handle s1 = (Ok tt, s2)
    /\ system_settings s2 = system_settings s1
    /\ In Demo.changed_setting (SystemSettings.rows (system_settings s1)).
Proof.
  assert (Hut : templates_unique (email_templates (site_world Demo.site_0945))).
  { split; [constructor|]. split; [constructor|]. intros r []. }
  assert (Hus : settings_unique (system_settings Demo.site_0945)).
  { split; [repeat constructor; intros []|]. split; [repeat constructor; intros []|].
    intros r [<-|[]]. simpl. lia. }
  destruct (setup_can_be_run_again Demo.site_0945 Hut Hus)
    as [s1 [s2 [H1 [H2 [_ [H3 [_ [_ [_ [H4 _]]]]]]]]]].
  exists s1, s2. split; [exact H1|]. split; [exact H2|]. split; [exact H3|].
  apply H4. now left.
Defined.

(** ** The two stores *)

Section Flags.
Context (E : Env).

Lemma in_update_first (p : document -> bool) f c l x :
  In x (fst (update_first p f c l)) ->
  In x l \/ exists d, In d l /\ p d = true /\ x = f d.
Proof.
  induction l as [|y l IH]; simpl; [tauto|].
  destruct (p y) eqn:Hy; simpl.
  - intros [<-|Hin]; [right; exists y; auto|left; now right].
  - destruct (update_first p f c l) as [l' modified]. simpl in *.
    intros [<-|Hin]; [left; now left|].
    destruct (IH Hin) as [Hl|[d [Hd [Hp Hx]]]]; [left; now right|].
    right. exists d. auto.
Qed.

Lemma flag_frame w w' :
  flag_implies_sent w -> mongodb w' = mongodb w ->
  ledger_grows (reminder_logs w) (reminder_logs w') -> flag_implies_sent w'.
Proof.
  intros Hf Hdb Hg d a Hd Hid Hflag. rewrite Hdb in Hd.
  eapply is_sent_grows; [exact Hg|]. eapply Hf; eassumption.
Qed.

(** Setting the flag of an appointment whose row is Sent. *)
Lemma mark_keeps_flags a w :
  flag_implies_sent w -> is_sent a w = true ->
  flag_implies_sent (snd (mark_reminder_sent E a w)).
Proof.
  intros Hf Hs. rewrite mark_reminder_sent_eq.
  destruct (mongo_fails E (OpUpdateOne a)); [exact Hf|].
  intros d a' Hd Hid Hflag. simpl in Hd.
  change (is_sent a' w = true).
  apply in_update_first in Hd. destruct Hd as [Hd|[d0 [Hd0 [Hp ->]]]].
  - eapply Hf; eassumption.
  - rewrite (proj2 (proj2 (set_reminder_sent_flag (clock w) d0))) in Hid by discriminate.
    unfold id_is in Hp. rewrite Hid in Hp. apply String.eqb_eq in Hp. now subst a'.
Qed.

Lemma worker_ok_grows w w' wk :
  ledger_grows (reminder_logs w) (reminder_logs w') -> worker_ok w wk -> worker_ok w' wk.
Proof.
  intros Hg [Hl Hm]. split; [exact Hl|]. intros Hpc.
  eapply is_sent_grows; [exact Hg|]. now apply Hm.
Qed.

(** One step of a worker keeps the flags behind the ledger. *)
Lemma advance_flags tk p w p' w' :
  advance E tk p w = (p', w') ->
  ledger_unique (reminder_logs w) ->
  (forall l, local_log p = Some l -> backed (reminder_logs w) l) ->
  flag_implies_sent w -> worker_ok w (Worker tk p) ->
  flag_implies_sent w' /\ worker_ok w' (Worker tk p').
Proof.
  intros Hadv Hu Hb Hf [Hl Hm]. cbn [worker_pc worker_task] in Hl, Hm.
  destruct (advance_ledger E _ _ _ _ _ Hadv Hu Hb) as [Hu' [Hg _]].
  assert (Hquiet : forall q, mongodb w' = mongodb w ->
            (forall l, local_log q = Some l -> local_log p = Some l) -> q <> AtMark ->
            flag_implies_sent w' /\ worker_ok w' (Worker tk q)).
  { intros q Hdb Hq Hne. split; [eapply flag_frame; eassumption|].
    split; cbn [worker_pc worker_task]; [auto|]. intros ->. now contradiction Hne. }
  destruct p as [|l|l ctx|l ctx tp|l| |b]; simpl in Hadv.
  - (* claim *)
    destruct (ReminderLog_get_or_create _ _ _ _ w) as [[[l c]|e] w1] eqn:Hclaim.
    + destruct (claim_facts _ _ _ _ _ _ _ Hclaim) as [Hw1 [_ [Ha _]]].
      injection Hadv as <- <-.
      split; [eapply flag_frame; [eassumption|now rewrite Hw1|assumption]|].
      split; cbn [worker_pc worker_task].
      * intros l0 Hl0. destruct (negb c && ReminderLog.reminder_sent l); [discriminate|].
        injection Hl0 as <-. exact Ha.
      * destruct (negb c && ReminderLog.reminder_sent l); discriminate.
    + injection Hadv as <- <-. apply Hquiet; [|discriminate|discriminate].
      unfold ReminderLog_get_or_create in Hclaim.
      destruct (ReminderLog.get_or_create _ _ _ _ _ _) as [r tb].
      now injection Hclaim as _ <-.
  - (* lookups *)
    destruct (lookup_step_total E tk w) as [ctx Hlook]. rewrite Hlook in Hadv.
    destruct (EmailTemplate.filter_first _ _ _); injection Hadv as <- <-;
      apply Hquiet; auto; discriminate.
  - (* default template *)
    destruct (create_default_cases w) as [[tp [tb [Heq _]]]|[e Heq]];
      rewrite Heq in Hadv; injection Hadv as <- <-; apply Hquiet; auto; discriminate.
  - (* render and send *)
    rewrite send_step_eq in Hadv.
    destruct (render_email E tk ctx tp) as [m|e]; [destruct (smtp_fails E m)|];
      injection Hadv as <- <-; apply Hquiet; auto; discriminate.
  - (* save *)
    rewrite save_step_eq in Hadv.
    assert (Hbl : backed (reminder_logs w) (mark_sent l (clock w))).
    { destruct (Hb l eq_refl) as [r [Hr [Hid Ha]]]. exists r. auto. }
    rewrite (save_read_row _ _ _ Hu Hbl) in Hadv. injection Hadv as <- <-.
    split; [eapply flag_frame; [eassumption|reflexivity|assumption]|].
    split; cbn [worker_pc worker_task local_log]; [discriminate|]. intros _.
    destruct Hbl as [r [Hr [Hid Ha]]].
    apply (is_sent_row _ _ (ReminderLog.touch (mark_sent l (clock w)) (clock w))).
    + simpl. apply in_map_iff. exists r. split; [|assumption]. unfold replace_row.
      now rewrite (proj2 (has_id_true _ _) Hid).
    + simpl. now apply Hl.
    + reflexivity.
  - (* mark in MongoDB *)
    pose proof (mark_keeps_flags (task_appointment_id tk) w Hf (Hm eq_refl)) as Hf'.
    destruct (mark_reminder_sent E (task_appointment_id tk) w) as [[b|e] w1];
      injection Hadv as <- <-; (split; [exact Hf'|]);
      split; cbn [worker_pc worker_task local_log]; discriminate.
  - injection Hadv as <- <-. split; [assumption|]. split; [auto|discriminate].
Qed.

Lemma Forall_list_insert {A} (P : A -> Prop) (l : list A) (i : nat) (x : A) :
  Forall P l -> P x -> Forall P (<[i:=x]> l).
Proof.
  intros Hl Hx. apply List.Forall_forall. intros y Hy.
  apply in_list_insert in Hy. destruct Hy as [->|Hy]; [assumption|].
  rewrite List.Forall_forall in Hl. now apply Hl.
Qed.

Lemma exec_flags act c : flags_consistent c -> flags_consistent (exec E act c).
Proof.
  intros [Hc [Hf Hw]]. destruct (exec_consistent E act c Hc) as [Hc' Hg].
  split; [exact Hc'|]. destruct c as [w workers]. destruct Hc as [Hu Hb].
  cbn [fst snd] in *. destruct act as [i|dt]; simpl in *.
  - destruct (workers !! i) as [wk|] eqn:Hi; [|split; assumption].
    destruct (advance E (worker_task wk) (worker_pc wk) w) as [p' w'] eqn:Hadv.
    cbn [fst snd] in *.
    assert (Hin : In wk workers) by (eapply lookup_In; eassumption).
    assert (Hok : worker_ok w (Worker (worker_task wk) (worker_pc wk))).
    { rewrite List.Forall_forall in Hw. destruct wk. now apply Hw. }
    destruct (advance_flags _ _ _ _ _ Hadv Hu) as [Hf' Hok']; try assumption.
    { intros l Hl. eapply Hb; eassumption. }
    split; [exact Hf'|]. apply Forall_list_insert; [|exact Hok'].
    eapply List.Forall_impl; [|exact Hw]. intros wk0. now apply worker_ok_grows.
  - split; assumption.
Qed.

Lemma run_flags schedule c : flags_consistent c -> flags_consistent (run E schedule c).
Proof.
  revert c. induction schedule as [|act rest IH]; intros c Hc; simpl; [assumption|].
  apply IH. now apply exec_flags.
Qed.

(** A worker alone, as a schedule. *)
Lemma run_alone n tk p w :
  run E (repeat (Run 0) n) (w, [Worker tk p])
  = (snd (advance_n E n tk p w), [Worker tk (fst (advance_n E n tk p w))]).
Proof.
  revert p w. induction n as [|n IH]; intros p w; [reflexivity|].
  cbn [repeat run advance_n].
  destruct (advance E tk p w) as [p1 w1] eqn:Ha.
  rewrite (exec_run E 0 (Worker tk p) [Worker tk p] w p1 w1 eq_refl Ha).
  apply IH.
Qed.

Lemma spawn_flags w tasks :
  ledger_unique (reminder_logs w) -> flag_implies_sent w ->
  flags_consistent (w, spawn tasks).
Proof.
  intros Hu Hf. split; [now apply spawn_consistent|]. split; [exact Hf|].
  apply List.Forall_forall. intros wk Hin. unfold spawn in Hin.
  apply in_map_iff in Hin. destruct Hin as [tk [<- _]]. split; discriminate.
Qed.

End Flags.

(** The flag on the appointment never runs ahead of the ledger.  From a
    world in which every appointment whose [reminderSent] flag is set has
    its row in state Sent, this still holds after any number of concurrent
    calls of [send_reminder_email], whatever the order of their steps; and
    after a scan and after a manual resend, which write to neither store.
    (The sweeper, which deletes rows and leaves the flags, is not among
    them.) *)
Theorem flag_never_ahead_of_the_ledger (E : Env) (w : world) (tasks : list task)
    (schedule : list action) :
  ledger_unique (reminder_logs w) ->
  flag_implies_sent w ->
  flag_implies_sent (fst (run E schedule (w, spawn tasks)))
  /\ (forall tk, flag_implies_sent (snd (run_task E tk w)))
  /\ flag_implies_sent (snd (check_and_send_reminders E w))
  /\ (forall a rtype, flag_implies_sent (snd (send_custom_reminder E a rtype w))).
Proof.
  intros Hu Hf. split; [|split; [|split]].
  - apply (run_flags E schedule (w, spawn tasks)). now apply spawn_flags.
  - intros tk. destruct (run_task_solo E tk w) as [b [w' [Hrun Hadv]]]. rewrite Hrun.
    change (flag_implies_sent (fst (w', [Worker tk (Returned b)]))).
    assert (Hsix : run E (repeat (Run 0) 6) (w, spawn [tk]) = (w', [Worker tk (Returned b)])).
    { unfold spawn. cbn [map]. now rewrite run_alone, Hadv. }
    rewrite <- Hsix. apply (run_flags E _ (w, spawn [tk])). now apply spawn_flags.
  - destruct (check_and_send_reminders E w) as [r w'] eqn:Hc.
    destruct (check_and_send_reminders_frame E _ _ _ Hc) as [q ->]. exact Hf.
  - intros a rtype. destruct (send_custom_reminder E a rtype w) as [r w'] eqn:Hc.
    destruct (send_custom_reminder_frame E _ _ _ _ _ Hc) as [q ->]. exact Hf.
Qed.

(** Two workers for [a1] in turn, from a world without flags. *)
Lemma flag_never_ahead_of_the_ledger_witness :
  flag_implies_sent
    (fst (run Demo.all_up Demo.in_turn (Demo.fresh_world, spawn [Demo.task_a1; Demo.task_a1]))).
Proof.
  assert (Hu : ledger_unique (reminder_logs Demo.fresh_world)) by (split; constructor).
  assert (Hf : flag_implies_sent Demo.fresh_world).
  { intros d a [<-|[]] _ Hflag. vm_compute in Hflag. discriminate. }
  exact (proj1 (flag_never_ahead_of_the_ledger Demo.all_up Demo.fresh_world
                  [Demo.task_a1; Demo.task_a1] Demo.in_turn Hu Hf)).
Defined.

(** ** Rows and the time they were sent at *)

Section Stamped.
Context (E : Env).

Lemma advance_stamped tk p w p' w' :
  advance E tk p w = (p', w') ->
  ledger_stamped (reminder_logs w) -> ledger_stamped (reminder_logs w').
Proof.
  intros Hadv Hst.
  destruct p as [|l|l ctx|l ctx tp|l| |b]; simpl in Hadv.
  - unfold ReminderLog_get_or_create in Hadv.
    destruct (get_or_create_cases (task_appointment_id tk) (task_user_email tk)
                (task_appointment_date tk) "15min" (clock w) (reminder_logs w))
      as [[r0 [Heq _]]|[[Heq _]|[e Heq]]]; rewrite Heq in Hadv;
      injection Hadv as <- <-; try exact Hst.
    intros r Hr. simpl in Hr. rewrite in_app_iff in Hr. destruct Hr as [Hr|[<-|[]]].
    + now apply Hst.
    + split; [discriminate|]. intros H. now contradiction H.
  - destruct (lookup_step_total E tk w) as [ctx Hlook]. rewrite Hlook in Hadv.
    destruct (EmailTemplate.filter_first _ _ _); injection Hadv as <- <-; exact Hst.
  - destruct (create_default_cases w) as [[tp [tb [Heq _]]]|[e Heq]];
      rewrite Heq in Hadv; injection Hadv as <- <-; exact Hst.
  - rewrite send_step_eq in Hadv.
    destruct (render_email E tk ctx tp) as [m|e]; [destruct (smtp_fails E m)|];
      injection Hadv as <- <-; exact Hst.
  - rewrite save_step_eq in Hadv.
    assert (Hsaved : stamped (ReminderLog.touch (mark_sent l (clock w)) (clock w)))
      by (split; [discriminate|reflexivity]).
    destruct (save_cases (mark_sent l (clock w)) (clock w) (reminder_logs w))
      as [[Heq _]|[[Heq _]|[e Heq]]]; rewrite Heq in Hadv; injection Hadv as <- <-.
    + intros r Hr. simpl in Hr. apply in_replace in Hr.
      destruct Hr as [[-> _]|[Hr _]]; [exact Hsaved|now apply Hst].
    + intros r Hr. simpl in Hr. rewrite in_app_iff in Hr.
      destruct Hr as [Hr|[<-|[]]]; [now apply Hst|exact Hsaved].
    + exact Hst.
  - destruct (mark_reminder_sent_cases E (task_appointment_id tk) w) as [b [o [db [Heq _]]]].
    rewrite Heq in Hadv. injection Hadv as <- <-. exact Hst.
  - injection Hadv as <- <-. exact Hst.
Qed.

Lemma run_stamped schedule c :
  ledger_stamped (reminder_logs (fst c)) ->
  ledger_stamped (reminder_logs (fst (run E schedule c))).
Proof.
  revert c. induction schedule as [|act rest IH]; intros [w workers] Hst; simpl; [assumption|].
  apply IH. destruct act as [i|dt]; simpl.
  - destruct (workers !! i) as [wk|]; [|exact Hst].
    destruct (advance E (worker_task wk) (worker_pc wk) w) as [p' w'] eqn:Hadv.
    simpl. eapply advance_stamped; eassumption.
  - exact Hst.
Qed.

End Stamped.

(** A row is in state Sent exactly when [reminder_sent_at] is set.  A
    ledger whose rows are so stays so under any number of concurrent calls
    of [send_reminder_email] in any order of their steps (the workers may be
    at any statement, holding any row), under a single call, under the
    sweeper, the scan and the manual resend: a claim adds a row that is
    Claimed and has no time, and every save stores a row that is Sent and
    has one. *)
Theorem sent_rows_carry_their_time (E : Env) (w : world) (workers : list worker)
    (schedule : list action) :
  ledger_stamped (reminder_logs w) ->
  ledger_stamped (reminder_logs (fst (run E schedule (w, workers))))
  /\ (forall tk, ledger_stamped (reminder_logs (snd (run_task E tk w))))
  /\ ledger_stamped (reminder_logs (snd (cleanup_old_reminders w)))
  /\ ledger_stamped (reminder_logs (snd (check_and_send_reminders E w)))
  /\ (forall a rtype, ledger_stamped (reminder_logs (snd (send_custom_reminder E a rtype w)))).
Proof.
  intros Hst. split; [|split; [|split; [|split]]].
  - now apply (run_stamped E schedule (w, workers)).
  - intros tk. destruct (run_task_solo E tk w) as [b [w' [Hrun Hadv]]]. rewrite Hrun.
    pose proof (run_stamped E (repeat (Run 0) 6) (w, [Worker tk AtClaim]) Hst) as H.
    now rewrite run_alone, Hadv in H.
  - rewrite cleanup_old_reminders_eq. intros r Hr. simpl in Hr.
    apply List.filter_In in Hr. apply Hst. tauto.
  - destruct (check_and_send_reminders E w) as [r w'] eqn:Hc.
    destruct (check_and_send_reminders_frame E _ _ _ Hc) as [q ->]. exact Hst.
  - intros a rtype. destruct (send_custom_reminder E a rtype w) as [r w'] eqn:Hc.
    destruct (send_custom_reminder_frame E _ _ _ _ _ Hc) as [q ->]. exact Hst.
Qed.

(** Two workers for [a1] in turn. *)
Lemma sent_rows_carry_their_time_witness :
  ledger_stamped
    (reminder_logs (fst (run Demo.all_up Demo.in_turn
                           (Demo.fresh_world, spawn [Demo.task_a1; Demo.task_a1])))).
Proof.
  assert (Hst : ledger_stamped (reminder_logs Demo.fresh_world)) by (intros r []).
  exact (proj1 (sent_rows_carry_their_time Demo.all_up Demo.fresh_world
                  (spawn [Demo.task_a1; Demo.task_a1]) Demo.in_turn Hst)).
Defined.

(** ** The views and an outage of the appointment source *)

(** The two views that ask the appointment source cannot tell an outage.
    [health_check] always answers 200 with [status = healthy] and
    [mongodb_connected = True], also when the source is down (it then counts
    no upcoming appointment); it never gives the answer 500 of its [except]
    clause.  [SendReminderView.post] answers 404, [Appointment not found],
    when the source is down, as it does for an appointment that does not
    exist, and queues nothing.  Neither view writes to the world in these
    cases. *)
Theorem views_mask_a_source_outage (E : Env) (isoformat : Z -> string)
    (send_custom_reminder_delay : string -> M string) (w : world) (a : string) :
  health_check E isoformat w
  = (Ok (Response 200
           (<["status" := VStr "healthy"]> (
            <["mongodb_connected" := VBool true]> (
            <["upcoming_appointments" := VInt (Z.of_nat (length (candidates E w)))]> (
            <["timestamp" := VStr (isoformat (clock w))]> ∅))))), w)
  /\ (mongo_fails E OpFind = true -> candidates E w = [])
  /\ ((mongo_fails E (OpFindOne "appointments" (VStr a)) = true
       \/ List.find (id_is (VStr a)) (collection (mongodb w)) = None) ->
      SendReminderView_post E send_custom_reminder_delay a w
      = (Ok (Response 404 (<["error" := VStr "Appointment not found"]> ∅)), w)).
Proof.
  split; [|split].
  - unfold health_check, try_except. unfold bind at 1.
    rewrite candidates_eq, get_appointments_for_reminder_eq. reflexivity.
  - intros Hdown. now rewrite candidates_eq, Hdown.
  - intros Hnone. unfold SendReminderView_post, try_except. unfold bind at 1.
    rewrite get_appointment_by_id_eq.
    destruct Hnone as [-> | ->]; [reflexivity|].
    destruct (mongo_fails E _); reflexivity.
Qed.
